(** * The content curation scripts, embedded and verified

    A shallow embedding of the four TypeScript scripts of the repository:

    - the MCQ set creator (fetchMCQs, fetchMCQsByDifficulty, createMCQSet,
      linkMCQsToSet, main),
    - [generate-mcq.ts] (fetchRandomQuestions, generateMCQs, ...),
    - [upload-pastpapers.ts] (performOCR, mapQuestionTypeToId,
      saveToReviewFile, uploadToSupabase, processAndExtractQuestions),
    - [upload.ts] (summarizeContent, processAndUploadTextbooks).

    Every script talks to collaborators outside the program: the Supabase
    store, the generative and embedding models, the file system, the clock
    and the random number generator.  A collaborator is a function of the
    request and of the state of the outside world, returning an answer and
    the next state of the world; nothing is assumed about it unless a
    hypothesis says so.  Every call made to a collaborator is appended to a
    trace together with the answer received, so that "what was asked, in
    which order" is a property of the trace.

    [async]/[await] is sequential here (each call is awaited before the
    next statement runs), so a [Promise] is a computation of the monad [M].
    A thrown [Error] is the [Err] result carrying its message.
    [console.warn] and [console.error] are trace events; the informational
    [console.log] progress lines have no effect on control flow or data
    and are left out. *)

From Stdlib Require Import ZArith List String Ascii Bool Lia.
From Stdlib Require Import Permutation Sorted DecimalString.
From Stdlib Require Import Floats.
Import ListNotations.

Local Open Scope string_scope.
Local Open Scope Z_scope.

(** ** JavaScript values used by the scripts *)

(** A JS [number] that holds a measurement (an embedding component). *)
Definition number : Type := float.

(** Open key-value bags ([Record<string, any>]) and [any]. *)
#[local] Set Warnings "-register-all".
Inductive Json : Type :=
| JNull
| JStr (s : string)
| JInt (z : Z)
| JArr (l : list Json)
| JObj (fields : list (string * Json)).

(** [x || d] on [string | null]: null and the empty string are falsy. *)
Definition truthy_string (o : option string) : bool :=
  match o with
  | Some s => negb (s =? "")%string
  | None => false
  end.

(** [x || d] on [number | null]: null and 0 are falsy. *)
Definition or_number (o : option Z) (d : Z) : Z :=
  match o with
  | Some v => if v =? 0 then d else v
  | None => d
  end.

(** [Array.prototype.includes] on strings. *)
Definition includes (l : list string) (x : string) : bool :=
  existsb (String.eqb x) l.

(** [Array.prototype.find]. *)
Definition Array_find {A : Type} := @List.find A.

(** [Array.prototype.join]. *)
Fixpoint join (sep : string) (l : list string) : string :=
  match l with
  | [] => ""
  | [x] => x
  | x :: rest => x ++ sep ++ join sep rest
  end.

(** [String.prototype.repeat]. *)
Fixpoint repeat_string (s : string) (n : nat) : string :=
  match n with
  | O => ""
  | S n' => s ++ repeat_string s n'
  end.

(** Template interpolation of an integer: its decimal digits.  This is
    what JavaScript prints for an integer below [10 ^ 21] in absolute
    value (from there on it prints an exponent form); the indices, the
    counts and the schema-checked fields the scripts print are such. *)
Definition show_Z (z : Z) : string := NilZero.string_of_int (Z.to_int z).

Definition newline : string := String (ascii_of_nat 10) "".

Definition quote : string := String (ascii_of_nat 34) "".

(** [String.prototype.endsWith]. *)
Definition endsWith (s suffix : string) : bool :=
  let n := String.length s in
  let m := String.length suffix in
  if (m <=? n)%nat then (substring (n - m) m s =? suffix)%string else false.

(** Appending the pieces of a text in turn ([content += ...]). *)
Definition concat_strings (l : list string) : string :=
  fold_right String.append "" l.

(** Objects and [Map]s with string keys: setting a key keeps the place of
    a key already there, a new key goes last. *)
Fixpoint object_set {V : Type} (key : string) (value : V)
         (o : list (string * V)) : list (string * V) :=
  match o with
  | [] => [(key, value)]
  | (k, v) :: rest =>
      if (k =? key)%string then (k, value) :: rest
      else (k, v) :: object_set key value rest
  end.

Fixpoint object_get {V : Type} (key : string) (o : list (string * V))
  : option V :=
  match o with
  | [] => None
  | (k, v) :: rest => if (k =? key)%string then Some v else object_get key rest
  end.

(** [{...o}]: the properties of [o] copied in order into a new object. *)
Definition object_spread {V : Type} (o : list (string * V))
  : list (string * V) :=
  fold_left (fun acc kv => object_set (fst kv) (snd kv) acc) o [].

(** [Array.prototype.sort(compareFn)]: the sort is stable, and an element
    moves behind another one only when the comparator is positive on
    them.  Elements are inserted from the right, so that among elements
    the comparator does not separate the one that came first stays
    first. *)
Fixpoint sort_insert {A : Type} (cmp : A -> A -> Z) (x : A) (l : list A)
  : list A :=
  match l with
  | [] => [x]
  | y :: l' => if 0 <? cmp x y then y :: sort_insert cmp x l' else x :: l
  end.

Definition Array_sort {A : Type} (cmp : A -> A -> Z) (l : list A) : list A :=
  fold_right (sort_insert cmp) [] l.

(** [Array.prototype.slice(0, e)]: a negative end counts from the back. *)
Definition slice0 {A : Type} (l : list A) (e : Z) : list A :=
  if e <? 0
  then firstn (Z.to_nat (Z.max (Z.of_nat (List.length l) + e) 0)) l
  else firstn (Z.to_nat (Z.min e (Z.of_nat (List.length l)))) l.

(** [Array.prototype.map((x, index) => ...)]. *)
Fixpoint map_index_from {A B : Type} (f : A -> Z -> B) (i : Z) (l : list A)
  : list B :=
  match l with
  | [] => []
  | x :: l' => f x i :: map_index_from f (i + 1) l'
  end.

Definition map_index {A B : Type} (f : A -> Z -> B) (l : list A) : list B :=
  map_index_from f 0 l.

(** ** Results and the monad of the scripts *)

Inductive result (A : Type) : Type :=
| Ok (a : A)
| Err (message : string).
Arguments Ok {A} a.
Arguments Err {A} message.

Definition is_ok {A : Type} (r : result A) : bool :=
  match r with Ok _ => true | Err _ => false end.

(** A computation reads and writes the world [W] and the local variables
    [L] of the running function; what it changed before throwing stays
    changed. *)
Definition M (W L A : Type) : Type := W -> L -> result A * W * L.

Section MonadOps.
Context {W L : Type}.

Definition ret {A : Type} (a : A) : M W L A := fun w l => (Ok a, w, l).

Definition throw {A : Type} (message : string) : M W L A :=
  fun w l => (Err message, w, l).

Definition bind {A B : Type} (c : M W L A) (k : A -> M W L B) : M W L B :=
  fun w l =>
    match c w l with
    | (Ok a, w', l') => k a w' l'
    | (Err e, w', l') => (Err e, w', l')
    end.

(** [try { c } catch (error) { h error }]. *)
Definition try_catch {A : Type} (c : M W L A) (h : string -> M W L A)
  : M W L A :=
  fun w l =>
    match c w l with
    | (Ok a, w', l') => (Ok a, w', l')
    | (Err e, w', l') => h e w' l'
    end.

(** Reading and assigning local variables. *)
Definition get_locals : M W L L := fun w l => (Ok l, w, l).

Definition modify_locals (f : L -> L) : M W L unit :=
  fun w l => (Ok tt, w, f l).

(** A call of the outside world. *)
Definition world_call {A : Type} (f : W -> result A * W) : M W L A :=
  fun w l => let (r, w') := f w in (r, w', l).

(** [for (const x of xs) { body x }]. *)
Fixpoint for_of {A : Type} (xs : list A) (body : A -> M W L unit)
  : M W L unit :=
  match xs with
  | [] => ret tt
  | x :: rest => bind (body x) (fun _ => for_of rest body)
  end.
End MonadOps.

(** Calling a function: it runs on the same world with locals of its own,
    which are dropped when it returns or throws. *)
Definition call {W L L' A : Type} (init : L') (c : M W L' A) : M W L A :=
  fun w l => let '(r, w', _) := c w init in (r, w', l).

Declare Scope script_scope.
Delimit Scope script_scope with script.
Notation "x <- c ;; k" := (bind c (fun x => k))
  (at level 61, c at next level, right associativity) : script_scope.
Notation "c ;;; k" := (bind c (fun _ => k))
  (at level 61, right associativity) : script_scope.
Local Open Scope script_scope.

(** ** Shared shapes *)

(** [interface QuestionType], declared alike in three of the scripts. *)
Record QuestionType : Type := {
  qt_id : string;
  qt_name : string;
  qt_subject : string
}.

(** [process.env]: a variable is a string or undefined. *)
Record ProcessEnv : Type := {
  SUPABASE_URL : option string;
  SUPABASE_ANON_KEY : option string;
  OPENAI_API_KEY : option string;
  PASTPAPERS_FOLDER : option string;
  TEXTBOOKS_FOLDER : option string
}.

(** A query built with the Supabase client:
    [from(table).select(columns).eq(..).in(..)]. *)
Inductive Clause : Type :=
| eq_clause (column value : string)
| in_strings (column : string) (values : list string)
| in_numbers (column : string) (values : list Z).

Record Query : Type := {
  from : string;
  select : string;
  clauses : list Clause
}.

Definition query_eq (column value : string) (q : Query) : Query :=
  {| from := from q; select := select q;
     clauses := (clauses q ++ [eq_clause column value])%list |}.

Definition query_in (column : string) (values : list string) (q : Query)
  : Query :=
  {| from := from q; select := select q;
     clauses := (clauses q ++ [in_strings column values])%list |}.

Definition query_in_numbers (column : string) (values : list Z) (q : Query)
  : Query :=
  {| from := from q; select := select q;
     clauses := (clauses q ++ [in_numbers column values])%list |}.

(** The world of a script: the state of everything outside the program,
    and the calls made so far with their answers. *)
Record World (Env Event : Type) : Type := {
  env : Env;
  trace : list Event
}.
Arguments env {Env Event} w.
Arguments trace {Env Event} w.

Section WorldOps.
Context {Env Event L : Type}.

(** Ask a collaborator and log the call with its answer. *)
Definition ask {A : Type} (f : Env -> A * Env) (ev : A -> Event)
  : M (World Env Event) L A :=
  fun w l =>
    let (a, e') := f (env w) in
    (Ok a, {| env := e'; trace := (trace w ++ [ev a])%list |}, l).

(** Output on the console's error stream. *)
Definition emit (ev : Event) : M (World Env Event) L unit :=
  fun w l =>
    (Ok tt, {| env := env w; trace := (trace w ++ [ev])%list |}, l).

(** A collaborator that rejects its promise throws at the [await]. *)
Definition await {A : Type} (r : result A) : M (World Env Event) L A :=
  match r with
  | Ok a => ret a
  | Err message => throw message
  end.
End WorldOps.

(** How a script ends: [process.exit(code)]. *)
Definition ExitCode : Type := Z.

(** * The MCQ set creator *)

Module SetCreator.

(** [interface MCQ]. *)
Record MCQ : Type := {
  id : string;
  topic : string;
  question : string;
  subject : string;
  options : list (string * string);
  correct_answer : string;
  explanation : string;
  grade_level : option string;
  difficulty : option Z;
  question_type_id : option string;
  source_material_ids : option (list string);
  embedding : Json;
  metadata : list (string * Json);
  created_at : string;
  updated_at : string
}.

(** [interface MCQSet]. *)
Record MCQSet : Type := {
  set_id : string;
  set_topic : string;
  set_description : option string;
  set_subject : string;
  set_created_at : string;
  set_updated_at : string
}.

(** The object inserted into [mcqsets]. *)
Record NewMCQSet : Type := {
  new_topic : string;
  new_description : option string;
  new_subject : string
}.

(** A row of [mcqset_questions]. *)
Record SetQuestion : Type := {
  mcqset_id : string;
  mcq_id : string;
  order_index : Z
}.

Record Distribution : Type := {
  easy : Z;
  medium : Z;
  hard : Z
}.

(** [CONFIG.filters]. *)
Record Filters : Type := {
  filter_topic : option string;
  questionTypeNames : option (list string);
  filter_subject : option string;
  difficultyDistribution : option Distribution;
  limit : Z
}.

(** [CONFIG]. *)
Record Config : Type := {
  setTopic : string;
  setDescription : string;
  setSubject : string;
  filters : Filters
}.

(** The calls the script makes, with the answers it got. *)
Inductive Event : Type :=
| SelectQuestionTypes (q : Query) (answer : result (list QuestionType))
| SelectMCQs (q : Query) (answer : result (list MCQ))
| InsertMCQSet (row : NewMCQSet) (answer : result MCQSet)
| InsertSetQuestions (rows : list SetQuestion) (answer : result unit)
| RandomSort (data shuffled : list MCQ)
| ConsoleWarn (text : string)
| ConsoleError (label error : string).

(** The collaborators: the store's tables and the engine's
    [data.sort(() => 0.5 - Math.random())]. *)
Record External (Env : Type) : Type := {
  select_question_types : Query -> Env -> result (list QuestionType) * Env;
  select_mcqs : Query -> Env -> result (list MCQ) * Env;
  insert_mcqset : NewMCQSet -> Env -> result MCQSet * Env;
  insert_set_questions : list SetQuestion -> Env -> result unit * Env;
  sort_random : list MCQ -> Env -> list MCQ * Env
}.
Arguments select_question_types {Env} e.
Arguments select_mcqs {Env} e.
Arguments insert_mcqset {Env} e.
Arguments insert_set_questions {Env} e.
Arguments sort_random {Env} e.

(** What a clause of a query on [mcqs] demands of a row. *)
Definition text_column (column : string) (m : MCQ) : option string :=
  if (column =? "subject")%string then Some (subject m)
  else if (column =? "topic")%string then Some (topic m)
  else if (column =? "question_type_id")%string then question_type_id m
  else None.

Definition clause_holds (c : Clause) (m : MCQ) : bool :=
  match c with
  | eq_clause column value =>
      match text_column column m with
      | Some v => (v =? value)%string
      | None => false
      end
  | in_strings column values =>
      match text_column column m with
      | Some v => includes values v
      | None => false
      end
  | in_numbers column values =>
      if (column =? "difficulty")%string
      then match difficulty m with
           | Some d => existsb (Z.eqb d) values
           | None => false
           end
      else false
  end.

Section Script.
Context {Env : Type} (ext : External Env).

Abbreviation W := (World Env Event).

(** [fetchQuestionTypes]. *)
Definition fetchQuestionTypes {L : Type} (subject : string)
  : M W L (list QuestionType) :=
  let q := query_eq "subject" subject
             {| from := "question_types"; select := "id, name, subject";
                clauses := [] |} in
  answer <- ask (select_question_types ext q) (SelectQuestionTypes q) ;;
  match answer with
  | Err message => throw ("Failed to fetch question types: " ++ message)
  | Ok data => ret data
  end.

(** The ids the type-name filter resolves to. *)
Definition questionTypeIds (names : list string)
           (questionTypes : list QuestionType) : list string :=
  map qt_id (filter (fun qt => includes names (qt_name qt)) questionTypes).

(** The query [fetchMCQsByDifficulty] builds. *)
Definition mcqs_query (filters : Filters) (questionTypes : list QuestionType)
           (difficultyLevels : option (list Z)) : Query :=
  let query := {| from := "mcqs"; select := "*"; clauses := [] |} in
  let query :=
    match filter_subject filters with
    | Some s => if truthy_string (Some s) then query_eq "subject" s query
                else query
    | None => query
    end in
  let query :=
    match filter_topic filters with
    | Some t => if truthy_string (Some t) then query_eq "topic" t query
                else query
    | None => query
    end in
  let query :=
    match questionTypeNames filters with
    | Some names =>
        if 0 <? Z.of_nat (List.length names)
        then
          let ids := questionTypeIds names questionTypes in
          if 0 <? Z.of_nat (List.length ids)
          then query_in "question_type_id" ids query
          else query
        else query
    | None => query
    end in
  match difficultyLevels with
  | Some levels =>
      if 0 <? Z.of_nat (List.length levels)
      then query_in_numbers "difficulty" levels query
      else query
  | None => query
  end.

(** [fetchMCQsByDifficulty]. *)
Definition fetchMCQsByDifficulty {L : Type} (filters : Filters)
           (questionTypes : list QuestionType)
           (difficultyLevels : option (list Z)) (limit : Z)
  : M W L (list MCQ) :=
  let query := mcqs_query filters questionTypes difficultyLevels in
  answer <- ask (select_mcqs ext query) (SelectMCQs query) ;;
  match answer with
  | Err message => throw ("Failed to fetch MCQs: " ++ message)
  | Ok data =>
      if Z.of_nat (List.length data) =? 0
      then
        emit (ConsoleWarn "  ⚠ No MCQs found matching the criteria") ;;;
        ret []
      else
        shuffled <- ask (sort_random ext data) (RandomSort data) ;;
        ret (slice0 shuffled (Z.min limit (Z.of_nat (List.length data))))
  end.

(** [fetchMCQs]; its local variable is [allMCQs]. *)
Definition fetchMCQs (filters : Filters) (questionTypes : list QuestionType)
  : M W (list MCQ) (list MCQ) :=
  modify_locals (fun _ => []) ;;;
  match difficultyDistribution filters with
  | Some dist =>
      (if 0 <? easy dist
       then
         easyQuestions <-
           fetchMCQsByDifficulty filters questionTypes (Some [1; 2])
             (easy dist) ;;
         modify_locals (fun allMCQs => (allMCQs ++ easyQuestions)%list)
       else ret tt) ;;;
      (if 0 <? medium dist
       then
         mediumQuestions <-
           fetchMCQsByDifficulty filters questionTypes (Some [3])
             (medium dist) ;;
         modify_locals (fun allMCQs => (allMCQs ++ mediumQuestions)%list)
       else ret tt) ;;;
      (if 0 <? hard dist
       then
         hardQuestions <-
           fetchMCQsByDifficulty filters questionTypes (Some [4; 5])
             (hard dist) ;;
         modify_locals (fun allMCQs => (allMCQs ++ hardQuestions)%list)
       else ret tt) ;;;
      get_locals
  | None =>
      questions <-
        fetchMCQsByDifficulty filters questionTypes None (limit filters) ;;
      modify_locals (fun allMCQs => (allMCQs ++ questions)%list) ;;;
      get_locals
  end.

(** [createMCQSet]. *)
Definition createMCQSet {L : Type} (topic : string)
           (description : option string) (subject : string)
  : M W L MCQSet :=
  let row := {| new_topic := topic; new_description := description;
                new_subject := subject |} in
  answer <- ask (insert_mcqset ext row) (InsertMCQSet row) ;;
  match answer with
  | Err message => throw ("Failed to create MCQ set: " ++ message)
  | Ok data => ret data
  end.

(** The comparator of [linkMCQsToSet]. *)
Definition by_difficulty (a b : MCQ) : Z :=
  let diffA := or_number (difficulty a) 999 in
  let diffB := or_number (difficulty b) 999 in
  diffA - diffB.

Definition sortedMCQs (mcqs : list MCQ) : list MCQ :=
  Array_sort by_difficulty mcqs.

Definition mcqSetQuestions (mcqSetId : string) (mcqs : list MCQ)
  : list SetQuestion :=
  map_index
    (fun mcq index =>
       {| mcqset_id := mcqSetId; mcq_id := id mcq;
          order_index := index + 1 |})
    (sortedMCQs mcqs).

(** [linkMCQsToSet]. *)
Definition linkMCQsToSet {L : Type} (mcqSetId : string) (mcqs : list MCQ)
  : M W L unit :=
  let rows := mcqSetQuestions mcqSetId mcqs in
  answer <- ask (insert_set_questions ext rows) (InsertSetQuestions rows) ;;
  match answer with
  | Err message => throw ("Failed to link MCQs to set: " ++ message)
  | Ok _ => ret tt
  end.

(** [main]; [displayMCQSummary] only prints. *)
Definition main (CONFIG : Config) : M W unit unit :=
  try_catch
    (questionTypes <-
       (if orb (match questionTypeNames (filters CONFIG) with
                | Some _ => true
                | None => false
                end)
               (truthy_string (filter_subject (filters CONFIG)))
        then fetchQuestionTypes (setSubject CONFIG)
        else ret []) ;;
     selectedMCQs <- call [] (fetchMCQs (filters CONFIG) questionTypes) ;;
     (if Z.of_nat (List.length selectedMCQs) =? 0
      then throw "No MCQs found matching the criteria"
      else ret tt) ;;;
     mcqSet <- createMCQSet (setTopic CONFIG) (Some (setDescription CONFIG))
                 (setSubject CONFIG) ;;
     linkMCQsToSet (set_id mcqSet) selectedMCQs)
    (fun error =>
       emit (ConsoleError (newline ++ "✗ Error:") error) ;;;
       throw error).

(** The script: the module-level credential check, then
    [main().then(() => process.exit(0)).catch(.. process.exit(1))].  An
    error thrown while the module loads is uncaught and ends the
    process with status 1. *)
Definition script (penv : ProcessEnv) (CONFIG : Config) (w : W)
  : ExitCode * W :=
  if orb (negb (truthy_string (SUPABASE_URL penv)))
         (negb (truthy_string (SUPABASE_ANON_KEY penv)))
  then (1, w)
  else
    match main CONFIG w tt with
    | (Ok _, w', _) => (0, w')
    | (Err error, w', _) =>
        (1, {| env := env w';
               trace := (trace w'
                           ++ [ConsoleError (newline ++ "✗ Script failed:")
                                 error])%list |})
    end.
End Script.

End SetCreator.

(** * [generate-mcq.ts] *)

Module McqGenerator.

(** [interface PastPaperQuestion]. *)
Record PastPaperQuestion : Type := {
  id : string;
  topic : string;
  question : string;
  answer : string;
  question_number : Z;
  question_year : Z;
  subject : string;
  explanation : string;
  difficulty : Z;
  grade_level : string;
  question_type_id : string
}.

(** [interface TextbookContent]. *)
Record TextbookContent : Type := {
  textbook_topic : string;
  textbook_content : string;
  textbook_subject : string
}.

(** [z.enum(['A', 'B', 'C', 'D'])]. *)
Inductive Label : Type := A | B | C | D.

Definition show_Label (l : Label) : string :=
  match l with A => "A" | B => "B" | C => "C" | D => "D" end.

Record Options : Type := {
  option_A : string;
  option_B : string;
  option_C : string;
  option_D : string
}.

(** [type GeneratedMCQ], the shape of [MCQSchema]. *)
Record GeneratedMCQ : Type := {
  mcq_question : string;
  mcq_options : Options;
  correct_answer : Label;
  mcq_explanation : string;
  mcq_difficulty : Z;
  mcq_topic : string;
  question_type_name : string
}.

Definition GeneratedMCQs : Type := list GeneratedMCQ.

(** ['easy' | 'medium' | 'hard' | 'mixed']. *)
Inductive Difficulty : Type := easy | medium | hard | mixed.

(** [CONFIG]. *)
Record Config : Type := {
  config_subject : string;
  config_topic : option string;
  questionTypes : option (list string);
  numberOfQuestions : Z;
  numberOfMCQsToGenerate : Z;
  config_difficulty : Difficulty;
  outputFile : string
}.

(** The calls the script makes, with the answers it got. *)
Inductive Event : Type :=
| SelectQuestionTypes (q : Query) (answer : result (list QuestionType))
| SelectPastpapers (q : Query) (answer : result (list PastPaperQuestion))
| SelectTextbook (q : Query) (answer : result TextbookContent)
| RandomSort (data shuffled : list PastPaperQuestion)
| GenerateObject (model prompt : string) (answer : result GeneratedMCQs)
| Now (answer : string)
| WriteFile (path content encoding : string) (answer : result unit)
| ConsoleError (label error : string).

(** The collaborators.  [generate_object] is the generation model before
    the schema is enforced; [select_textbook] is a [.single()] query. *)
Record External (Env : Type) : Type := {
  select_question_types : Query -> Env -> result (list QuestionType) * Env;
  select_pastpapers : Query -> Env -> result (list PastPaperQuestion) * Env;
  select_textbook : Query -> Env -> result TextbookContent * Env;
  sort_random :
    list PastPaperQuestion -> Env -> list PastPaperQuestion * Env;
  generate_object : string -> string -> Env -> result GeneratedMCQs * Env;
  toISOString : Env -> string * Env;
  writeFile : string -> string -> string -> Env -> result unit * Env
}.
Arguments select_question_types {Env} e.
Arguments select_pastpapers {Env} e.
Arguments select_textbook {Env} e.
Arguments sort_random {Env} e.
Arguments generate_object {Env} e.
Arguments toISOString {Env} e.
Arguments writeFile {Env} e.

(** What a clause of a query on [pastpapers] demands of a row. *)
Definition text_column (column : string) (p : PastPaperQuestion)
  : option string :=
  if (column =? "subject")%string then Some (subject p)
  else if (column =? "topic")%string then Some (topic p)
  else if (column =? "question_type_id")%string then Some (question_type_id p)
  else None.

Definition clause_holds (c : Clause) (p : PastPaperQuestion) : bool :=
  match c with
  | eq_clause column value =>
      match text_column column p with
      | Some v => (v =? value)%string
      | None => false
      end
  | in_strings column values =>
      match text_column column p with
      | Some v => includes values v
      | None => false
      end
  | in_numbers column values =>
      if (column =? "difficulty")%string
      then existsb (Z.eqb (difficulty p)) values
      else false
  end.

(** [MCQSchema]: the fields are typed by the record; the schema also
    bounds the difficulty. *)
Definition MCQSchema (m : GeneratedMCQ) : bool :=
  (1 <=? mcq_difficulty m) && (mcq_difficulty m <=? 5).

Definition MCQsSchema (ms : GeneratedMCQs) : bool := forallb MCQSchema ms.

Definition schema_violation : string :=
  "No object generated: response did not match schema.".

(** [difficultyGuidance]. *)
Definition difficultyGuidance (difficulty : Difficulty) : string :=
  match difficulty with
  | easy => "所有題目應該是基礎難度（1-2/5），適合初學者，著重基本概念和直接理解。"
  | medium => "所有題目應該是中等難度（3/5），適合一般學生，需要一定分析能力。"
  | hard => "所有題目應該是高難度（4-5/5），適合進階學生，需要深入思考和綜合分析。"
  | mixed => "難度分佈要均衡（簡單、中等、困難都要有），覆蓋不同程度學生。"
  end.

(** [questionsContext]. *)
Definition questionsContext (sampleQuestions : list PastPaperQuestion)
  : string :=
  join (newline ++ newline)
    (map_index
       (fun q idx =>
          "範例題目 " ++ show_Z (idx + 1) ++ ":" ++ newline
          ++ "題目: " ++ q.(question) ++ newline
          ++ "答案: " ++ q.(answer) ++ newline
          ++ "解析: " ++ q.(explanation) ++ newline
          ++ "難度: " ++ show_Z q.(difficulty) ++ "/5")
       sampleQuestions).

Definition quoted (s : string) : string := quote ++ s ++ quote.

(** The message of [generateMCQs]. *)
Definition generation_prompt (textbookContent : TextbookContent)
           (questionsContext : string) (questionTypesList : string)
           (difficultyGuidance : string) (numberOfMCQs : Z) : string :=
  join newline
    [ "你是一個專業的DSE中文科試題出題專家。請根據以下範文內容和範例題目，生成 "
        ++ show_Z numberOfMCQs ++ " 道高質量的選擇題（MCQ）。";
      "";
      "【範文內容】";
      "篇目: " ++ textbook_topic textbookContent;
      "內容:";
      textbook_content textbookContent;
      "";
      "【範例題目參考】";
      questionsContext;
      "";
      "【可用的題目類型】";
      "請為每道題目選擇最適合的類型，必須從以下列表中選擇：";
      questionTypesList;
      "";
      "【出題要求】";
      "1. 每道題目必須有4個選項（A, B, C, D）";
      "2. 題目應該測試學生對範文的理解，包括但不限於：";
      "   - 文句理解與翻譯";
      "   - 主旨情感分析";
      "   - 修辭手法識別";
      "   - 文言詞彙理解";
      "   - 作者觀點分析";
      "   - 結構安排理解";
      "3. 選項要有合理的迷惑性，但只有一個正確答案";
      "4. " ++ difficultyGuidance;
      "5. 每道題目都要提供詳細的解析說明";
      "6. 題目要參考範例題目的風格，但不要直接抄襲";
      "7. 確保題目答案可以在範文內容中找到依據";
      "";
      "【JSON輸出格式】";
      "請以JSON數組格式返回，每個題目包含以下欄位：";
      "- question (string): 題目文字";
      "- options (object): 包含 A, B, C, D 四個選項的對象";
      "- correct_answer (string): 正確答案（" ++ quoted "A" ++ ", "
        ++ quoted "B" ++ ", " ++ quoted "C" ++ ", 或 " ++ quoted "D" ++ "）";
      "- explanation (string): 詳細解析";
      "- difficulty (number): 難度等級（1-5的整數）";
      "- topic (string): 題目所屬範文篇目";
      "- question_type_name (string): 題目類型，必須從上述可用的題目類型列表中選擇";
      "";
      "範例格式：";
      "[";
      "  {";
      "    " ++ quoted "question" ++ ": " ++ quoted "題目內容..." ++ ",";
      "    " ++ quoted "options" ++ ": {";
      "      " ++ quoted "A" ++ ": " ++ quoted "選項A內容" ++ ",";
      "      " ++ quoted "B" ++ ": " ++ quoted "選項B內容" ++ ",";
      "      " ++ quoted "C" ++ ": " ++ quoted "選項C內容" ++ ",";
      "      " ++ quoted "D" ++ ": " ++ quoted "選項D內容";
      "    },";
      "    " ++ quoted "correct_answer" ++ ": " ++ quoted "A" ++ ",";
      "    " ++ quoted "explanation" ++ ": " ++ quoted "解析內容..." ++ ",";
      "    " ++ quoted "difficulty" ++ ": 3,";
      "    " ++ quoted "topic" ++ ": "
        ++ quoted (textbook_topic textbookContent) ++ ",";
      "    " ++ quoted "question_type_name" ++ ": "
        ++ quoted "文句翻譯與名句摘錄";
      "  }";
      "]";
      "";
      "請生成 " ++ show_Z numberOfMCQs ++ " 道符合以上要求的選擇題。" ].

(** One block of the output file. *)
Definition mcq_block (mcq : GeneratedMCQ) (index : Z) : string :=
  "Question " ++ show_Z (index + 1) ++ ":" ++ newline
  ++ mcq_question mcq ++ newline ++ newline
  ++ "A. " ++ option_A (mcq_options mcq) ++ newline
  ++ "B. " ++ option_B (mcq_options mcq) ++ newline
  ++ "C. " ++ option_C (mcq_options mcq) ++ newline
  ++ "D. " ++ option_D (mcq_options mcq) ++ newline ++ newline
  ++ "Correct Answer: " ++ show_Label (correct_answer mcq) ++ newline
  ++ "Difficulty: " ++ show_Z (mcq_difficulty mcq) ++ "/5" ++ newline
  ++ "Topic: " ++ mcq_topic mcq ++ newline
  ++ "Question Type: " ++ question_type_name mcq ++ newline
  ++ "Explanation: " ++ mcq_explanation mcq ++ newline
  ++ repeat_string "-" 80 ++ newline ++ newline.

(** The [content] of [saveMCQsToFile]. *)
Definition mcqs_content (mcqs : GeneratedMCQs) (config : Config)
           (generated : string) : string :=
  "=== GENERATED MCQ QUESTIONS ===" ++ newline
  ++ "Generated: " ++ generated ++ newline
  ++ "Topic: "
  ++ (if truthy_string (config_topic config)
      then match config_topic config with Some t => t | None => "" end
      else "All topics") ++ newline
  ++ "Question Types: "
  ++ (match questionTypes config with
      | Some names =>
          if truthy_string (Some (join ", " names)) then join ", " names
          else "All types"
      | None => "All types"
      end) ++ newline
  ++ "Total Questions: " ++ show_Z (Z.of_nat (List.length mcqs)) ++ newline
  ++ repeat_string "=" 80 ++ newline ++ newline
  ++ concat_strings (map_index mcq_block mcqs).

Section Script.
Context {Env : Type} (ext : External Env).

Abbreviation W := (World Env Event).

(** [fetchQuestionTypes]. *)
Definition fetchQuestionTypes {L : Type} (subject : string)
  : M W L (list QuestionType) :=
  let q := query_eq "subject" subject
             {| from := "question_types"; select := "id, name, subject";
                clauses := [] |} in
  answer <- ask (select_question_types ext q) (SelectQuestionTypes q) ;;
  match answer with
  | Err message => throw ("Failed to fetch question types: " ++ message)
  | Ok data => ret data
  end.

(** The ids the type-name filter resolves to. *)
Definition questionTypeIds (questionTypeNames : list string)
           (questionTypes : list QuestionType) : list string :=
  map qt_id
    (filter (fun qt => includes questionTypeNames (qt_name qt)) questionTypes).

(** The query [fetchRandomQuestions] builds. *)
Definition pastpapers_query (subject : string) (topic : option string)
           (questionTypeNames : option (list string))
           (questionTypes : list QuestionType) : Query :=
  let query := query_eq "subject" subject
                 {| from := "pastpapers"; select := "*"; clauses := [] |} in
  let query :=
    match topic with
    | Some t => if truthy_string (Some t) then query_eq "topic" t query
                else query
    | None => query
    end in
  match questionTypeNames with
  | Some names =>
      if 0 <? Z.of_nat (List.length names)
      then
        let ids := questionTypeIds names questionTypes in
        if 0 <? Z.of_nat (List.length ids)
        then query_in "question_type_id" ids query
        else query
      else query
  | None => query
  end.

(** [fetchRandomQuestions]. *)
Definition fetchRandomQuestions {L : Type} (subject : string)
           (topic : option string) (questionTypeNames : option (list string))
           (limit : Z) (questionTypes : list QuestionType)
  : M W L (list PastPaperQuestion) :=
  let query := pastpapers_query subject topic questionTypeNames questionTypes in
  answer <- ask (select_pastpapers ext query) (SelectPastpapers query) ;;
  match answer with
  | Err message => throw ("Failed to fetch questions: " ++ message)
  | Ok data =>
      if Z.of_nat (List.length data) =? 0
      then throw "No questions found matching the criteria"
      else
        shuffled <- ask (sort_random ext data) (RandomSort data) ;;
        ret (slice0 shuffled (Z.min limit (Z.of_nat (List.length data))))
  end.

(** [fetchTextbookContent]. *)
Definition fetchTextbookContent {L : Type} (subject topic : string)
  : M W L TextbookContent :=
  let q := query_eq "topic" topic
             (query_eq "subject" subject
                {| from := "textbooks"; select := "topic, content, subject";
                   clauses := [] |}) in
  answer <- ask (select_textbook ext q) (SelectTextbook q) ;;
  match answer with
  | Err message => throw ("Failed to fetch textbook content: " ++ message)
  | Ok data => ret data
  end.

(** [generateObject] with [MCQsSchema]: the model's answer is returned
    only when it matches the schema. *)
Definition generateObject {L : Type} (model prompt : string)
  : M W L GeneratedMCQs :=
  answer <- ask (generate_object ext model prompt)
              (GenerateObject model prompt) ;;
  object <- await answer ;;
  if MCQsSchema object then ret object else throw schema_violation.

(** [generateMCQs]. *)
Definition generateMCQs {L : Type} (textbookContent : TextbookContent)
           (sampleQuestions : list PastPaperQuestion) (numberOfMCQs : Z)
           (difficulty : Difficulty) (questionTypes : list QuestionType)
  : M W L GeneratedMCQs :=
  try_catch
    (let questionsContext := questionsContext sampleQuestions in
     let difficultyGuidance := difficultyGuidance difficulty in
     let questionTypesList :=
       join newline (map (fun qt => "- " ++ qt_name qt) questionTypes) in
     generateObject "deepseek-v3.2"
       (generation_prompt textbookContent questionsContext questionTypesList
          difficultyGuidance numberOfMCQs))
    (fun error =>
       emit (ConsoleError "Error generating MCQs:" error) ;;;
       throw error).

(** [saveMCQsToFile]. *)
Definition saveMCQsToFile {L : Type} (mcqs : GeneratedMCQs)
           (outputPath : string) (config : Config) : M W L unit :=
  generated <- ask (toISOString ext) Now ;;
  let content := mcqs_content mcqs config generated in
  written <- ask (writeFile ext outputPath content "utf-8")
               (WriteFile outputPath content "utf-8") ;;
  await written.

(** [generateMCQQuestions]. *)
Definition generateMCQQuestions (CONFIG : Config) : M W unit unit :=
  questionTypes <- fetchQuestionTypes (config_subject CONFIG) ;;
  sampleQuestions <-
    fetchRandomQuestions (config_subject CONFIG) (config_topic CONFIG)
      (McqGenerator.questionTypes CONFIG) (numberOfQuestions CONFIG)
      questionTypes ;;
  match config_topic CONFIG with
  | Some topic =>
      if truthy_string (Some topic)
      then
        textbookContent <- fetchTextbookContent (config_subject CONFIG) topic ;;
        generatedMCQs <-
          generateMCQs textbookContent sampleQuestions
            (numberOfMCQsToGenerate CONFIG) (config_difficulty CONFIG)
            questionTypes ;;
        saveMCQsToFile generatedMCQs (outputFile CONFIG) CONFIG
      else throw "Topic must be specified for textbook content retrieval"
  | None => throw "Topic must be specified for textbook content retrieval"
  end.

(** The script: the module-level credential checks, then
    [generateMCQQuestions().then(..exit(0)).catch(..exit(1))]. *)
Definition script (penv : ProcessEnv) (CONFIG : Config) (w : W)
  : ExitCode * W :=
  if orb (negb (truthy_string (SUPABASE_URL penv)))
         (negb (truthy_string (SUPABASE_ANON_KEY penv)))
  then (1, w)
  else if negb (truthy_string (OPENAI_API_KEY penv))
  then (1, w)
  else
    match generateMCQQuestions CONFIG w tt with
    | (Ok _, w', _) => (0, w')
    | (Err error, w', _) =>
        (1, {| env := env w';
               trace := (trace w'
                           ++ [ConsoleError (newline ++ "✗ Script failed:")
                                 error])%list |})
    end.
End Script.

End McqGenerator.

(** * [upload-pastpapers.ts] *)

Module PastpaperUploader.

(** [type PastPaperQuestion]: a candidate as the extraction model
    returns it. *)
Record PastPaperQuestion : Type := {
  topic : string;
  question : string;
  answer : string;
  question_number : Z;
  question_year : Z;
  subject : string;
  explanation : string;
  difficulty : Z;
  grade_level : string;
  question_type_name : string
}.

Definition ExtractedQuestions : Type := list PastPaperQuestion.

(** [interface Topic]. *)
Record Topic : Type := {
  topic_topic : string;
  topic_subject : string
}.

(** The [metadata] object of a record. *)
Record Metadata : Type := {
  source_image : string;
  extracted_at : string;
  metadata_question_type_name : string
}.

(** [interface PastPaperRecord]: the candidate's fields without
    [question_type_name], and three more. *)
Record PastPaperRecord : Type := {
  record_topic : string;
  record_question : string;
  record_question_number : Z;
  record_question_year : Z;
  record_subject : string;
  record_explanation : string;
  record_answer : string;
  record_difficulty : Z;
  record_grade_level : string;
  question_type_id : string;
  embedding : list number;
  metadata : Metadata
}.

(** [CONFIG]; the source sets [subject] and [gradeLevel] to literals and
    derives the two paths from the environment. *)
Record Config : Type := {
  config_subject : string;
  gradeLevel : string;
  pastpapersFolder : string;
  outputFile : string
}.

(** The local variables of [processAndExtractQuestions]. *)
Record Locals : Type := {
  allRecords : list PastPaperRecord;
  successCount : Z;
  errorCount : Z
}.

(** What the closing summary of a run prints. *)
Record Summary : Type := {
  images_processed : Z;
  successful_extractions : Z;
  failed_extractions : Z;
  questions_extracted : Z
}.

(** The calls the script makes, with the answers it got. *)
Inductive Event : Type :=
| SelectQuestionTypes (q : Query) (answer : result (list QuestionType))
| SelectTopics (q : Query) (answer : result (list Topic))
| ReadDir (path : string) (answer : result (list string))
| ReadFile (path : string) (answer : result string)
| GenerateObject (model text image : string)
                 (answer : result ExtractedQuestions)
| Embed (model value : string) (answer : result (list number))
| Now (answer : string)
| WriteFile (path content encoding : string) (answer : result unit)
| Insert (row : PastPaperRecord) (answer : result (list string))
| ConsoleWarn (text : string)
| ConsoleError (label error : string).

(** The collaborators.  [generate_object] is the extraction model before
    the schema is enforced; [insert_pastpaper] answers with the ids of the
    inserted rows; the last four are pure library functions. *)
Record External (Env : Type) : Type := {
  select_question_types : Query -> Env -> result (list QuestionType) * Env;
  select_topics : Query -> Env -> result (list Topic) * Env;
  readdir : string -> Env -> result (list string) * Env;
  readFile : string -> Env -> result string * Env;
  generate_object :
    string -> string -> string -> Env -> result ExtractedQuestions * Env;
  embed : string -> string -> Env -> result (list number) * Env;
  toISOString : Env -> string * Env;
  writeFile : string -> string -> string -> Env -> result unit * Env;
  insert_pastpaper : PastPaperRecord -> Env -> result (list string) * Env;
  base64 : string -> string;
  path_basename : string -> string;
  path_join : string -> string -> string;
  JSON_stringify : Metadata -> string
}.
Arguments select_question_types {Env} e.
Arguments select_topics {Env} e.
Arguments readdir {Env} e.
Arguments readFile {Env} e.
Arguments generate_object {Env} e.
Arguments embed {Env} e.
Arguments toISOString {Env} e.
Arguments writeFile {Env} e.
Arguments insert_pastpaper {Env} e.
Arguments base64 {Env} e.
Arguments path_basename {Env} e.
Arguments path_join {Env} e.
Arguments JSON_stringify {Env} e.

(** [z.number().int()] accepts the integers a JavaScript number holds
    exactly. *)
Definition is_safe_integer (n : Z) : bool :=
  (- (2 ^ 53 - 1) <=? n) && (n <=? 2 ^ 53 - 1).

(** [PastPaperQuestionSchema]: the fields are typed by the record; the
    schema also bounds the three integers. *)
Definition PastPaperQuestionSchema (q : PastPaperQuestion) : bool :=
  is_safe_integer (question_number q)
  && is_safe_integer (question_year q)
  && ((1 <=? difficulty q) && (difficulty q <=? 5)).

Definition ExtractedQuestionsSchema (qs : ExtractedQuestions) : bool :=
  forallb PastPaperQuestionSchema qs.

(** The message of the error [generateObject] throws when the model's
    answer does not match the schema. *)
Definition schema_violation : string :=
  "No object generated: response did not match schema.".

(** The instruction text of [performOCR]. *)
Definition ocr_prompt (topicsList questionTypesList : string) : string :=
  join newline
    [ "你是一個專業的DSE中文科考試分析專家。請仔細分析這張圖片中的考題，並提取所有題目。返回一個題目數組。";
      "";
      "對於每個題目，請提供以下資訊：";
      "1. topic: 題目涉及的範文篇目，必須從以下列表中選擇：";
      "";
      "可選的範文篇目：";
      topicsList;
      "";
      "2. question: 完整的題目內容";
      "3. answer: 題目的答案";
      "4. question_number: 題號（如果圖片中有標示 (一定要是整數)";
      "5. question_year: 年份（如果圖片中有標示）(一定要是整數)";
      "6. subject: 科目（DSE中文12篇範文）";
      "7. explanation: 題目解析，包含答題要點與分析";
      "8. difficulty: 難度（1-5，其中1最簡單，5最難，一定要是整數）";
      "9. grade_level: DSE";
      "10. question_type_name: 題目類型，必須從以下列表中選擇：";
      "";
      "可選的題目類型：";
      questionTypesList;
      "";
      "請確保：";
      "- 準確提取所有文字內容";
      "- 正確識別題號和年份";
      "- topic 和 question_type_name 必須從上述列表中選擇";
      "- 合理評估難度";
      "- 如果一張圖片包含多個題目，請全部提取" ].

(** [mapQuestionTypeToId]. *)
Definition mapQuestionTypeToId (questionTypeName : string)
           (questionTypes : list QuestionType) : result string :=
  match Array_find (fun qt => (qt_name qt =? questionTypeName)%string)
                   questionTypes with
  | None =>
      Err ("Question type " ++ quote ++ questionTypeName ++ quote
           ++ " not found in available types")
  | Some questionType => Ok (qt_id questionType)
  end.

(** The text the embedding is computed from. *)
Definition grounding_text (q : PastPaperQuestion) : string :=
  q.(question) ++ newline ++ q.(answer) ++ newline
  ++ q.(explanation).

(** The record literal of [processAndExtractQuestions]. *)
Definition make_record (CONFIG : Config) (q : PastPaperQuestion)
           (questionTypeId : string) (embedding : list number)
           (filename extracted_at : string) : PastPaperRecord :=
  {| record_topic := q.(topic);
     record_question := q.(question);
     record_question_number := q.(question_number);
     record_question_year := q.(question_year);
     record_subject := config_subject CONFIG;
     record_explanation := q.(explanation);
     record_answer := q.(answer);
     record_difficulty := q.(difficulty);
     record_grade_level := gradeLevel CONFIG;
     question_type_id := questionTypeId;
     embedding := embedding;
     metadata :=
       {| source_image := filename;
          extracted_at := extracted_at;
          metadata_question_type_name := q.(question_type_name) |} |}.

(** One block of the review file. *)
Definition review_block (stringify : Metadata -> string)
           (q : PastPaperRecord) (index : Z) : string :=
  "Question " ++ show_Z (index + 1) ++ ":" ++ newline
  ++ "  Topic: " ++ record_topic q ++ newline
  ++ "  Year: " ++ show_Z (record_question_year q) ++ newline
  ++ "  Question Number: " ++ show_Z (record_question_number q) ++ newline
  ++ "  Subject: " ++ record_subject q ++ newline
  ++ "  Grade Level: " ++ record_grade_level q ++ newline
  ++ "  Question Type ID: " ++ question_type_id q ++ newline
  ++ "  Difficulty: " ++ show_Z (record_difficulty q) ++ "/5" ++ newline
  ++ "  Explanation: " ++ record_explanation q ++ newline
  ++ "  Question:" ++ record_question q ++ newline
  ++ "  Answer:" ++ record_answer q ++ newline
  ++ "  Metadata: " ++ stringify (metadata q) ++ newline
  ++ repeat_string "-" 80 ++ newline ++ newline.

Definition review_header (count : Z) (generated : string) : string :=
  "=== EXTRACTED PAST PAPER QUESTIONS ===" ++ newline
  ++ "Total Questions: " ++ show_Z count ++ newline
  ++ "Generated: " ++ generated ++ newline
  ++ repeat_string "=" 80 ++ newline ++ newline.

(** The [content] of [saveToReviewFile]. *)
Definition review_content (stringify : Metadata -> string)
           (questions : list PastPaperRecord) (generated : string) : string :=
  review_header (Z.of_nat (List.length questions)) generated
  ++ concat_strings (map_index (review_block stringify) questions).

Definition push_record (record : PastPaperRecord) (l : Locals) : Locals :=
  {| allRecords := (allRecords l ++ [record])%list;
     successCount := successCount l;
     errorCount := errorCount l |}.

Definition incr_successCount (l : Locals) : Locals :=
  {| allRecords := allRecords l;
     successCount := successCount l + 1;
     errorCount := errorCount l |}.

Definition incr_errorCount (l : Locals) : Locals :=
  {| allRecords := allRecords l;
     successCount := successCount l;
     errorCount := errorCount l + 1 |}.

(** [const allRecords = []; let successCount = 0; let errorCount = 0]. *)
Definition init_locals : Locals :=
  {| allRecords := []; successCount := 0; errorCount := 0 |}.

(** The counters of [uploadToSupabase]: (successCount, errorCount). *)
Definition UploadCounts : Type := (Z * Z)%type.

Section Script.
Context {Env : Type} (ext : External Env).

Abbreviation W := (World Env Event).

(** [fetchQuestionTypes]. *)
Definition fetchQuestionTypes {L : Type} (subject : string)
  : M W L (list QuestionType) :=
  let q := query_eq "subject" subject
             {| from := "question_types"; select := "id, name, subject";
                clauses := [] |} in
  answer <- ask (select_question_types ext q) (SelectQuestionTypes q) ;;
  match answer with
  | Err message => throw ("Failed to fetch question types: " ++ message)
  | Ok data => ret data
  end.

(** [fetchTopics]. *)
Definition fetchTopics {L : Type} (subject : string) : M W L (list Topic) :=
  let q := query_eq "subject" subject
             {| from := "textbooks"; select := "topic, subject";
                clauses := [] |} in
  answer <- ask (select_topics ext q) (SelectTopics q) ;;
  match answer with
  | Err message => throw ("Failed to fetch topics: " ++ message)
  | Ok data => ret data
  end.

(** [generateObject] with [ExtractedQuestionsSchema]: the model's answer
    is returned only when it matches the schema. *)
Definition generateObject {L : Type} (model text image : string)
  : M W L ExtractedQuestions :=
  answer <- ask (generate_object ext model text image)
              (GenerateObject model text image) ;;
  object <- await answer ;;
  if ExtractedQuestionsSchema object then ret object
  else throw schema_violation.

(** [performOCR]. *)
Definition performOCR {L : Type} (imagePath : string)
           (questionTypes : list QuestionType) (topics : list Topic)
  : M W L ExtractedQuestions :=
  try_catch
    (read <- ask (readFile ext imagePath) (ReadFile imagePath) ;;
     imageBuffer <- await read ;;
     let base64Image := base64 ext imageBuffer in
     let mimeType :=
       if endsWith imagePath ".png" then "image/png" else "image/jpeg" in
     let questionTypesList :=
       join newline (map (fun qt => "- " ++ qt_name qt) questionTypes) in
     let topicsList :=
       join newline (map (fun t => "- " ++ topic_topic t) topics) in
     generateObject "qwen3-vl-plus" (ocr_prompt topicsList questionTypesList)
       ("data:" ++ mimeType ++ ";base64," ++ base64Image))
    (fun error =>
       emit (ConsoleError "Error performing OCR:" error) ;;;
       throw error).

(** [generateEmbedding]. *)
Definition generateEmbedding {L : Type} (text : string)
  : M W L (list number) :=
  try_catch
    (answer <- ask (embed ext "bge-m3" text) (Embed "bge-m3" text) ;;
     await answer)
    (fun error =>
       emit (ConsoleError "Error generating embedding:" error) ;;;
       throw error).

(** [readImageFiles]. *)
Definition readImageFiles {L : Type} (folderPath : string)
  : M W L (list string) :=
  try_catch
    (listing <- ask (readdir ext folderPath) (ReadDir folderPath) ;;
     files <- await listing ;;
     let imageFiles :=
       filter (fun file => endsWith file ".jpg" || endsWith file ".jpeg"
                           || endsWith file ".png") files in
     if Z.of_nat (List.length imageFiles) =? 0
     then
       emit (ConsoleWarn ("No image files found in " ++ folderPath)) ;;;
       ret []
     else ret (map (fun file => path_join ext folderPath file) imageFiles))
    (fun error =>
       emit (ConsoleError "Error reading pastpapers folder:" error) ;;;
       throw error).

(** One turn of the loop of [uploadToSupabase]. *)
Definition upload_question (question : PastPaperRecord)
  : M W UploadCounts unit :=
  try_catch
    (answer <- ask (insert_pastpaper ext question) (Insert question) ;;
     match answer with
     | Err message => throw ("Failed to upload question: " ++ message)
     | Ok data =>
         match data with
         | [] =>
             throw "TypeError: Cannot read properties of undefined (reading 'id')"
         | _ :: _ =>
             modify_locals (fun c => (fst c + 1, snd c))
         end
     end)
    (fun error =>
       emit (ConsoleError
               ("  ✗ Failed to upload Q"
                ++ show_Z (record_question_number question) ++ ":") error) ;;;
       modify_locals (fun c => (fst c, snd c + 1))).

(** [uploadToSupabase]; it returns nothing, the counters are what its
    last line prints. *)
Definition uploadToSupabase (questions : list PastPaperRecord)
  : M W UploadCounts UploadCounts :=
  modify_locals (fun _ => (0, 0)) ;;;
  for_of questions upload_question ;;;
  get_locals.

(** [saveToReviewFile]. *)
Definition saveToReviewFile {L : Type} (questions : list PastPaperRecord)
           (outputPath : string) : M W L unit :=
  generated <- ask (toISOString ext) Now ;;
  let content := review_content (JSON_stringify ext) questions generated in
  written <- ask (writeFile ext outputPath content "utf-8")
               (WriteFile outputPath content "utf-8") ;;
  await written.

(** The inner [try] of the loop: one candidate. *)
Definition process_question (CONFIG : Config)
           (questionTypes : list QuestionType) (filename : string)
           (q : PastPaperQuestion) : M W Locals unit :=
  try_catch
    (questionTypeId <-
       await (mapQuestionTypeToId q.(question_type_name)
                questionTypes) ;;
     embedding <- generateEmbedding (grounding_text q) ;;
     extracted_at <- ask (toISOString ext) Now ;;
     let record :=
       make_record CONFIG q questionTypeId embedding filename
         extracted_at in
     modify_locals (push_record record))
    (fun error =>
       emit (ConsoleError
               ("    ✗ Error processing question "
                ++ show_Z q.(question_number) ++ ":") error) ;;;
       modify_locals incr_errorCount).

(** The outer [try] of the loop: one image. *)
Definition process_image (CONFIG : Config)
           (questionTypes : list QuestionType) (topics : list Topic)
           (imagePath : string) : M W Locals unit :=
  try_catch
    (let filename := path_basename ext imagePath in
     extractedData <- performOCR imagePath questionTypes topics ;;
     for_of extractedData (process_question CONFIG questionTypes filename) ;;;
     modify_locals incr_successCount)
    (fun error =>
       emit (ConsoleError
               ("  ✗ Error processing " ++ path_basename ext imagePath ++ ":")
               error) ;;;
       modify_locals incr_errorCount).

(** Steps 4 and 5. *)
Definition review_then_upload (CONFIG : Config) : M W Locals unit :=
  l <- get_locals ;;
  if 0 <? Z.of_nat (List.length (allRecords l))
  then
    saveToReviewFile (allRecords l) (outputFile CONFIG) ;;;
    _ <- call (0, 0) (uploadToSupabase (allRecords l)) ;;
    ret tt
  else ret tt.

(** [processAndExtractQuestions]; it returns nothing: the value is the
    summary it prints, or [None] when it leaves early. *)
Definition processAndExtractQuestions (CONFIG : Config)
  : M W Locals (option Summary) :=
  questionTypes <- fetchQuestionTypes (config_subject CONFIG) ;;
  topics <- fetchTopics (config_subject CONFIG) ;;
  imageFiles <- readImageFiles (pastpapersFolder CONFIG) ;;
  if Z.of_nat (List.length imageFiles) =? 0
  then ret None
  else
    modify_locals (fun _ => init_locals) ;;;
    for_of imageFiles (process_image CONFIG questionTypes topics) ;;;
    review_then_upload CONFIG ;;;
    l <- get_locals ;;
    ret (Some {| images_processed := Z.of_nat (List.length imageFiles);
                 successful_extractions := successCount l;
                 failed_extractions := errorCount l;
                 questions_extracted :=
                   Z.of_nat (List.length (allRecords l)) |}).

(** The script: the module-level credential checks, then
    [processAndExtractQuestions().then(..exit(0)).catch(..exit(1))]. *)
Definition script (penv : ProcessEnv) (CONFIG : Config) (w : W)
  : ExitCode * W :=
  if orb (negb (truthy_string (SUPABASE_URL penv)))
         (negb (truthy_string (SUPABASE_ANON_KEY penv)))
  then (1, w)
  else if negb (truthy_string (OPENAI_API_KEY penv))
  then (1, w)
  else
    match processAndExtractQuestions CONFIG w init_locals with
    | (Ok _, w', _) => (0, w')
    | (Err error, w', _) =>
        (1, {| env := env w';
               trace := (trace w'
                           ++ [ConsoleError (newline ++ "✗ Script failed:")
                                 error])%list |})
    end.
End Script.

End PastpaperUploader.

(** * [upload.ts] *)

Module TextbookUploader.

(** [interface TextbookRecord]. *)
Record TextbookRecord : Type := {
  topic : string;
  content : string;
  subject : string;
  grade_level : option string;
  embedding : list number;
  metadata : list (string * Json)
}.

(** [CONFIG]. *)
Record Config : Type := {
  config_subject : string;
  gradeLevel : string;
  textbooksFolder : string;
  config_metadata : list (string * Json)
}.

(** The local counters of [processAndUploadTextbooks]. *)
Record Locals : Type := {
  successCount : Z;
  errorCount : Z
}.

(** The calls the script makes, with the answers it got. *)
Inductive Event : Type :=
| ReadDir (path : string) (answer : result (list string))
| ReadFile (path encoding : string) (answer : result string)
| GenerateText (model prompt : string) (answer : result string)
| Embed (model value : string) (answer : result (list number))
| Now (answer : string)
| Insert (row : TextbookRecord) (answer : result (list string))
| ConsoleWarn (text : string)
| ConsoleError (label error : string).

(** The collaborators; the last two are pure library functions. *)
Record External (Env : Type) : Type := {
  readdir : string -> Env -> result (list string) * Env;
  readFile : string -> string -> Env -> result string * Env;
  generate_text : string -> string -> Env -> result string * Env;
  embed : string -> string -> Env -> result (list number) * Env;
  toISOString : Env -> string * Env;
  insert_textbook : TextbookRecord -> Env -> result (list string) * Env;
  path_basename_ext : string -> string -> string;
  path_join : string -> string -> string
}.
Arguments readdir {Env} e.
Arguments readFile {Env} e.
Arguments generate_text {Env} e.
Arguments embed {Env} e.
Arguments toISOString {Env} e.
Arguments insert_textbook {Env} e.
Arguments path_basename_ext {Env} e.
Arguments path_join {Env} e.

(** The prompt of [summarizeContent]. *)
Definition summary_prompt (content : string) : string :=
  "以下是其中一篇HKDSE十二篇範文的內容，現在我希望將內容進行整合和縮短，以便嵌入到數據庫中。:"
  ++ newline ++ newline ++ content.

(** The [metadata] literal:
    [{...CONFIG.metadata, filename, summary, uploadedAt}]. *)
Definition make_metadata (CONFIG : Config) (filename summary uploadedAt : string)
  : list (string * Json) :=
  object_set "uploadedAt" (JStr uploadedAt)
    (object_set "summary" (JStr summary)
       (object_set "filename" (JStr filename)
          (object_spread (config_metadata CONFIG)))).

(** The record literal of [processAndUploadTextbooks]. *)
Definition make_record (CONFIG : Config) (topic content : string)
           (embedding : list number) (filename summary uploadedAt : string)
  : TextbookRecord :=
  {| topic := topic;
     content := content;
     subject := config_subject CONFIG;
     grade_level :=
       if truthy_string (Some (gradeLevel CONFIG))
       then Some (gradeLevel CONFIG) else None;
     embedding := embedding;
     metadata := make_metadata CONFIG filename summary uploadedAt |}.

Section Script.
Context {Env : Type} (ext : External Env).

Abbreviation W := (World Env Event).

(** [summarizeContent]. *)
Definition summarizeContent {L : Type} (content : string) : M W L string :=
  try_catch
    (let prompt := summary_prompt content in
     answer <- ask (generate_text ext "qwen3-vl-plus" prompt)
                 (GenerateText "qwen3-vl-plus" prompt) ;;
     await answer)
    (fun error =>
       emit (ConsoleError "Error summarizing content:" error) ;;;
       throw error).

(** [generateEmbedding]. *)
Definition generateEmbedding {L : Type} (text : string)
  : M W L (list number) :=
  try_catch
    (answer <- ask (embed ext "bge-m3" text) (Embed "bge-m3" text) ;;
     await answer)
    (fun error =>
       emit (ConsoleError "Error generating embedding:" error) ;;;
       throw error).

(** [extractTopicFromFilename]. *)
Definition extractTopicFromFilename (filename : string) : string :=
  path_basename_ext ext filename ".txt".

(** [readTextbookFiles]; its local variable is the [Map] [textbooks]. *)
Definition readTextbookFiles (folderPath : string)
  : M W (list (string * string)) (list (string * string)) :=
  modify_locals (fun _ => []) ;;;
  try_catch
    (listing <- ask (readdir ext folderPath) (ReadDir folderPath) ;;
     files <- await listing ;;
     let txtFiles := filter (fun file => endsWith file ".txt") files in
     if Z.of_nat (List.length txtFiles) =? 0
     then
       emit (ConsoleWarn ("No .txt files found in " ++ folderPath)) ;;;
       get_locals
     else
       for_of txtFiles
         (fun file =>
            let filePath := path_join ext folderPath file in
            read <- ask (readFile ext filePath "utf-8")
                      (ReadFile filePath "utf-8") ;;
            content <- await read ;;
            modify_locals (object_set file content)) ;;;
       get_locals)
    (fun error =>
       emit (ConsoleError "Error reading textbooks folder:" error) ;;;
       throw error).

(** [uploadTextbook]. *)
Definition uploadTextbook {L : Type} (record : TextbookRecord)
  : M W L unit :=
  answer <- ask (insert_textbook ext record) (Insert record) ;;
  match answer with
  | Err message => throw ("Failed to upload textbook: " ++ message)
  | Ok data =>
      match data with
      | [] =>
          throw "TypeError: Cannot read properties of undefined (reading 'id')"
      | _ :: _ => ret tt
      end
  end.

(** One turn of the loop of [processAndUploadTextbooks]. *)
Definition process_textbook (CONFIG : Config) (entry : string * string)
  : M W Locals unit :=
  let (filename, content) := entry in
  try_catch
    (let topic := extractTopicFromFilename filename in
     summary <- summarizeContent content ;;
     embedding <- generateEmbedding summary ;;
     uploadedAt <- ask (toISOString ext) Now ;;
     let record :=
       make_record CONFIG topic content embedding filename summary
         uploadedAt in
     uploadTextbook record ;;;
     modify_locals
       (fun l => {| successCount := successCount l + 1;
                    errorCount := errorCount l |}))
    (fun error =>
       emit (ConsoleError ("  ✗ Error processing " ++ filename ++ ":")
               error) ;;;
       modify_locals
         (fun l => {| successCount := successCount l;
                      errorCount := errorCount l + 1 |})).

(** [processAndUploadTextbooks]; it returns nothing: the value is the
    pair of counters its summary prints, or [None] when it leaves
    early. *)
Definition processAndUploadTextbooks (CONFIG : Config)
  : M W Locals (option Locals) :=
  textbooks <- call [] (readTextbookFiles (textbooksFolder CONFIG)) ;;
  if Z.of_nat (List.length textbooks) =? 0
  then ret None
  else
    modify_locals (fun _ => {| successCount := 0; errorCount := 0 |}) ;;;
    for_of textbooks (process_textbook CONFIG) ;;;
    l <- get_locals ;;
    ret (Some l).

(** The script. *)
Definition script (penv : ProcessEnv) (CONFIG : Config) (w : W)
  : ExitCode * W :=
  if orb (negb (truthy_string (SUPABASE_URL penv)))
         (negb (truthy_string (SUPABASE_ANON_KEY penv)))
  then (1, w)
  else if negb (truthy_string (OPENAI_API_KEY penv))
  then (1, w)
  else
    match processAndUploadTextbooks CONFIG w
            {| successCount := 0; errorCount := 0 |} with
    | (Ok _, w', _) => (0, w')
    | (Err error, w', _) =>
        (1, {| env := env w';
               trace := (trace w'
                           ++ [ConsoleError (newline ++ "✗ Script failed:")
                                 error])%list |})
    end.
End Script.

End TextbookUploader.

(** * Properties *)

(** ** Facts about the JavaScript helpers *)

Section SortFacts.
Context {A : Type} (key : A -> Z).

(** A comparator of the shape [(a, b) => key(a) - key(b)]. *)
Definition by_key (a b : A) : Z := key a - key b.

Lemma sort_insert_perm (cmp : A -> A -> Z) (x : A) (l : list A) :
  Permutation (x :: l) (sort_insert cmp x l).
Proof.
  induction l as [| y l IH]; simpl.
  - apply Permutation_refl.
  - destruct (0 <? cmp x y).
    + apply Permutation_trans with (y :: x :: l).
      * apply perm_swap.
      * apply perm_skip, IH.
    + apply Permutation_refl.
Qed.

Lemma Array_sort_perm (cmp : A -> A -> Z) (l : list A) :
  Permutation l (Array_sort cmp l).
Proof.
  induction l as [| x l IH]; simpl.
  - apply perm_nil.
  - apply Permutation_trans with (x :: Array_sort cmp l).
    + apply perm_skip, IH.
    + apply sort_insert_perm.
Qed.

Definition key_le (a b : A) : Prop := key a <= key b.

Lemma sort_insert_sorted (x : A) (l : list A) :
  StronglySorted key_le l -> StronglySorted key_le (sort_insert by_key x l).
Proof.
  induction 1 as [| y l Hl IH Hy]; simpl.
  - constructor; [constructor | constructor].
  - unfold by_key at 1. destruct (Z.ltb_spec 0 (key x - key y)) as [Hgt | Hle].
    + constructor; [exact IH |].
      apply Forall_forall. intros z Hz.
      apply (Permutation_in z (Permutation_sym (sort_insert_perm by_key x l)))
        in Hz.
      destruct Hz as [<- | Hz].
      * unfold key_le. lia.
      * rewrite Forall_forall in Hy. apply Hy, Hz.
    + constructor; [constructor; assumption |].
      constructor; [unfold key_le; lia |].
      eapply Forall_impl; [| exact Hy].
      unfold key_le. intros z Hz. lia.
Qed.

Lemma Array_sort_sorted (l : list A) :
  StronglySorted key_le (Array_sort by_key l).
Proof.
  induction l as [| x l IH]; simpl.
  - constructor.
  - apply sort_insert_sorted, IH.
Qed.

(** Stability: the elements of one key keep their order. *)
Lemma sort_insert_stable (k : Z) (x : A) (l : list A) :
  filter (fun a => key a =? k) (sort_insert by_key x l)
  = filter (fun a => key a =? k) (x :: l).
Proof.
  induction l as [| y l IH]; simpl.
  - reflexivity.
  - unfold by_key at 1. destruct (Z.ltb_spec 0 (key x - key y)) as [Hgt | Hle].
    + simpl. rewrite IH. simpl.
      destruct (Z.eqb_spec (key x) k) as [Hx | Hx];
        destruct (Z.eqb_spec (key y) k) as [Hy | Hy];
        try reflexivity.
      lia.
    + reflexivity.
Qed.

Lemma Array_sort_stable (k : Z) (l : list A) :
  filter (fun a => key a =? k) (Array_sort by_key l)
  = filter (fun a => key a =? k) l.
Proof.
  induction l as [| x l IH]; simpl.
  - reflexivity.
  - rewrite sort_insert_stable. simpl. rewrite IH. reflexivity.
Qed.
End SortFacts.

(** The indices [i+1, i+2, ...] that [map] hands to its callback, plus one. *)
Lemma map_index_from_positions {A B : Type} (f : A -> Z -> B) (g : B -> Z)
      (l : list A) :
  (forall x i, g (f x i) = i + 1) ->
  forall n : nat,
    map g (map_index_from f (Z.of_nat n) l)
    = map Z.of_nat (seq (S n) (List.length l)).
Proof.
  intros Hg. induction l as [| x l IH]; intros n; simpl; [reflexivity |].
  rewrite Hg. f_equal; [lia |].
  replace (Z.of_nat n + 1) with (Z.of_nat (S n)) by lia.
  apply IH.
Qed.

Lemma map_index_from_payload {A B C : Type} (f : A -> Z -> B) (g : B -> C)
      (h : A -> C) (l : list A) :
  (forall x i, g (f x i) = h x) ->
  forall i, map g (map_index_from f i l) = map h l.
Proof.
  intros Hg. induction l as [| x l IH]; intros i; simpl; [reflexivity |].
  now rewrite Hg, IH.
Qed.

Lemma StronglySorted_map_Forall {A B : Type} (R : A -> A -> Prop)
      (R' : B -> B -> Prop) (P : A -> Prop) (f : A -> B) (l : list A) :
  (forall a b, P a -> P b -> R a b -> R' (f a) (f b)) ->
  Forall P l -> StronglySorted R l -> StronglySorted R' (map f l).
Proof.
  intros HR HP HS. induction HS as [| a l Hl IH Ha]; simpl.
  - constructor.
  - inversion HP as [| ? ? Pa Pl]; subst.
    constructor; [apply IH, Pl |].
    apply Forall_map. rewrite Forall_forall in *.
    intros b Hb. apply HR; auto.
Qed.

(** ** The MCQ set creator: set linkage *)

Module SetCreatorFacts.
Import SetCreator.

(** The order the specification asks for: ascending difficulty, a record
    without a difficulty after every record that has one. *)
Definition nulls_last (a b : option Z) : Prop :=
  match a, b with
  | Some x, Some y => x <= y
  | _, None => True
  | None, Some _ => False
  end.

(** The data model: a difficulty is an integer from 1 to 5, or absent. *)
Definition difficulty_in_model (m : MCQ) : Prop :=
  match difficulty m with
  | Some d => 1 <= d <= 5
  | None => True
  end.

Definition same_difficulty (d : option Z) (m : MCQ) : bool :=
  match d, difficulty m with
  | Some x, Some y => x =? y
  | None, None => true
  | _, _ => false
  end.

Definition sort_key (m : MCQ) : Z := or_number (difficulty m) 999.

Lemma by_difficulty_by_key : by_difficulty = by_key sort_key.
Proof. reflexivity. Qed.

Lemma sort_key_in_model (m : MCQ) :
  difficulty_in_model m ->
  sort_key m = match difficulty m with Some d => d | None => 999 end.
Proof.
  unfold difficulty_in_model, sort_key, or_number.
  destruct (difficulty m) as [d |]; [| reflexivity].
  intros Hd. destruct (Z.eqb_spec d 0); [lia | reflexivity].
Qed.

Lemma sort_key_order (a b : MCQ) :
  difficulty_in_model a -> difficulty_in_model b ->
  key_le sort_key a b -> nulls_last (difficulty a) (difficulty b).
Proof.
  intros Ha Hb. unfold key_le.
  rewrite (sort_key_in_model a Ha), (sort_key_in_model b Hb).
  unfold difficulty_in_model, nulls_last in *.
  destruct (difficulty a), (difficulty b); lia || auto.
Qed.

Lemma same_difficulty_key (d : option Z) (m : MCQ) :
  match d with Some x => 1 <= x <= 5 | None => True end ->
  difficulty_in_model m ->
  same_difficulty d m
  = (sort_key m =? match d with Some x => x | None => 999 end).
Proof.
  intros Hd Hm. rewrite (sort_key_in_model m Hm).
  unfold same_difficulty, difficulty_in_model in *.
  destruct d as [x |], (difficulty m) as [y |].
  - apply Z.eqb_sym.
  - symmetry. apply Z.eqb_neq. lia.
  - symmetry. apply Z.eqb_neq. lia.
  - reflexivity.
Qed.

Lemma same_difficulty_outside (d : Z) (m : MCQ) :
  ~ 1 <= d <= 5 -> difficulty_in_model m -> same_difficulty (Some d) m = false.
Proof.
  unfold same_difficulty, difficulty_in_model.
  destruct (difficulty m) as [y |]; [| reflexivity].
  intros Hd Hy. apply Z.eqb_neq. lia.
Qed.

Lemma sortedMCQs_perm (mcqs : list MCQ) : Permutation mcqs (sortedMCQs mcqs).
Proof. apply Array_sort_perm. Qed.

Lemma sortedMCQs_in_model (mcqs : list MCQ) :
  Forall difficulty_in_model mcqs ->
  Forall difficulty_in_model (sortedMCQs mcqs).
Proof.
  intros H. eapply Permutation_Forall; [apply sortedMCQs_perm | exact H].
Qed.

Lemma sortedMCQs_ascending (mcqs : list MCQ) :
  Forall difficulty_in_model mcqs ->
  StronglySorted nulls_last (map difficulty (sortedMCQs mcqs)).
Proof.
  intros H.
  apply StronglySorted_map_Forall
    with (R := key_le sort_key) (P := difficulty_in_model).
  - apply sort_key_order.
  - apply sortedMCQs_in_model, H.
  - unfold sortedMCQs. rewrite by_difficulty_by_key. apply Array_sort_sorted.
Qed.

Lemma filter_ext_Forall {A : Type} (P : A -> Prop) (f g : A -> bool)
      (l : list A) :
  (forall a, P a -> f a = g a) -> Forall P l -> filter f l = filter g l.
Proof.
  intros Hfg HP. apply filter_ext_in. rewrite Forall_forall in HP. auto.
Qed.

Lemma sortedMCQs_stable (mcqs : list MCQ) (d : option Z) :
  Forall difficulty_in_model mcqs ->
  filter (same_difficulty d) (sortedMCQs mcqs)
  = filter (same_difficulty d) mcqs.
Proof.
  intros H.
  assert (Hs := sortedMCQs_in_model mcqs H).
  destruct (match d with
            | Some x => if (1 <=? x) && (x <=? 5) then true else false
            | None => true
            end) eqn:Hd.
  - assert (Hd' : match d with Some x => 1 <= x <= 5 | None => True end).
    { destruct d as [x |]; [| exact I].
      destruct (Z.leb_spec 1 x), (Z.leb_spec x 5); simpl in Hd;
        try discriminate; lia. }
    rewrite (filter_ext_Forall _ _ _ _
               (fun m => same_difficulty_key d m Hd') Hs).
    rewrite (filter_ext_Forall _ _ _ _
               (fun m => same_difficulty_key d m Hd') H).
    unfold sortedMCQs. rewrite by_difficulty_by_key.
    apply Array_sort_stable.
  - destruct d as [x |]; [| discriminate].
    assert (Hx : ~ 1 <= x <= 5).
    { destruct (Z.leb_spec 1 x), (Z.leb_spec x 5); simpl in Hd;
        try discriminate; lia. }
    rewrite (filter_ext_Forall _ _ (fun _ => false) _
               (fun m => same_difficulty_outside x m Hx) Hs).
    rewrite (filter_ext_Forall _ _ (fun _ => false) _
               (fun m => same_difficulty_outside x m Hx) H).
    clear. generalize (sortedMCQs mcqs). intros l.
    induction l; induction mcqs; simpl; auto.
Qed.

Lemma mcqSetQuestions_order_index (mcqSetId : string) (mcqs : list MCQ) :
  map order_index (mcqSetQuestions mcqSetId mcqs)
  = map Z.of_nat (seq 1 (List.length mcqs)).
Proof.
  unfold mcqSetQuestions, map_index.
  change 0 with (Z.of_nat 0).
  rewrite map_index_from_positions by reflexivity.
  now rewrite (Permutation_length (sortedMCQs_perm mcqs)).
Qed.

Lemma mcqSetQuestions_mcq_id (mcqSetId : string) (mcqs : list MCQ) :
  map mcq_id (mcqSetQuestions mcqSetId mcqs) = map id (sortedMCQs mcqs).
Proof.
  unfold mcqSetQuestions, map_index.
  apply map_index_from_payload. reflexivity.
Qed.

(** The five records of the specification's example, by difficulty. *)
Definition has_difficulties (ds : list (option Z)) (mcqs : list MCQ) : Prop :=
  map difficulty mcqs = ds.

(** C3.  Set linkage inserts one batch of rows whose [order_index] values
    are 1, 2, ..., N; the rows list the selected records by ascending
    difficulty, those without a difficulty last, records of equal
    difficulty in their selection order; and for difficulties
    [3, 1, 5, null, 2] the rows 1..5 are the records of difficulty
    1, 2, 3, 5, null. *)
Theorem linkMCQsToSet_order_index :
  forall (mcqSetId : string) (mcqs : list MCQ),
    Forall difficulty_in_model mcqs ->
    let rows := mcqSetQuestions mcqSetId mcqs in
    (forall (Env L : Type) (ext : External Env) (w : World Env Event) (l : L),
        exists answer,
          trace (snd (fst (linkMCQsToSet ext mcqSetId mcqs w l)))
          = (trace w ++ [InsertSetQuestions rows answer])%list)
    /\ map order_index rows = map Z.of_nat (seq 1 (List.length mcqs))
    /\ map mcq_id rows = map id (sortedMCQs mcqs)
    /\ Permutation mcqs (sortedMCQs mcqs)
    /\ StronglySorted nulls_last (map difficulty (sortedMCQs mcqs))
    /\ (forall d : option Z,
           filter (same_difficulty d) (sortedMCQs mcqs)
           = filter (same_difficulty d) mcqs)
    /\ (forall m1 m2 m3 m4 m5 : MCQ,
           mcqs = [m1; m2; m3; m4; m5] ->
           has_difficulties [Some 3; Some 1; Some 5; None; Some 2] mcqs ->
           map (fun r => (order_index r, mcq_id r)) rows
           = [(1, id m2); (2, id m5); (3, id m1); (4, id m3); (5, id m4)]).
Proof.
  intros mcqSetId mcqs Hmodel rows.
  split; [| split; [| split; [| split; [| split; [| split]]]]].
  - intros Env L ext w l. unfold linkMCQsToSet, bind, ask. fold rows.
    destruct (insert_set_questions ext rows (env w)) as [answer e'] eqn:Hins.
    exists answer. destruct answer; reflexivity.
  - apply mcqSetQuestions_order_index.
  - apply mcqSetQuestions_mcq_id.
  - apply sortedMCQs_perm.
  - apply sortedMCQs_ascending, Hmodel.
  - intros d. apply sortedMCQs_stable, Hmodel.
  - intros m1 m2 m3 m4 m5 -> Hd. unfold has_difficulties in Hd.
    simpl in Hd. injection Hd as H1 H2 H3 H4 H5.
    unfold rows, mcqSetQuestions, sortedMCQs, Array_sort, by_difficulty.
    repeat (progress (simpl; rewrite ?H1, ?H2, ?H3, ?H4, ?H5)).
    reflexivity.
Qed.

End SetCreatorFacts.

(** ** Sampling *)



Lemma slice0_length {A : Type} (l : list A) (e : Z) :
  0 <= e ->
  Z.of_nat (List.length (slice0 l e)) = Z.min e (Z.of_nat (List.length l)).
Proof.
  intros He. unfold slice0.
  destruct (Z.ltb_spec e 0); [lia |].
  rewrite length_firstn. lia.
Qed.




Module SetCreatorSampling.
Import SetCreator.

(** The store answers a query on [mcqs] with rows that satisfy each of
    its clauses. *)
Definition honest_store {Env : Type} (ext : External Env) : Prop :=
  forall q e data e',
    select_mcqs ext q e = (Ok data, e') ->
    Forall (fun m => forallb (fun c => clause_holds c m) (clauses q) = true)
           data.

(** Sorting with a random comparator rearranges the rows. *)
Definition honest_shuffle {Env : Type} (ext : External Env) : Prop :=
  forall data e, Permutation data (fst (sort_random ext data e)).

(** A record passes the subject, topic and difficulty filters that are
    set. *)
Definition passes_equality_filters (filters : Filters)
           (difficultyLevels : option (list Z)) (m : MCQ) : Prop :=
  (forall s, filter_subject filters = Some s -> s <> "" -> subject m = s)
  /\ (forall t, filter_topic filters = Some t -> t <> "" -> topic m = t)
  /\ (forall levels, difficultyLevels = Some levels -> levels <> [] ->
        exists d, difficulty m = Some d /\ In d levels).

(** The type filter as the specification states it: a non-empty list of
    names admits only the records whose type is one of the resolved ids. *)
Definition passes_type_filter_as_specified (filters : Filters)
           (questionTypes : list QuestionType) (m : MCQ) : Prop :=
  forall names,
    questionTypeNames filters = Some names -> names <> [] ->
    exists i, question_type_id m = Some i
              /\ In i (questionTypeIds names questionTypes).

(** The type filter as the code applies it: only when at least one name
    resolves. *)
Definition passes_type_filter (filters : Filters)
           (questionTypes : list QuestionType) (m : MCQ) : Prop :=
  forall names,
    questionTypeNames filters = Some names -> names <> [] ->
    questionTypeIds names questionTypes <> [] ->
    exists i, question_type_id m = Some i
              /\ In i (questionTypeIds names questionTypes).


Definition topic_clauses (filters : Filters) : list Clause :=
  match filter_topic filters with
  | Some t => if truthy_string (Some t) then [eq_clause "topic" t] else []
  | None => []
  end.

Definition type_clauses (filters : Filters)
           (questionTypes : list QuestionType) : list Clause :=
  match questionTypeNames filters with
  | Some names =>
      if 0 <? Z.of_nat (List.length names)
      then if 0 <? Z.of_nat (List.length (questionTypeIds names questionTypes))
           then [in_strings "question_type_id"
                   (questionTypeIds names questionTypes)]
           else []
      else []
  | None => []
  end.




(** What [fetchMCQsByDifficulty] returns, by the store's answer. *)
Lemma fetchMCQsByDifficulty_run {Env L : Type} (ext : External Env)
      filters questionTypes difficultyLevels limit
      (w : World Env Event) (l : L) :
  let query := mcqs_query filters questionTypes difficultyLevels in
  fetchMCQsByDifficulty ext filters questionTypes difficultyLevels limit w l
  = match select_mcqs ext query (env w) with
    | (Err message, e1) =>
        (Err ("Failed to fetch MCQs: " ++ message),
         {| env := e1;
            trace := (trace w ++ [SelectMCQs query (Err message)])%list |}, l)
    | (Ok data, e1) =>
        if Z.of_nat (List.length data) =? 0
        then
          (Ok [],
           {| env := e1;
              trace := ((trace w ++ [SelectMCQs query (Ok data)])
                          ++ [ConsoleWarn
                                "  ⚠ No MCQs found matching the criteria"])%list
           |}, l)
        else
          let (shuffled, e2) := sort_random ext data e1 in
          (Ok (slice0 shuffled (Z.min limit (Z.of_nat (List.length data)))),
           {| env := e2;
              trace := ((trace w ++ [SelectMCQs query (Ok data)])
                          ++ [RandomSort data shuffled])%list |}, l)
    end.
Proof.
  intros query. unfold fetchMCQsByDifficulty, bind, ask. fold query.
  destruct (select_mcqs ext query (env w)) as [[data | message] e1];
    simpl; [| reflexivity].
  destruct (Z.of_nat (List.length data) =? 0); simpl; [reflexivity |].
  destruct (sort_random ext data e1) as [shuffled e2]. reflexivity.
Qed.

End SetCreatorSampling.

Module McqGeneratorSampling.
Import McqGenerator.

(** The store answers a query on [pastpapers] with rows that satisfy each
    of its clauses. *)
Definition honest_store {Env : Type} (ext : External Env) : Prop :=
  forall q e data e',
    select_pastpapers ext q e = (Ok data, e') ->
    Forall (fun p => forallb (fun c => clause_holds c p) (clauses q) = true)
           data.

Definition honest_shuffle {Env : Type} (ext : External Env) : Prop :=
  forall data e, Permutation data (fst (sort_random ext data e)).

(** A row passes the subject filter, and the topic filter when set. *)
Definition passes_equality_filters (subject_filter : string)
           (topic_filter : option string) (p : PastPaperQuestion) : Prop :=
  subject p = subject_filter
  /\ (forall t, topic_filter = Some t -> t <> "" -> topic p = t).

(** The type filter as the specification states it. *)
Definition passes_type_filter_as_specified
           (questionTypeNames : option (list string))
           (questionTypes : list QuestionType) (p : PastPaperQuestion)
  : Prop :=
  forall names,
    questionTypeNames = Some names -> names <> [] ->
    In (question_type_id p) (questionTypeIds names questionTypes).

(** The type filter as the code applies it. *)
Definition passes_type_filter (questionTypeNames : option (list string))
           (questionTypes : list QuestionType) (p : PastPaperQuestion)
  : Prop :=
  forall names,
    questionTypeNames = Some names -> names <> [] ->
    questionTypeIds names questionTypes <> [] ->
    In (question_type_id p) (questionTypeIds names questionTypes).

Definition topic_clauses (topic_filter : option string) : list Clause :=
  match topic_filter with
  | Some t => if truthy_string (Some t) then [eq_clause "topic" t] else []
  | None => []
  end.

Definition type_clauses (questionTypeNames : option (list string))
           (questionTypes : list QuestionType) : list Clause :=
  match questionTypeNames with
  | Some names =>
      if 0 <? Z.of_nat (List.length names)
      then if 0 <? Z.of_nat (List.length (questionTypeIds names questionTypes))
           then [in_strings "question_type_id"
                   (questionTypeIds names questionTypes)]
           else []
      else []
  | None => []
  end.



(** What [fetchRandomQuestions] returns, by the store's answer. *)
Lemma fetchRandomQuestions_run {Env L : Type} (ext : External Env)
      subject_filter topic_filter questionTypeNames limit questionTypes
      (w : World Env Event) (l : L) :
  let query := pastpapers_query subject_filter topic_filter questionTypeNames
                 questionTypes in
  fetchRandomQuestions ext subject_filter topic_filter questionTypeNames limit
    questionTypes w l
  = match select_pastpapers ext query (env w) with
    | (Err message, e1) =>
        (Err ("Failed to fetch questions: " ++ message),
         {| env := e1;
            trace := (trace w ++ [SelectPastpapers query (Err message)])%list
         |}, l)
    | (Ok data, e1) =>
        if Z.of_nat (List.length data) =? 0
        then
          (Err "No questions found matching the criteria",
           {| env := e1;
              trace := (trace w ++ [SelectPastpapers query (Ok data)])%list |},
           l)
        else
          let (shuffled, e2) := sort_random ext data e1 in
          (Ok (slice0 shuffled (Z.min limit (Z.of_nat (List.length data)))),
           {| env := e2;
              trace := ((trace w ++ [SelectPastpapers query (Ok data)])
                          ++ [RandomSort data shuffled])%list |}, l)
    end.
Proof.
  intros query. unfold fetchRandomQuestions, bind, ask. fold query.
  destruct (select_pastpapers ext query (env w)) as [[data | message] e1];
    simpl; [| reflexivity].
  destruct (Z.of_nat (List.length data) =? 0); simpl; [reflexivity |].
  destruct (sort_random ext data e1) as [shuffled e2]. reflexivity.
Qed.

End McqGeneratorSampling.

(** ** Worlds to run the scripts in

    A store that keeps its rows in a list and answers a query with the
    rows that satisfy its clauses; the random sort reverses. *)

Module Examples.

Definition example_mcq (name : string) (level : option Z)
           (type_id : option string) : SetCreator.MCQ :=
  {| SetCreator.id := name;
     SetCreator.topic := "師說";
     SetCreator.question := "Q " ++ name;
     SetCreator.subject := "DSE中文12篇範文";
     SetCreator.options := [("A", "a"); ("B", "b"); ("C", "c"); ("D", "d")];
     SetCreator.correct_answer := "A";
     SetCreator.explanation := "";
     SetCreator.grade_level := Some "DSE";
     SetCreator.difficulty := level;
     SetCreator.question_type_id := type_id;
     SetCreator.source_material_ids := None;
     SetCreator.embedding := JNull;
     SetCreator.metadata := [];
     SetCreator.created_at := "2025-01-01T00:00:00.000Z";
     SetCreator.updated_at := "2025-01-01T00:00:00.000Z" |}.

Definition five_mcqs : list SetCreator.MCQ :=
  [ example_mcq "m1" (Some 3) (Some "qt-1");
    example_mcq "m2" (Some 1) (Some "qt-1");
    example_mcq "m3" (Some 5) (Some "qt-2");
    example_mcq "m4" None (Some "qt-2");
    example_mcq "m5" (Some 2) None ].

Definition example_types : list QuestionType :=
  [ {| qt_id := "qt-1"; qt_name := "文句翻譯與名句摘錄";
       qt_subject := "DSE中文12篇範文" |};
    {| qt_id := "qt-2"; qt_name := "情感主旨與現實啟發";
       qt_subject := "DSE中文12篇範文" |} ].

Definition set_store (table : list SetCreator.MCQ)
  : SetCreator.External unit :=
  {| SetCreator.select_question_types := fun _ e => (Ok example_types, e);
     SetCreator.select_mcqs :=
       fun q e =>
         (Ok (filter
                (fun m => forallb (fun c => SetCreator.clause_holds c m)
                                  (clauses q))
                table), e);
     SetCreator.insert_mcqset :=
       fun row e =>
         (Ok {| SetCreator.set_id := "set-1";
                SetCreator.set_topic := SetCreator.new_topic row;
                SetCreator.set_description :=
                  SetCreator.new_description row;
                SetCreator.set_subject := SetCreator.new_subject row;
                SetCreator.set_created_at := "2025-01-01T00:00:00.000Z";
                SetCreator.set_updated_at := "2025-01-01T00:00:00.000Z" |},
          e);
     SetCreator.insert_set_questions := fun _ e => (Ok tt, e);
     SetCreator.sort_random := fun data e => (rev data, e) |}.



Definition credentials : ProcessEnv :=
  {| SUPABASE_URL := Some "https://example.supabase.co";
     SUPABASE_ANON_KEY := Some "anon-key";
     OPENAI_API_KEY := Some "sk-key";
     PASTPAPERS_FOLDER := None;
     TEXTBOOKS_FOLDER := None |}.

Definition fresh {Event : Type} : World unit Event :=
  {| env := tt; trace := [] |}.

Definition example_pastpaper (name : string) (type_id : string)
  : McqGenerator.PastPaperQuestion :=
  {| McqGenerator.id := name;
     McqGenerator.topic := "師說";
     McqGenerator.question := "Q " ++ name;
     McqGenerator.answer := "A " ++ name;
     McqGenerator.question_number := 1;
     McqGenerator.question_year := 2023;
     McqGenerator.subject := "DSE中文12篇範文";
     McqGenerator.explanation := "E " ++ name;
     McqGenerator.difficulty := 3;
     McqGenerator.grade_level := "DSE";
     McqGenerator.question_type_id := type_id |}.

Definition three_pastpapers : list McqGenerator.PastPaperQuestion :=
  [ example_pastpaper "p1" "qt-1"; example_pastpaper "p2" "qt-1";
    example_pastpaper "p3" "qt-2" ].

Definition example_generated (level : Z) : McqGenerator.GeneratedMCQ :=
  {| McqGenerator.mcq_question := "Q";
     McqGenerator.mcq_options :=
       {| McqGenerator.option_A := "a"; McqGenerator.option_B := "b";
          McqGenerator.option_C := "c"; McqGenerator.option_D := "d" |};
     McqGenerator.correct_answer := McqGenerator.A;
     McqGenerator.mcq_explanation := "E";
     McqGenerator.mcq_difficulty := level;
     McqGenerator.mcq_topic := "師說";
     McqGenerator.question_type_name := "文句翻譯與名句摘錄" |}.

(** The generation model of this store answers every request with
    [generated]. *)
Definition generator_store (table : list McqGenerator.PastPaperQuestion)
           (generated : McqGenerator.GeneratedMCQs)
  : McqGenerator.External unit :=
  {| McqGenerator.select_question_types := fun _ e => (Ok example_types, e);
     McqGenerator.select_pastpapers :=
       fun q e =>
         (Ok (filter
                (fun p => forallb (fun c => McqGenerator.clause_holds c p)
                                  (clauses q))
                table), e);
     McqGenerator.select_textbook :=
       fun _ e =>
         (Ok {| McqGenerator.textbook_topic := "師說";
                McqGenerator.textbook_content := "古之學者必有師。";
                McqGenerator.textbook_subject := "DSE中文12篇範文" |}, e);
     McqGenerator.sort_random := fun data e => (rev data, e);
     McqGenerator.generate_object := fun _ _ e => (Ok generated, e);
     McqGenerator.toISOString := fun e => ("2025-01-01T00:00:00.000Z", e);
     McqGenerator.writeFile := fun _ _ _ e => (Ok tt, e) |}.




Lemma set_store_shuffles table :
  SetCreatorSampling.honest_shuffle (set_store table).
Proof. intros data e. simpl. apply Permutation_rev. Qed.


Lemma generator_store_shuffles table generated :
  McqGeneratorSampling.honest_shuffle (generator_store table generated).
Proof. intros data e. simpl. apply Permutation_rev. Qed.

End Examples.

(** ** C1: what sampling returns *)

Module Sampling.








End Sampling.

(** ** C2: sampling that matches nothing *)

Module EmptySelection.





(** No event of the trace creates a set or links records to one. *)
Definition inserts_nothing (t : list SetCreator.Event) : Prop :=
  Forall (fun ev => match ev with
                    | SetCreator.InsertMCQSet _ _ => False
                    | SetCreator.InsertSetQuestions _ _ => False
                    | _ => True
                    end) t.












End EmptySelection.

(** ** C3: an input to run set linkage on *)

Module SetLinkage.
Import SetCreator.

Lemma linkMCQsToSet_order_index_witness :
  map (fun r => (order_index r, mcq_id r))
      (mcqSetQuestions "set-1" Examples.five_mcqs)
  = [(1, "m2"); (2, "m5"); (3, "m1"); (4, "m3"); (5, "m4")].
Proof.
  assert (Hmodel : Forall SetCreatorFacts.difficulty_in_model
                     Examples.five_mcqs).
  { unfold Examples.five_mcqs.
    repeat (constructor;
            [unfold SetCreatorFacts.difficulty_in_model; simpl;
             try exact I; lia |]).
    constructor. }
  destruct (SetCreatorFacts.linkMCQsToSet_order_index "set-1"
              Examples.five_mcqs Hmodel) as [_ [_ [_ [_ [_ [_ Hexample]]]]]].
  exact (Hexample _ _ _ _ _ eq_refl eq_refl).
Defined.

End SetLinkage.

(** ** Facts about strings *)

Lemma string_app_assoc (a b c : string) : (a ++ b) ++ c = a ++ (b ++ c).
Proof. induction a as [| ch a IH]; simpl; [reflexivity | now rewrite IH]. Qed.

Lemma string_app_nil_r (a : string) : a ++ "" = a.
Proof. induction a as [| ch a IH]; simpl; [reflexivity | now rewrite IH]. Qed.

(** The text [part] stands somewhere in [s]. *)
Definition occurs (part s : string) : Prop :=
  exists before after, s = before ++ part ++ after.

Lemma occurs_refl (s : string) : occurs s s.
Proof. exists "", "". simpl. now rewrite string_app_nil_r. Qed.

Lemma occurs_prefix (part rest : string) : occurs part (part ++ rest).
Proof. now exists "", rest. Qed.


Lemma occurs_app_r (part a b : string) : occurs part b -> occurs part (a ++ b).
Proof.
  intros [before [after ->]]. exists (a ++ before), after.
  now rewrite !string_app_assoc.
Qed.

Lemma occurs_trans (a b c : string) : occurs a b -> occurs b c -> occurs a c.
Proof.
  intros [before [after ->]] Hbc.
  destruct Hbc as [before' [after' ->]].
  exists (before' ++ before), (after ++ after').
  now rewrite !string_app_assoc.
Qed.

Lemma occurs_join (sep x : string) (l : list string) :
  In x l -> occurs x (join sep l).
Proof.
  induction l as [| y l IH]; [intros [] |].
  intros [-> | Hin].
  - destruct l as [| z l]; [apply occurs_refl | apply occurs_prefix].
  - destruct l as [| z l]; [destruct Hin |].
    change (join sep (y :: z :: l)) with (y ++ sep ++ join sep (z :: l)).
    apply occurs_app_r, occurs_app_r, IH, Hin.
Qed.


(** ** C5: what generation returns *)

Module Generation.
Import McqGenerator.

(** The prompt [generateMCQs] sends. *)
Definition prompt_of (textbookContent : TextbookContent)
           (sampleQuestions : list PastPaperQuestion) (numberOfMCQs : Z)
           (difficulty : Difficulty) (questionTypes : list QuestionType)
  : string :=
  generation_prompt textbookContent (questionsContext sampleQuestions)
    (join newline (map (fun qt => "- " ++ qt_name qt) questionTypes))
    (difficultyGuidance difficulty) numberOfMCQs.

(** The specification's reading: a successful call returns exactly the
    target count, and in mode [easy] only difficulties 1 and 2. *)
Definition generation_as_specified {Env : Type} (ext : External Env)
           (textbookContent : TextbookContent)
           (sampleQuestions : list PastPaperQuestion) (numberOfMCQs : Z)
           (difficulty : Difficulty) (questionTypes : list QuestionType)
           (w : World Env Event) : Prop :=
  forall mcqs w' l',
    generateMCQs ext textbookContent sampleQuestions numberOfMCQs difficulty
      questionTypes w tt = (Ok mcqs, w', l') ->
    Z.of_nat (List.length mcqs) = numberOfMCQs
    /\ (difficulty = easy ->
        Forall (fun m => mcq_difficulty m = 1 \/ mcq_difficulty m = 2) mcqs).

Lemma MCQsSchema_bounds (mcqs : GeneratedMCQs) :
  MCQsSchema mcqs = true ->
  Forall (fun m => 1 <= mcq_difficulty m <= 5) mcqs.
Proof.
  unfold MCQsSchema. rewrite forallb_forall, Forall_forall.
  intros H m Hm. specialize (H m Hm). unfold MCQSchema in H.
  apply andb_true_iff in H. destruct H as [H1 H2].
  apply Z.leb_le in H1, H2. lia.
Qed.

(** What [generateMCQs] returns, by the model's answer. *)
Lemma generateMCQs_run {Env L : Type} (ext : External Env) textbookContent
      sampleQuestions numberOfMCQs difficulty questionTypes
      (w : World Env Event) (l : L) :
  let prompt := prompt_of textbookContent sampleQuestions numberOfMCQs
                  difficulty questionTypes in
  generateMCQs ext textbookContent sampleQuestions numberOfMCQs difficulty
    questionTypes w l
  = match generate_object ext "deepseek-v3.2" prompt (env w) with
    | (Ok object, e1) =>
        if MCQsSchema object
        then
          (Ok object,
           {| env := e1;
              trace := (trace w
                          ++ [GenerateObject "deepseek-v3.2" prompt
                                (Ok object)])%list |}, l)
        else
          (Err schema_violation,
           {| env := e1;
              trace := ((trace w
                           ++ [GenerateObject "deepseek-v3.2" prompt
                                 (Ok object)])
                          ++ [ConsoleError "Error generating MCQs:"
                                schema_violation])%list |}, l)
    | (Err message, e1) =>
        (Err message,
         {| env := e1;
            trace := ((trace w
                         ++ [GenerateObject "deepseek-v3.2" prompt
                               (Err message)])
                        ++ [ConsoleError "Error generating MCQs:"
                              message])%list |}, l)
    end.
Proof.
  intros prompt.
  unfold generateMCQs, generateObject, try_catch, bind, ask. fold prompt.
  change (generation_prompt textbookContent (questionsContext sampleQuestions)
            (join newline (map (fun qt => "- " ++ qt_name qt) questionTypes))
            (difficultyGuidance difficulty) numberOfMCQs) with prompt.
  destruct (generate_object ext "deepseek-v3.2" prompt (env w))
    as [[object | message] e1]; simpl; [| reflexivity].
  destruct (MCQsSchema object); reflexivity.
Qed.

Ltac in_prompt :=
  unfold prompt_of, generation_prompt; apply occurs_join; cbn [In];
  repeat (first [left; reflexivity | right]).

(** C5, as the code has it.  [generateMCQs] makes one call of the
    generation model with a prompt that names the count and the
    difficulty mode, and is atomic: it returns the model's whole answer
    when the answer matches the schema, and throws otherwise.  A returned
    answer has difficulties from 1 to 5; its length and its difficulties
    are not compared with the count and the mode asked for.  The prompt
    asks for the count in so many words (for a count that JavaScript
    prints in digits), holds the instruction of the difficulty mode as
    its requirement 4, an instruction that differs from mode to mode, and
    holds the text of the textbook, the sample questions and the name of
    every question type. *)
Theorem generateMCQs_atomic :
  forall (Env : Type) (ext : External Env) textbookContent sampleQuestions
         numberOfMCQs difficulty questionTypes (w : World Env Event),
    let prompt := prompt_of textbookContent sampleQuestions numberOfMCQs
                    difficulty questionTypes in
    let run := generateMCQs ext textbookContent sampleQuestions numberOfMCQs
                 difficulty questionTypes w tt in
    run
    = match generate_object ext "deepseek-v3.2" prompt (env w) with
      | (Ok object, e1) =>
          if MCQsSchema object
          then
            (Ok object,
             {| env := e1;
                trace := (trace w
                            ++ [GenerateObject "deepseek-v3.2" prompt
                                  (Ok object)])%list |}, tt)
          else
            (Err schema_violation,
             {| env := e1;
                trace := ((trace w
                             ++ [GenerateObject "deepseek-v3.2" prompt
                                   (Ok object)])
                            ++ [ConsoleError "Error generating MCQs:"
                                  schema_violation])%list |}, tt)
      | (Err message, e1) =>
          (Err message,
           {| env := e1;
              trace := ((trace w
                           ++ [GenerateObject "deepseek-v3.2" prompt
                                 (Err message)])
                          ++ [ConsoleError "Error generating MCQs:"
                                message])%list |}, tt)
      end
    /\ (forall mcqs, fst (fst run) = Ok mcqs ->
                     Forall (fun m => 1 <= mcq_difficulty m <= 5) mcqs)
    /\ (Z.abs numberOfMCQs < 10 ^ 21 ->
        occurs ("生成 " ++ show_Z numberOfMCQs ++ " 道") prompt)
    /\ occurs ("4. " ++ difficultyGuidance difficulty) prompt
    /\ (forall mode mode' : Difficulty,
           difficultyGuidance mode = difficultyGuidance mode' -> mode = mode')
    /\ occurs (textbook_content textbookContent) prompt
    /\ occurs (questionsContext sampleQuestions) prompt
    /\ (forall qt, In qt questionTypes -> occurs ("- " ++ qt_name qt) prompt).
Proof.
  intros Env ext textbookContent sampleQuestions numberOfMCQs difficulty
    questionTypes w prompt run.
  split; [apply generateMCQs_run |].
  split.
  { unfold run. rewrite generateMCQs_run. fold prompt.
    destruct (generate_object ext "deepseek-v3.2" prompt (env w))
      as [[object | message] e1]; [| intros mcqs [=]].
    destruct (MCQsSchema object) eqn:Hschema; simpl; [| intros mcqs [=]].
    intros mcqs [= <-]. now apply MCQsSchema_bounds. }
  subst prompt.
  split.
  { intros _. eapply occurs_trans; [| in_prompt].
    exists "你是一個專業的DSE中文科試題出題專家。請根據以下範文內容和範例題目，",
      "高質量的選擇題（MCQ）。".
    rewrite !string_app_assoc. reflexivity. }
  split; [in_prompt |].
  split.
  { intros mode mode'.
    destruct mode, mode'; intros Heq; try reflexivity; discriminate Heq. }
  split; [in_prompt |].
  split; [in_prompt |].
  intros qt Hqt.
  apply occurs_trans
    with (b := join newline (map (fun qt => "- " ++ qt_name qt) questionTypes));
    [| in_prompt].
  apply occurs_join, in_map_iff. now exists qt.
Qed.

Lemma generateMCQs_atomic_witness :
  occurs ("生成 " ++ show_Z 5 ++ " 道")
         (prompt_of
            {| textbook_topic := "師說"; textbook_content := "古之學者必有師。";
               textbook_subject := "DSE中文12篇範文" |}
            Examples.three_pastpapers 5 easy Examples.example_types).
Proof.
  exact (proj1 (proj2 (proj2
           (generateMCQs_atomic unit
              (Examples.generator_store Examples.three_pastpapers
                 [Examples.example_generated 5])
              {| textbook_topic := "師說";
                 textbook_content := "古之學者必有師。";
                 textbook_subject := "DSE中文12篇範文" |}
              Examples.three_pastpapers 5 easy Examples.example_types
              Examples.fresh)))
           eq_refl).
Defined.

(** The specification's reading fails on the code: asked for 5 easy
    questions, a model that answers with one question of difficulty 5
    has its answer returned. *)
Lemma generation_as_specified_fails :
  ~ generation_as_specified
      (Examples.generator_store Examples.three_pastpapers
         [Examples.example_generated 5])
      {| textbook_topic := "師說"; textbook_content := "古之學者必有師。";
         textbook_subject := "DSE中文12篇範文" |}
      Examples.three_pastpapers 5 easy Examples.example_types
      Examples.fresh.
Proof.
  intros H. specialize (H _ _ _ eq_refl). destruct H as [Hlen _].
  vm_compute in Hlen. discriminate.
Qed.

End Generation.

(** ** C6: configuration errors *)

Module Configuration.
Import McqGenerator.

Definition supabase_missing (penv : ProcessEnv) : bool :=
  negb (truthy_string (SUPABASE_URL penv))
  || negb (truthy_string (SUPABASE_ANON_KEY penv)).

Definition credentials_missing (penv : ProcessEnv) : bool :=
  supabase_missing penv || negb (truthy_string (OPENAI_API_KEY penv)).














End Configuration.

(** ** Loops and the trace *)

Section LoopFacts.
Context {W L A : Type}.

(** An invariant indexed by the elements already processed: a body that
    never throws and moves the invariant from [done] to [done ++ [x]]
    carries it through the loop. *)
Lemma for_of_fold (body : A -> M W L unit) (Q : list A -> W -> L -> Prop) :
  (forall done x w l r w' l',
      Q done w l -> body x w l = (r, w', l') ->
      r = Ok tt /\ Q (done ++ [x])%list w' l') ->
  forall xs done w l r w' l',
    Q done w l -> for_of xs body w l = (r, w', l') ->
    r = Ok tt /\ Q (done ++ xs)%list w' l'.
Proof.
  intros Hstep xs. induction xs as [| x xs IH]; intros done w l r w' l' HQ Hrun.
  - simpl in Hrun. unfold ret in Hrun. injection Hrun as <- <- <-.
    rewrite app_nil_r. auto.
  - simpl in Hrun. unfold bind in Hrun.
    destruct (body x w l) as [[r1 w1] l1] eqn:Hbody.
    destruct (Hstep done x w l r1 w1 l1 HQ Hbody) as [-> HQ1].
    specialize (IH (done ++ [x])%list w1 l1 r w' l' HQ1 Hrun).
    rewrite <- app_assoc in IH. exact IH.
Qed.
End LoopFacts.

(** ** [upload-pastpapers.ts]: one candidate, one image *)

Module Extraction.
Import PastpaperUploader.

(** The events of processing one candidate. *)
Definition is_candidate_event (ev : Event) : bool :=
  match ev with
  | Embed _ _ _ => true
  | Now _ => true
  | ConsoleError _ _ => true
  | _ => false
  end.

(** The events of persistence: the review file and the inserts. *)
Definition is_persist (ev : Event) : bool :=
  match ev with
  | WriteFile _ _ _ _ => true
  | Insert _ _ => true
  | _ => false
  end.

(** The images whose reading was attempted. *)
Fixpoint read_paths (t : list Event) : list string :=
  match t with
  | [] => []
  | ReadFile path _ :: t' => path :: read_paths t'
  | _ :: t' => read_paths t'
  end.

(** What the extraction model's answers oblige the run to account for:
    each candidate of an answer that matched the schema, and one failure
    for each image that could not be read or extracted. *)
Fixpoint accounted (t : list Event) : Z :=
  match t with
  | [] => 0
  | ReadFile _ (Err _) :: t' => 1 + accounted t'
  | GenerateObject _ _ _ (Err _) :: t' => 1 + accounted t'
  | GenerateObject _ _ _ (Ok qs) :: t' =>
      (if ExtractedQuestionsSchema qs then Z.of_nat (List.length qs) else 1)
      + accounted t'
  | _ :: t' => accounted t'
  end.

(** The rows whose insertion was attempted. *)
Fixpoint inserted_rows (t : list Event) : list PastPaperRecord :=
  match t with
  | [] => []
  | Insert row _ :: t' => row :: inserted_rows t'
  | _ :: t' => inserted_rows t'
  end.

(** A failure report on the console: the line of the inner or of the
    outer [catch]. *)
Definition is_report (ev : Event) : bool :=
  match ev with
  | ConsoleError label _ =>
      prefix "    ✗ Error processing question " label
      || prefix "  ✗ Error processing " label
  | _ => false
  end.

Fixpoint reports (t : list Event) : Z :=
  match t with
  | [] => 0
  | ev :: t' => (if is_report ev then 1 else 0) + reports t'
  end.

Lemma reports_app t1 t2 : reports (t1 ++ t2) = reports t1 + reports t2.
Proof.
  induction t1 as [| ev t1 IH]; [reflexivity |].
  cbn [reports app]. rewrite IH. lia.
Qed.

Lemma prefix_append (s x : string) : prefix s (s ++ x) = true.
Proof.
  induction s as [| c s IH]; simpl.
  - now destruct x.
  - destruct (Ascii.ascii_dec c c); [exact IH | congruence].
Qed.

Lemma read_paths_app t1 t2 :
  read_paths (t1 ++ t2) = (read_paths t1 ++ read_paths t2)%list.
Proof.
  induction t1 as [| ev t1 IH]; simpl; [reflexivity |].
  destruct ev; simpl; now rewrite ?IH.
Qed.

Lemma accounted_app t1 t2 : accounted (t1 ++ t2) = accounted t1 + accounted t2.
Proof.
  induction t1 as [| ev t1 IH]; [reflexivity |].
  destruct ev as [| | | ? [|] | ? ? ? [|] | | | | | |];
    cbn [accounted app]; rewrite ?IH; lia.
Qed.

Lemma inserted_rows_app t1 t2 :
  inserted_rows (t1 ++ t2) = (inserted_rows t1 ++ inserted_rows t2)%list.
Proof.
  induction t1 as [| ev t1 IH]; simpl; [reflexivity |].
  destruct ev; simpl; now rewrite ?IH.
Qed.

Lemma candidate_events_silent t :
  Forall (fun ev => is_candidate_event ev = true) t ->
  read_paths t = [] /\ accounted t = 0
  /\ Forall (fun ev => is_persist ev = false) t.
Proof.
  induction 1 as [| ev t Hev _ [IH1 [IH2 IH3]]].
  - repeat split. constructor.
  - destruct ev; try discriminate; cbn [read_paths accounted];
      repeat split; auto.
Qed.

Section Run.
Context {Env : Type} (ext : External Env) (CONFIG : Config)
        (questionTypes : list QuestionType).

Definition failure_label (q : PastPaperQuestion) : string :=
  "    ✗ Error processing question " ++ show_Z q.(question_number) ++ ":".

(** What [generateEmbedding] does, by the collaborator's answer. *)
Lemma generateEmbedding_run {L : Type} (text : string)
      (w : World Env Event) (l : L) :
  generateEmbedding ext text w l
  = match embed ext "bge-m3" text (env w) with
    | (Ok v, e1) =>
        (Ok v,
         {| env := e1;
            trace := (trace w ++ [Embed "bge-m3" text (Ok v)])%list |}, l)
    | (Err message, e1) =>
        (Err message,
         {| env := e1;
            trace := ((trace w ++ [Embed "bge-m3" text (Err message)])
                        ++ [ConsoleError "Error generating embedding:"
                              message])%list |}, l)
    end.
Proof.
  unfold generateEmbedding, try_catch, bind, ask.
  destruct (embed ext "bge-m3" text (env w)) as [[v | message] e1];
    reflexivity.
Qed.

(** What processing one candidate does: a failure of the label or of the
    embedding is caught and counted, a success appends one record. *)
Lemma process_question_run (filename : string) (q : PastPaperQuestion)
      (w : World Env Event) (l : Locals) :
  process_question ext CONFIG questionTypes filename q w l
  = match mapQuestionTypeToId q.(question_type_name) questionTypes with
    | Err message =>
        (Ok tt,
         {| env := env w;
            trace := (trace w ++ [ConsoleError (failure_label q) message])%list
         |}, incr_errorCount l)
    | Ok questionTypeId =>
        match embed ext "bge-m3" (grounding_text q) (env w) with
        | (Err message, e1) =>
            (Ok tt,
             {| env := e1;
                trace := (((trace w
                              ++ [Embed "bge-m3" (grounding_text q)
                                    (Err message)])
                             ++ [ConsoleError "Error generating embedding:"
                                   message])
                            ++ [ConsoleError (failure_label q) message])%list
             |}, incr_errorCount l)
        | (Ok v, e1) =>
            let (extracted_at, e2) := toISOString ext e1 in
            (Ok tt,
             {| env := e2;
                trace := ((trace w
                             ++ [Embed "bge-m3" (grounding_text q) (Ok v)])
                            ++ [Now extracted_at])%list |},
             push_record
               (make_record CONFIG q questionTypeId v filename extracted_at)
               l)
        end
    end.
Proof.
  unfold process_question, try_catch. unfold bind at 1.
  destruct (mapQuestionTypeToId q.(question_type_name) questionTypes)
    as [questionTypeId | message]; simpl.
  - unfold bind at 1. rewrite generateEmbedding_run.
    destruct (embed ext "bge-m3" (grounding_text q) (env w))
      as [[v | message] e1]; simpl; [| reflexivity].
    unfold bind, ask, modify_locals. simpl.
    destruct (toISOString ext e1) as [extracted_at e2]. reflexivity.
  - reflexivity.
Qed.

(** A record made from one of the candidates [done] of the image
    [filename], with the embedding the collaborator returned for its
    grounding text. *)
Definition made_in (filename : string) (done : list PastPaperQuestion)
           (t : list Event) (r : PastPaperRecord) : Prop :=
  exists q extracted_at,
    In q done
    /\ mapQuestionTypeToId q.(question_type_name) questionTypes
       = Ok (question_type_id r)
    /\ In (Embed "bge-m3" (grounding_text q) (Ok (embedding r))) t
    /\ (exists e e', embed ext "bge-m3" (grounding_text q) e
                     = (Ok (embedding r), e'))
    /\ r = make_record CONFIG q (question_type_id r) (embedding r) filename
             extracted_at.

Lemma made_in_mono filename done done' t t' r :
  made_in filename done t r ->
  made_in filename (done ++ done') (t ++ t') r.
Proof.
  intros [q [ts [Hq [Hid [Hemb [Hcall Hr]]]]]]. exists q, ts.
  split; [apply in_or_app; now left |]. split; [exact Hid |].
  split; [apply in_or_app; now left |]. split; assumption.
Qed.

(** The state of the inner loop after the candidates [done], started in
    [(w0, l0)]. *)
Definition inner_inv (filename : string) (w0 : World Env Event)
           (l0 : Locals) (done : list PastPaperQuestion)
           (w : World Env Event) (l : Locals) : Prop :=
  exists t new,
    trace w = (trace w0 ++ t)%list
    /\ Forall (fun ev => is_candidate_event ev = true) t
    /\ allRecords l = (allRecords l0 ++ new)%list
    /\ successCount l = successCount l0
    /\ Z.of_nat (List.length new) + (errorCount l - errorCount l0)
       = Z.of_nat (List.length done)
    /\ errorCount l - errorCount l0 = reports t
    /\ Forall (made_in filename done t) new.

Lemma failure_label_is_report q message :
  is_report (ConsoleError (failure_label q) message) = true.
Proof.
  unfold is_report, failure_label. now rewrite prefix_append.
Qed.

Lemma inner_step filename w0 l0 done q w l r w' l' :
  inner_inv filename w0 l0 done w l ->
  process_question ext CONFIG questionTypes filename q w l = (r, w', l') ->
  r = Ok tt /\ inner_inv filename w0 l0 (done ++ [q]) w' l'.
Proof.
  intros [t [new [Ht [Hev [Hrec [Hsucc [Hcount [Hrep Hmade]]]]]]]] Hrun.
  rewrite process_question_run in Hrun.
  assert (Hmono : Forall (fun r => forall t', made_in filename (done ++ [q])
                                             (t ++ t') r) new).
  { eapply Forall_impl; [| exact Hmade].
    intros r0 H0 t'. now apply made_in_mono. }
  destruct (mapQuestionTypeToId q.(question_type_name) questionTypes)
    as [questionTypeId | message] eqn:Hid.
  - destruct (embed ext "bge-m3" (grounding_text q) (env w))
      as [[v | message] e1] eqn:Hembed.
    + destruct (toISOString ext e1) as [extracted_at e2].
      injection Hrun as <- <- <-. split; [reflexivity |].
      exists (t ++ [Embed "bge-m3" (grounding_text q) (Ok v);
                    Now extracted_at])%list,
        (new ++ [make_record CONFIG q questionTypeId v filename
                   extracted_at])%list.
      simpl. rewrite Ht, Hrec, <- !app_assoc. simpl.
      split; [reflexivity |].
      split; [apply Forall_app; split; [exact Hev | repeat constructor] |].
      split; [reflexivity |].
      split; [exact Hsucc |].
      split; [rewrite !length_app; simpl List.length; lia |].
      split; [rewrite reports_app; cbn; lia |].
      apply Forall_app. split.
      * eapply Forall_impl; [| exact Hmono]. intros r0 H0. apply H0.
      * constructor; [| constructor].
        exists q, extracted_at. simpl.
        split; [apply in_or_app; right; now left |].
        split; [exact Hid |].
        split; [apply in_or_app; right; now left |].
        split; [| reflexivity]. exists (env w), e1. exact Hembed.
    + injection Hrun as <- <- <-. split; [reflexivity |].
      exists (t ++ [Embed "bge-m3" (grounding_text q) (Err message);
                    ConsoleError "Error generating embedding:" message;
                    ConsoleError (failure_label q) message])%list, new.
      simpl. rewrite Ht, <- !app_assoc. simpl.
      split; [reflexivity |].
      split; [apply Forall_app; split; [exact Hev | repeat constructor] |].
      split; [exact Hrec |].
      split; [exact Hsucc |].
      split; [rewrite length_app; simpl List.length; lia |].
      split.
      * rewrite reports_app. cbn [reports].
        rewrite failure_label_is_report. cbn. lia.
      * eapply Forall_impl; [| exact Hmono]. intros r0 H0. apply H0.
  - injection Hrun as <- <- <-. split; [reflexivity |].
    exists (t ++ [ConsoleError (failure_label q) message])%list, new.
    simpl. rewrite Ht, <- !app_assoc.
    split; [reflexivity |].
    split; [apply Forall_app; split; [exact Hev | repeat constructor] |].
    split; [exact Hrec |].
    split; [exact Hsucc |].
    split; [rewrite length_app; simpl List.length; lia |].
    split.
    + rewrite reports_app. cbn [reports].
      rewrite failure_label_is_report. lia.
    + eapply Forall_impl; [| exact Hmono]. intros r0 H0. apply H0.
Qed.

(** The loop over the candidates of one image never throws, and accounts
    for each candidate. *)
Lemma inner_loop filename qs w0 l0 r w' l' :
  for_of qs (process_question ext CONFIG questionTypes filename) w0 l0
  = (r, w', l') ->
  r = Ok tt /\ inner_inv filename w0 l0 qs w' l'.
Proof.
  intros Hrun.
  apply (for_of_fold (process_question ext CONFIG questionTypes filename)
           (inner_inv filename w0 l0)
           (fun done x w l r w' l' => inner_step filename w0 l0 done x w l r
                                        w' l')
           qs [] w0 l0 r w' l'); [| exact Hrun].
  exists [], []. rewrite !app_nil_r. cbn [reports List.length].
  repeat split; try lia; constructor.
Qed.

(** The embedding collaborator answers every request. *)
Definition embed_never_fails : Prop :=
  forall model text e, exists v e', embed ext model text e = (Ok v, e').

Definition resolvable (q : PastPaperQuestion) : bool :=
  is_ok (mapQuestionTypeToId q.(question_type_name) questionTypes).

Definition unresolvable (q : PastPaperQuestion) : bool :=
  negb (resolvable q).

(** With an embedding collaborator that does not fail, the candidates
    with a resolvable label become records and the others are counted. *)
Lemma inner_loop_counts filename qs w0 l0 r w' l' :
  embed_never_fails ->
  for_of qs (process_question ext CONFIG questionTypes filename) w0 l0
  = (r, w', l') ->
  List.length (allRecords l')
  = (List.length (allRecords l0) + List.length (filter resolvable qs))%nat
  /\ errorCount l'
     = errorCount l0 + Z.of_nat (List.length (filter unresolvable qs)).
Proof.
  intros Hembed Hrun.
  apply (for_of_fold (process_question ext CONFIG questionTypes filename)
           (fun done _ l =>
              List.length (allRecords l)
              = (List.length (allRecords l0)
                 + List.length (filter resolvable done))%nat
              /\ errorCount l
                 = errorCount l0
                   + Z.of_nat (List.length (filter unresolvable done))))
    with (done := []) (xs := qs) (w := w0) (l := l0) (r := r) (w' := w')
         (l' := l') in Hrun.
  - exact (proj2 Hrun).
  - clear Hrun. intros done q w l r1 w1 l1 [Hlen Herr] Hstep.
    rewrite process_question_run in Hstep.
    rewrite !filter_app, !length_app. cbn [filter].
    assert (Hres : resolvable q
                   = is_ok (mapQuestionTypeToId q.(question_type_name)
                              questionTypes)) by reflexivity.
    unfold unresolvable at 2. rewrite Hres.
    destruct (mapQuestionTypeToId q.(question_type_name) questionTypes)
      as [questionTypeId | message].
    + destruct (Hembed "bge-m3" (grounding_text q) (env w)) as [v [e1 He]].
      rewrite He in Hstep. destruct (toISOString ext e1) as [ts e2].
      injection Hstep as <- <- <-. split; [reflexivity |].
      cbn [is_ok negb List.length push_record allRecords errorCount].
      rewrite length_app. cbn [List.length]. split; lia.
    + injection Hstep as <- <- <-. split; [reflexivity |].
      cbn [is_ok negb List.length incr_errorCount allRecords errorCount].
      split; lia.
  - simpl. split; [lia | lia].
Qed.

(** The request [performOCR] sends for an image. *)
Definition ocr_text (topics : list Topic) : string :=
  ocr_prompt (join newline (map (fun t => "- " ++ topic_topic t) topics))
    (join newline (map (fun qt => "- " ++ qt_name qt) questionTypes)).

Definition ocr_image (imagePath buffer : string) : string :=
  "data:"
  ++ (if endsWith imagePath ".png" then "image/png" else "image/jpeg")
  ++ ";base64," ++ base64 ext buffer.

(** What [performOCR] does, by the answers of the file system and of the
    extraction model. *)
Lemma performOCR_run {L : Type} (imagePath : string) (topics : list Topic)
      (w : World Env Event) (l : L) :
  performOCR ext imagePath questionTypes topics w l
  = match readFile ext imagePath (env w) with
    | (Err message, e1) =>
        (Err message,
         {| env := e1;
            trace := ((trace w ++ [ReadFile imagePath (Err message)])
                        ++ [ConsoleError "Error performing OCR:" message])%list
         |}, l)
    | (Ok buffer, e1) =>
        let text := ocr_text topics in
        let image := ocr_image imagePath buffer in
        match generate_object ext "qwen3-vl-plus" text image e1 with
        | (Err message, e2) =>
            (Err message,
             {| env := e2;
                trace := (((trace w ++ [ReadFile imagePath (Ok buffer)])
                             ++ [GenerateObject "qwen3-vl-plus" text image
                                   (Err message)])
                            ++ [ConsoleError "Error performing OCR:"
                                  message])%list |}, l)
        | (Ok qs, e2) =>
            if ExtractedQuestionsSchema qs
            then
              (Ok qs,
               {| env := e2;
                  trace := ((trace w ++ [ReadFile imagePath (Ok buffer)])
                              ++ [GenerateObject "qwen3-vl-plus" text image
                                    (Ok qs)])%list |}, l)
            else
              (Err schema_violation,
               {| env := e2;
                  trace := (((trace w ++ [ReadFile imagePath (Ok buffer)])
                               ++ [GenerateObject "qwen3-vl-plus" text image
                                     (Ok qs)])
                              ++ [ConsoleError "Error performing OCR:"
                                    schema_violation])%list |}, l)
        end
    end.
Proof.
  unfold performOCR, try_catch. unfold bind at 1. unfold ask at 1.
  destruct (readFile ext imagePath (env w)) as [[buffer | message] e1];
    [| reflexivity].
  unfold generateObject, bind, ask, await, ret. cbv beta iota zeta.
  cbn [env trace].
  change (generate_object ext "qwen3-vl-plus" _ _ e1)
    with (generate_object ext "qwen3-vl-plus" (ocr_text topics)
            (ocr_image imagePath buffer) e1).
  destruct (generate_object ext "qwen3-vl-plus" (ocr_text topics)
              (ocr_image imagePath buffer) e1) as [[qs | message] e2];
    [| reflexivity].
  cbv beta iota zeta.
  destruct (ExtractedQuestionsSchema qs); reflexivity.
Qed.

(** A record of the run: made from a candidate [q] that the extraction
    model returned, its type id resolved from the candidate's label, its
    embedding the collaborator's answer for the candidate's grounding
    text. *)
Definition made_from (t : list Event) (r : PastPaperRecord) : Prop :=
  exists q filename extracted_at model text image qs,
    In (GenerateObject model text image (Ok qs)) t
    /\ In q qs
    /\ mapQuestionTypeToId q.(question_type_name) questionTypes
       = Ok (question_type_id r)
    /\ In (Embed "bge-m3" (grounding_text q) (Ok (embedding r))) t
    /\ (exists e e', embed ext "bge-m3" (grounding_text q) e
                     = (Ok (embedding r), e'))
    /\ r = make_record CONFIG q (question_type_id r) (embedding r) filename
             extracted_at.

Lemma made_from_mono t t1 t2 r :
  made_from t r -> made_from (t1 ++ t ++ t2) r.
Proof.
  intros [q [f [ts [model [text [image [qs [Hg [Hq [Hid [He [Hc Hr]]]]]]]]]]]].
  exists q, f, ts, model, text, image, qs.
  split; [apply in_or_app; right; apply in_or_app; now left |].
  split; [exact Hq |]. split; [exact Hid |].
  split; [apply in_or_app; right; apply in_or_app; now left |].
  split; assumption.
Qed.

(** The state of the loop over the images after the images [done],
    started in [w0] with fresh counters. *)
Definition outer_inv (w0 : World Env Event) (done : list string)
           (w : World Env Event) (l : Locals) : Prop :=
  exists t,
    trace w = (trace w0 ++ t)%list
    /\ Forall (fun ev => is_persist ev = false) t
    /\ read_paths t = done
    /\ Forall (made_from t) (allRecords l)
    /\ Z.of_nat (List.length (allRecords l)) + errorCount l = accounted t
    /\ errorCount l = reports t.

Lemma image_label_is_report name message :
  is_report (ConsoleError ("  ✗ Error processing " ++ name ++ ":") message)
  = true.
Proof.
  unfold is_report. rewrite (prefix_append "  ✗ Error processing ").
  apply orb_true_r.
Qed.

Lemma outer_step topics w0 done imagePath w l r w' l' :
  outer_inv w0 done w l ->
  process_image ext CONFIG questionTypes topics imagePath w l = (r, w', l') ->
  r = Ok tt /\ outer_inv w0 (done ++ [imagePath]) w' l'.
Proof.
  intros [t [Ht [Hquiet [Hread [Hmade [Hacc Hrep]]]]]] Hrun.
  unfold process_image, try_catch in Hrun. unfold bind at 1 in Hrun.
  rewrite performOCR_run in Hrun.
  assert (Hkeep : forall t', Forall (made_from (t ++ t')) (allRecords l)).
  { intros t'. eapply Forall_impl; [| exact Hmade]. intros r0 H0.
    apply (made_from_mono t [] t' r0 H0). }
  destruct (readFile ext imagePath (env w)) as [[buffer | message] e1].
  - cbv zeta in Hrun.
    destruct (generate_object ext "qwen3-vl-plus" (ocr_text topics)
                (ocr_image imagePath buffer) e1) as [[qs | message] e2].
    + destruct (ExtractedQuestionsSchema qs) eqn:Hschema.
      * unfold bind at 1 in Hrun.
        destruct (for_of qs
                    (process_question ext CONFIG questionTypes
                       (path_basename ext imagePath))
                    {| env := e2;
                       trace := ((trace w ++ [ReadFile imagePath (Ok buffer)])
                                   ++ [GenerateObject "qwen3-vl-plus"
                                         (ocr_text topics)
                                         (ocr_image imagePath buffer)
                                         (Ok qs)])%list |} l)
          as [[r2 w2] l2] eqn:Hloop.
        apply inner_loop in Hloop.
        destruct Hloop
          as [-> [ti [new [Hti [Hev [Hrec [Hsucc [Hcount [Hreps Hin]]]]]]]]].
        unfold modify_locals in Hrun. injection Hrun as <- <- <-.
        split; [reflexivity |].
        destruct (candidate_events_silent ti Hev) as [Hr0 [Ha0 Hp0]].
        exists (t ++ [ReadFile imagePath (Ok buffer);
                      GenerateObject "qwen3-vl-plus" (ocr_text topics)
                        (ocr_image imagePath buffer) (Ok qs)] ++ ti)%list.
        cbn [trace] in Hti. rewrite Hti, Ht, <- !app_assoc.
        cbn [app allRecords errorCount incr_successCount].
        split; [reflexivity |].
        split; [apply Forall_app; split; [exact Hquiet |];
                repeat constructor; exact Hp0 |].
        split; [rewrite read_paths_app; cbn [read_paths]; rewrite Hr0, Hread;
                reflexivity |].
        split.
        { rewrite Hrec. apply Forall_app. split; [apply Hkeep |].
          eapply Forall_impl; [| exact Hin].
          intros r0 [q [ts [Hq [Hid [Hemb [Hcall Hr]]]]]].
          exists q, (path_basename ext imagePath), ts, "qwen3-vl-plus",
            (ocr_text topics), (ocr_image imagePath buffer), qs.
          split; [apply in_or_app; right; right; now left |].
          split; [exact Hq |]. split; [exact Hid |].
          split; [apply in_or_app; right; right; right; exact Hemb |].
          split; assumption. }
        split.
        { rewrite Hrec, length_app, accounted_app. cbn [accounted].
          rewrite Hschema, Ha0. lia. }
        rewrite reports_app. cbn [reports is_report]. lia.
      * cbn in Hrun. unfold modify_locals in Hrun. injection Hrun as <- <- <-.
        split; [reflexivity |].
        exists (t ++ [ReadFile imagePath (Ok buffer);
                      GenerateObject "qwen3-vl-plus" (ocr_text topics)
                        (ocr_image imagePath buffer) (Ok qs);
                      ConsoleError "Error performing OCR:" schema_violation;
                      ConsoleError
                        ("  ✗ Error processing "
                         ++ path_basename ext imagePath ++ ":")
                        schema_violation])%list.
        cbn [trace allRecords errorCount incr_errorCount].
        rewrite Ht, <- !app_assoc. cbn [app].
        split; [reflexivity |].
        split; [apply Forall_app; split; [exact Hquiet |];
                repeat constructor |].
        split; [rewrite read_paths_app; cbn [read_paths]; rewrite Hread;
                reflexivity |].
        split; [apply Hkeep |].
        split; [rewrite accounted_app; cbn [accounted]; rewrite Hschema; lia |].
        rewrite reports_app. cbn [reports].
        rewrite image_label_is_report. cbn. lia.
    + cbn in Hrun. unfold modify_locals in Hrun. injection Hrun as <- <- <-.
      split; [reflexivity |].
      exists (t ++ [ReadFile imagePath (Ok buffer);
                    GenerateObject "qwen3-vl-plus" (ocr_text topics)
                      (ocr_image imagePath buffer) (Err message);
                    ConsoleError "Error performing OCR:" message;
                    ConsoleError
                      ("  ✗ Error processing "
                       ++ path_basename ext imagePath ++ ":") message])%list.
      cbn [trace allRecords errorCount incr_errorCount].
      rewrite Ht, <- !app_assoc. cbn [app].
      split; [reflexivity |].
      split; [apply Forall_app; split; [exact Hquiet |];
              repeat constructor |].
      split; [rewrite read_paths_app; cbn [read_paths]; rewrite Hread;
              reflexivity |].
      split; [apply Hkeep |].
      split; [rewrite accounted_app; cbn [accounted]; lia |].
      rewrite reports_app. cbn [reports].
      rewrite image_label_is_report. cbn. lia.
  - cbn in Hrun. unfold modify_locals in Hrun. injection Hrun as <- <- <-.
    split; [reflexivity |].
    exists (t ++ [ReadFile imagePath (Err message);
                  ConsoleError "Error performing OCR:" message;
                  ConsoleError
                    ("  ✗ Error processing "
                     ++ path_basename ext imagePath ++ ":") message])%list.
    cbn [trace allRecords errorCount incr_errorCount].
    rewrite Ht, <- !app_assoc. cbn [app].
    split; [reflexivity |].
    split; [apply Forall_app; split; [exact Hquiet |];
            repeat constructor |].
    split; [rewrite read_paths_app; cbn [read_paths]; rewrite Hread;
            reflexivity |].
    split; [apply Hkeep |].
    split; [rewrite accounted_app; cbn [accounted]; lia |].
    rewrite reports_app. cbn [reports].
    rewrite image_label_is_report. cbn. lia.
Qed.

(** The loop over the images never throws, attempts every image, and
    accounts for every candidate and every failed image. *)
Lemma outer_loop topics imageFiles w0 r w' l' :
  for_of imageFiles (process_image ext CONFIG questionTypes topics) w0
    init_locals = (r, w', l') ->
  r = Ok tt /\ outer_inv w0 imageFiles w' l'.
Proof.
  intros Hrun.
  apply (for_of_fold (process_image ext CONFIG questionTypes topics)
           (outer_inv w0)
           (fun done x w l r w' l' => outer_step topics w0 done x w l r w' l')
           imageFiles [] w0 init_locals r w' l'); [| exact Hrun].
  exists []. rewrite app_nil_r. cbn.
  repeat split; constructor.
Qed.

End Run.

Section WholeRun.
Context {Env : Type} (ext : External Env) (CONFIG : Config).

(** The events of [uploadToSupabase]. *)
Definition is_upload_event (ev : Event) : bool :=
  match ev with
  | Insert _ _ => true
  | ConsoleError _ _ => true
  | _ => false
  end.

Lemma upload_question_step (question : PastPaperRecord)
      (w : World Env Event) (c : UploadCounts) r w' c' :
  upload_question ext question w c = (r, w', c') ->
  r = Ok tt
  /\ exists t, trace w' = (trace w ++ t)%list
               /\ inserted_rows t = [question]
               /\ Forall (fun ev => is_upload_event ev = true) t.
Proof.
  unfold upload_question, try_catch, bind, ask, modify_locals, emit, throw.
  destruct (insert_pastpaper ext question (env w))
    as [[[| inserted rest] | message] e1]; cbn; intros [= <- <- <-];
    (split; [reflexivity |]); eexists; rewrite <- ?app_assoc;
    (split; [reflexivity |]); split; try reflexivity; repeat constructor.
Qed.

(** [uploadToSupabase] never throws, and attempts to insert each record
    once, in order. *)
Lemma uploadToSupabase_run (questions : list PastPaperRecord)
      (w : World Env Event) (c : UploadCounts) r w' c' :
  uploadToSupabase ext questions w c = (r, w', c') ->
  (exists counts, r = Ok counts)
  /\ exists t, trace w' = (trace w ++ t)%list
               /\ inserted_rows t = questions
               /\ Forall (fun ev => is_upload_event ev = true) t.
Proof.
  unfold uploadToSupabase. unfold bind at 1. unfold modify_locals at 1.
  unfold bind at 1.
  destruct (for_of questions (upload_question ext) w (0, 0))
    as [[r1 w1] c1] eqn:Hloop.
  apply (for_of_fold (upload_question ext)
           (fun done w2 _ =>
              exists t, trace w2 = (trace w ++ t)%list
                        /\ inserted_rows t = done
                        /\ Forall (fun ev => is_upload_event ev = true) t))
    with (done := []) in Hloop.
  - destruct Hloop as [-> Hinv]. unfold get_locals. intros [= <- <- <-].
    split; [eexists; reflexivity | exact Hinv].
  - intros done q w2 c2 r2 w3 c3 [t [Ht [Hrows Hev]]] Hstep.
    apply upload_question_step in Hstep.
    destruct Hstep as [-> [t' [Ht' [Hrows' Hev']]]].
    split; [reflexivity |]. exists (t ++ t')%list.
    rewrite Ht', Ht, <- app_assoc, inserted_rows_app, Hrows, Hrows'.
    repeat split. apply Forall_app. now split.
  - exists []. rewrite app_nil_r. repeat split. constructor.
Qed.

(** What the review file and the upload add to the trace. *)
Definition persistence_trace (records : list PastPaperRecord)
           (r : result unit) (post : list Event) : Prop :=
  match records with
  | [] => post = [] /\ r = Ok tt
  | _ :: _ =>
      exists generated answer uploads,
        post = Now generated
                 :: WriteFile (outputFile CONFIG)
                      (review_content (JSON_stringify ext) records generated)
                      "utf-8" answer
                 :: uploads
        /\ match answer with
           | Ok _ =>
               inserted_rows uploads = records
               /\ Forall (fun ev => is_upload_event ev = true) uploads
               /\ r = Ok tt
           | Err message => uploads = [] /\ r = Err message
           end
  end.

Lemma review_then_upload_run (w : World Env Event) (l : Locals) r w' l' :
  review_then_upload ext CONFIG w l = (r, w', l') ->
  l' = l
  /\ exists post, trace w' = (trace w ++ post)%list
                  /\ persistence_trace (allRecords l) r post.
Proof.
  unfold review_then_upload. unfold bind at 1, get_locals at 1.
  unfold persistence_trace.
  destruct (allRecords l) as [| record records] eqn:Hrecords.
  - cbn. intros [= <- <- <-]. split; [reflexivity |].
    exists []. now rewrite app_nil_r.
  - change (0 <? Z.of_nat (List.length (record :: records)))
      with (0 <? Z.pos (Pos.of_succ_nat (List.length records))).
    cbn [Z.ltb Z.compare].
    unfold bind at 1, saveToReviewFile, bind, ask.
    destruct (toISOString ext (env w)) as [generated e1]. cbn [env trace].
    destruct (writeFile ext (outputFile CONFIG)
                (review_content (JSON_stringify ext) (record :: records)
                   generated) "utf-8" e1) as [[[] | message] e2];
      cbn [await ret throw].
    + unfold call.
      destruct (uploadToSupabase ext (record :: records)
                  {| env := e2;
                     trace := ((trace w ++ [Now generated])
                                 ++ [WriteFile (outputFile CONFIG)
                                       (review_content (JSON_stringify ext)
                                          (record :: records) generated)
                                       "utf-8" (Ok tt)])%list |} (0, 0))
        as [[r1 w1] c1] eqn:Hup.
      apply uploadToSupabase_run in Hup.
      destruct Hup as [[counts ->] [t [Ht [Hrows Hev]]]].
      cbn. intros [= <- <- <-]. split; [reflexivity |].
      cbn [trace] in Ht. eexists. rewrite Ht, <- !app_assoc. cbn [app].
      split; [reflexivity |]. exists generated, (Ok tt), t.
      split; [reflexivity |]. repeat split; assumption.
    + intros [= <- <- <-]. split; [reflexivity |].
      eexists. cbn [trace]. rewrite <- !app_assoc. cbn [app].
      split; [reflexivity |]. exists generated, (Err message), [].
      split; [reflexivity |]. split; reflexivity.
Qed.

(** The events of steps 1 and 2: the vocabularies and the folder. *)
Definition is_setup_event (ev : Event) : bool :=
  match ev with
  | SelectQuestionTypes _ _ => true
  | SelectTopics _ _ => true
  | ReadDir _ _ => true
  | ConsoleWarn _ => true
  | ConsoleError _ _ => true
  | _ => false
  end.

Definition is_image (file : string) : bool :=
  endsWith file ".jpg" || endsWith file ".jpeg" || endsWith file ".png".

(** The image files of the folders that were listed. *)
Fixpoint images_listed (t : list Event) : list string :=
  match t with
  | [] => []
  | ReadDir folderPath (Ok files) :: t' =>
      (map (path_join ext folderPath) (filter is_image files)
         ++ images_listed t')%list
  | _ :: t' => images_listed t'
  end.

Lemma images_listed_app t1 t2 :
  images_listed (t1 ++ t2) = (images_listed t1 ++ images_listed t2)%list.
Proof.
  induction t1 as [| ev t1 IH]; [reflexivity |].
  destruct ev as [| | ? [|] | | | | | | | |]; cbn [images_listed app];
    rewrite IH; try reflexivity.
  now rewrite app_assoc.
Qed.

Lemma fetchQuestionTypes_step {L : Type} subject (w : World Env Event)
      (l : L) r w' l' :
  fetchQuestionTypes ext subject w l = (r, w', l') ->
  l' = l
  /\ exists t, trace w' = (trace w ++ t)%list
               /\ Forall (fun ev => is_setup_event ev = true) t
               /\ images_listed t = [].
Proof.
  unfold fetchQuestionTypes, bind, ask.
  destruct (select_question_types ext _ (env w)) as [[data | message] e1];
    cbn; intros [= <- <- <-]; (split; [reflexivity |]); eexists;
    (split; [reflexivity |]); split; try reflexivity; repeat constructor.
Qed.

Lemma fetchTopics_step {L : Type} subject (w : World Env Event) (l : L)
      r w' l' :
  fetchTopics ext subject w l = (r, w', l') ->
  l' = l
  /\ exists t, trace w' = (trace w ++ t)%list
               /\ Forall (fun ev => is_setup_event ev = true) t
               /\ images_listed t = [].
Proof.
  unfold fetchTopics, bind, ask.
  destruct (select_topics ext _ (env w)) as [[data | message] e1];
    cbn; intros [= <- <- <-]; (split; [reflexivity |]); eexists;
    (split; [reflexivity |]); split; try reflexivity; repeat constructor.
Qed.

Lemma readImageFiles_step {L : Type} folderPath (w : World Env Event)
      (l : L) r w' l' :
  readImageFiles ext folderPath w l = (r, w', l') ->
  l' = l
  /\ exists t, trace w' = (trace w ++ t)%list
               /\ Forall (fun ev => is_setup_event ev = true) t
               /\ images_listed t
                  = match r with Ok imageFiles => imageFiles | Err _ => [] end.
Proof.
  unfold readImageFiles, try_catch, bind, ask.
  destruct (readdir ext folderPath (env w)) as [[files | message] e1];
    cbn [await ret throw].
  - fold is_image.
    destruct (Z.of_nat (List.length (filter is_image files)) =? 0) eqn:Hlen;
      cbn [emit ret]; intros [= <- <- <-]; (split; [reflexivity |]); eexists;
      cbn [trace]; rewrite <- ?app_assoc; (split; [reflexivity |]);
      (split; [repeat constructor |]); cbn [app images_listed].
    + destruct (filter is_image files); [reflexivity |].
      apply Z.eqb_eq in Hlen. simpl List.length in Hlen. lia.
    + now rewrite app_nil_r.
  - cbn. intros [= <- <- <-]. split; [reflexivity |]. eexists.
    rewrite <- ?app_assoc. split; [reflexivity |].
    split; [repeat constructor | reflexivity].
Qed.

(** What the run printed in its summary agrees with its counters. *)
Definition summary_agrees (r : result (option Summary)) (l : Locals) : Prop :=
  forall summary,
    r = Ok (Some summary) ->
    successful_extractions summary = successCount l
    /\ failed_extractions summary = errorCount l
    /\ questions_extracted summary = Z.of_nat (List.length (allRecords l)).

(** The shape of a whole run: the setup, then the loop over the images,
    then the review file and the upload. *)
Lemma processAndExtractQuestions_run (w : World Env Event) r w' l' :
  processAndExtractQuestions ext CONFIG w init_locals = (r, w', l') ->
  exists questionTypes setup pre post r',
    trace w' = (trace w ++ setup ++ pre ++ post)%list
    /\ Forall (fun ev => is_setup_event ev = true) setup
    /\ Forall (fun ev => is_persist ev = false) pre
    /\ read_paths pre = images_listed setup
    /\ Forall (made_from ext CONFIG questionTypes pre) (allRecords l')
    /\ Z.of_nat (List.length (allRecords l')) + errorCount l' = accounted pre
    /\ errorCount l' = reports pre
    /\ persistence_trace (allRecords l') r' post
    /\ (forall message, r' = Err message -> r = Err message)
    /\ (r' = Ok tt -> allRecords l' <> [] -> exists summary, r = Ok (Some summary))
    /\ summary_agrees r l'.
Proof.
  unfold processAndExtractQuestions. intros Hrun.
  assert (Hearly :
            forall setup,
              trace w' = (trace w ++ setup)%list ->
              Forall (fun ev => is_setup_event ev = true) setup ->
              l' = init_locals ->
              images_listed setup = [] ->
              (forall summary, r <> Ok (Some summary)) ->
              exists questionTypes setup pre post r',
                trace w' = (trace w ++ setup ++ pre ++ post)%list
                /\ Forall (fun ev => is_setup_event ev = true) setup
                /\ Forall (fun ev => is_persist ev = false) pre
                /\ read_paths pre = images_listed setup
                /\ Forall (made_from ext CONFIG questionTypes pre)
                          (allRecords l')
                /\ Z.of_nat (List.length (allRecords l')) + errorCount l'
                   = accounted pre
                /\ errorCount l' = reports pre
                /\ persistence_trace (allRecords l') r' post
                /\ (forall message, r' = Err message -> r = Err message)
                /\ (r' = Ok tt -> allRecords l' <> [] ->
                    exists summary, r = Ok (Some summary))
                /\ summary_agrees r l').
  { intros setup Htrace Hsetup -> Hfiles Hr.
    exists [], setup, [], [], (Ok tt). rewrite !app_nil_r.
    split; [exact Htrace |]. split; [exact Hsetup |].
    split; [constructor |]. split; [now rewrite Hfiles |].
    split; [constructor |]. split; [reflexivity |]. split; [reflexivity |].
    split; [split; reflexivity |]. split; [intros m [=] |].
    split; [intros _ Hne; now destruct Hne |].
    intros summary Hs. destruct (Hr summary Hs). }
  unfold bind at 1 in Hrun.
  destruct (fetchQuestionTypes ext (config_subject CONFIG) w init_locals)
    as [[r1 w1] l1] eqn:H1.
  apply fetchQuestionTypes_step in H1. destruct H1 as [-> [t1 [T1 [S1 I1]]]].
  destruct r1 as [questionTypes | message]; cycle 1.
  { injection Hrun as <- <- <-.
    apply (Hearly t1); auto. intros summary [=]. }
  unfold bind at 1 in Hrun.
  destruct (fetchTopics ext (config_subject CONFIG) w1 init_locals)
    as [[r2 w2] l2] eqn:H2.
  apply fetchTopics_step in H2. destruct H2 as [-> [t2 [T2 [S2 I2]]]].
  destruct r2 as [topics | message]; cycle 1.
  { injection Hrun as <- <- <-.
    apply (Hearly (t1 ++ t2)%list).
    - now rewrite T2, T1, app_assoc.
    - apply Forall_app. now split.
    - reflexivity.
    - now rewrite images_listed_app, I1, I2.
    - intros summary [=]. }
  unfold bind at 1 in Hrun.
  destruct (readImageFiles ext (pastpapersFolder CONFIG) w2 init_locals)
    as [[r3 w3] l3] eqn:H3.
  apply readImageFiles_step in H3. destruct H3 as [-> [t3 [T3 [S3 I3]]]].
  assert (Tsetup : trace w3 = (trace w ++ t1 ++ t2 ++ t3)%list).
  { now rewrite T3, T2, T1, <- !app_assoc. }
  assert (Ssetup : Forall (fun ev => is_setup_event ev = true)
                     (t1 ++ t2 ++ t3)).
  { apply Forall_app. split; [exact S1 |]. apply Forall_app. now split. }
  assert (Isetup : images_listed (t1 ++ t2 ++ t3)
                   = match r3 with Ok fs => fs | Err _ => [] end).
  { now rewrite !images_listed_app, I1, I2, I3. }
  destruct r3 as [imageFiles | message]; cycle 1.
  { injection Hrun as <- <- <-.
    apply (Hearly (t1 ++ t2 ++ t3)%list); auto. intros summary [=]. }
  destruct (Z.of_nat (List.length imageFiles) =? 0) eqn:Hlen.
  { unfold ret in Hrun. injection Hrun as <- <- <-.
    apply (Hearly (t1 ++ t2 ++ t3)%list); auto.
    - rewrite Isetup. destruct imageFiles; [reflexivity |].
      apply Z.eqb_eq in Hlen. simpl List.length in Hlen. lia.
    - intros summary [=]. }
  unfold bind at 1, modify_locals at 1 in Hrun.
  unfold bind at 1 in Hrun.
  destruct (for_of imageFiles (process_image ext CONFIG questionTypes topics)
              w3 init_locals) as [[r4 w4] l4] eqn:Hloop.
  apply outer_loop in Hloop.
  destruct Hloop as [-> [pre [Tpre [Qpre [Rpre [Mpre [Apre Epre]]]]]]].
  unfold bind at 1 in Hrun.
  destruct (review_then_upload ext CONFIG w4 l4) as [[r5 w5] l5] eqn:Hrev.
  apply review_then_upload_run in Hrev.
  destruct Hrev as [-> [post [Tpost Hpost]]].
  exists questionTypes, (t1 ++ t2 ++ t3)%list, pre, post, r5.
  assert (Tall : trace w5 = (trace w ++ (t1 ++ t2 ++ t3) ++ pre ++ post)%list).
  { now rewrite Tpost, Tpre, Tsetup, <- !app_assoc. }
  assert (Rall : read_paths pre = images_listed (t1 ++ t2 ++ t3)).
  { now rewrite Rpre, Isetup. }
  destruct r5 as [[] | message].
  - unfold bind, get_locals, ret in Hrun. injection Hrun as <- <- <-.
    split; [exact Tall |]. split; [exact Ssetup |]. split; [exact Qpre |].
    split; [exact Rall |]. split; [exact Mpre |]. split; [exact Apre |].
    split; [exact Epre |]. split; [exact Hpost |].
    split; [intros m [=] |].
    split; [intros _ _; eexists; reflexivity |].
    intros summary [= <-]. repeat split; reflexivity.
  - injection Hrun as <- <- <-.
    split; [exact Tall |]. split; [exact Ssetup |]. split; [exact Qpre |].
    split; [exact Rall |]. split; [exact Mpre |]. split; [exact Apre |].
    split; [exact Epre |]. split; [exact Hpost |].
    split; [intros m [= <-]; reflexivity |].
    split; [intros [=] |].
    intros summary [=].
Qed.

End WholeRun.

End Extraction.

(** ** A world to run the extraction in: one image with three candidates,
    the second of which carries a label outside the vocabulary *)

Module ExtractionExamples.
Import PastpaperUploader.

Definition candidate (number : Z) (label : string) : PastPaperQuestion :=
  {| topic := "師說";
     question := "Q" ++ show_Z number;
     answer := "A" ++ show_Z number;
     question_number := number;
     question_year := 2023;
     subject := "Chinese";
     explanation := "E" ++ show_Z number;
     difficulty := 3;
     grade_level := "S6";
     question_type_name := label |}.

Definition three_candidates : ExtractedQuestions :=
  [ candidate 1 "文句翻譯與名句摘錄"; candidate 2 "no such type";
    candidate 3 "情感主旨與現實啟發" ].

Definition example_ext : External unit :=
  {| select_question_types := fun _ e => (Ok Examples.example_types, e);
     select_topics :=
       fun _ e =>
         (Ok [{| topic_topic := "師說";
                 topic_subject := "DSE中文12篇範文" |}], e);
     readdir := fun _ e => (Ok ["page1.png"; "notes.txt"], e);
     readFile := fun _ e => (Ok "PNG", e);
     generate_object := fun _ _ _ e => (Ok three_candidates, e);
     embed := fun _ _ e => (Ok [0.5%float; 0.25%float], e);
     toISOString := fun e => ("2025-01-01T00:00:00.000Z", e);
     writeFile := fun _ _ _ e => (Ok tt, e);
     insert_pastpaper := fun _ e => (Ok ["row-1"], e);
     base64 := fun s => s;
     path_basename := fun s => s;
     path_join := fun a b => a ++ "/" ++ b;
     JSON_stringify := fun m => "{ " ++ source_image m ++ " }" |}.

Definition example_config : Config :=
  {| config_subject := "DSE中文12篇範文";
     gradeLevel := "DSE";
     pastpapersFolder := "pastpapers/images";
     outputFile := "pastpapers/extracted-questions.txt" |}.

Definition example_run
  : result (option Summary) * World unit Event * Locals :=
  processAndExtractQuestions example_ext example_config Examples.fresh
    init_locals.

Lemma example_embed_never_fails : Extraction.embed_never_fails example_ext.
Proof. intros model text e. exists [0.5%float; 0.25%float], e. reflexivity. Qed.

End ExtractionExamples.

(** ** C4: partial-failure isolation *)

Module FailureIsolation.
Import PastpaperUploader Extraction.

Lemma process_question_never_throws {Env : Type} (ext : External Env) CONFIG
      questionTypes filename q (w : World Env Event) l :
  fst (fst (process_question ext CONFIG questionTypes filename q w l)) = Ok tt.
Proof.
  rewrite process_question_run.
  destruct (mapQuestionTypeToId q.(question_type_name) questionTypes);
    [| reflexivity].
  destruct (embed ext "bge-m3" (grounding_text q) (env w)) as [[v | m] e1];
    [| reflexivity].
  destruct (toISOString ext e1). reflexivity.
Qed.

(** The embedding requests that were answered, and those that failed. *)
Fixpoint embeds_ok (t : list Event) : Z :=
  match t with
  | [] => 0
  | Embed _ _ (Ok _) :: t' => 1 + embeds_ok t'
  | _ :: t' => embeds_ok t'
  end.

Fixpoint embeds_failed (t : list Event) : Z :=
  match t with
  | [] => 0
  | Embed _ _ (Err _) :: t' => 1 + embeds_failed t'
  | _ :: t' => embeds_failed t'
  end.

Lemma embeds_ok_app t1 t2 : embeds_ok (t1 ++ t2) = embeds_ok t1 + embeds_ok t2.
Proof.
  induction t1 as [| ev t1 IH]; [reflexivity |].
  destruct ev as [| | | | | ? ? [|] | | | | |]; cbn [embeds_ok List.app];
    rewrite ?IH; lia.
Qed.

Lemma embeds_failed_app t1 t2 :
  embeds_failed (t1 ++ t2) = embeds_failed t1 + embeds_failed t2.
Proof.
  induction t1 as [| ev t1 IH]; [reflexivity |].
  destruct ev as [| | | | | ? ? [|] | | | | |]; cbn [embeds_failed List.app];
    rewrite ?IH; lia.
Qed.

(** The loop over the candidates of one image, whatever the embedding
    collaborator does: every candidate with a resolvable label has its
    embedding requested, an answered request gives one record, a failed
    one and an unresolvable label give one counted failure each. *)
Lemma inner_loop_fates {Env : Type} (ext : External Env) CONFIG questionTypes
      filename qs (w : World Env Event) (l : Locals) r w' l' :
  for_of qs (process_question ext CONFIG questionTypes filename) w l
  = (r, w', l') ->
  r = Ok tt
  /\ exists t,
      trace w' = (trace w ++ t)%list
      /\ embeds_ok t + embeds_failed t
         = Z.of_nat (List.length (filter (resolvable questionTypes) qs))
      /\ Z.of_nat (List.length (allRecords l'))
         = Z.of_nat (List.length (allRecords l)) + embeds_ok t
      /\ errorCount l'
         = errorCount l
           + Z.of_nat (List.length (filter (unresolvable questionTypes) qs))
           + embeds_failed t
      /\ successCount l' = successCount l.
Proof.
  intros Hrun.
  apply (for_of_fold (process_question ext CONFIG questionTypes filename)
           (fun done w2 l2 =>
              exists t,
                trace w2 = (trace w ++ t)%list
                /\ embeds_ok t + embeds_failed t
                   = Z.of_nat (List.length
                                 (filter (resolvable questionTypes) done))
                /\ Z.of_nat (List.length (allRecords l2))
                   = Z.of_nat (List.length (allRecords l)) + embeds_ok t
                /\ errorCount l2
                   = errorCount l
                     + Z.of_nat (List.length
                                   (filter (unresolvable questionTypes) done))
                     + embeds_failed t
                /\ successCount l2 = successCount l))
    with (done := []) in Hrun; [exact Hrun | |].
  - intros done q w2 l2 r2 w3 l3 [t [Ht [Hreq [Hrec [Herr Hsucc]]]]] Hstep.
    rewrite process_question_run in Hstep.
    assert (Hq : resolvable questionTypes q
                 = is_ok (mapQuestionTypeToId q.(question_type_name)
                            questionTypes)) by reflexivity.
    assert (Hu : unresolvable questionTypes q
                 = negb (resolvable questionTypes q)) by reflexivity.
    rewrite !filter_app, !length_app. cbn [filter]. rewrite Hu, Hq.
    clear Hu Hq.
    destruct (mapQuestionTypeToId q.(question_type_name) questionTypes)
      as [questionTypeId | message].
    + destruct (embed ext "bge-m3" (grounding_text q) (env w2))
        as [[v | message] e1].
      * destruct (toISOString ext e1) as [extracted_at e2].
        injection Hstep as <- <- <-. split; [reflexivity |].
        eexists. cbn [trace]. rewrite Ht, <- !app_assoc.
        split; [reflexivity |].
        rewrite embeds_ok_app, embeds_failed_app.
        cbn [embeds_ok embeds_failed List.app is_ok negb List.length
               allRecords errorCount successCount push_record].
        rewrite length_app. cbn [List.length]. repeat split; lia.
      * injection Hstep as <- <- <-. split; [reflexivity |].
        eexists. cbn [trace]. rewrite Ht, <- !app_assoc.
        split; [reflexivity |].
        rewrite embeds_ok_app, embeds_failed_app.
        cbn [embeds_ok embeds_failed List.app is_ok negb List.length
               allRecords errorCount successCount incr_errorCount].
        repeat split; lia.
    + injection Hstep as <- <- <-. split; [reflexivity |].
      eexists. cbn [trace]. rewrite Ht, <- !app_assoc.
      split; [reflexivity |].
      rewrite embeds_ok_app, embeds_failed_app.
      cbn [embeds_ok embeds_failed List.app is_ok negb List.length
             allRecords errorCount successCount incr_errorCount].
      repeat split; lia.
  - exists []. rewrite app_nil_r. cbn. repeat split; lia.
Qed.

(** C4.  A failure while processing a candidate, an unresolvable label or
    a failed embedding, is caught: nothing escapes the handler of a
    candidate nor the loop over the images.  A candidate whose label
    does not resolve is reported and counted as one failure, without an
    embedding request and without a record; so is a candidate whose
    embedding request fails; any other candidate becomes exactly one
    record.  In the loop over the candidates of an image every candidate
    with a resolvable label has its embedding requested, whatever
    happened to its siblings: the records are as many as the answered
    requests, the counted failures as many as the unresolvable labels
    plus the failed requests.  Every image of the folder is attempted;
    each candidate of each extracted image ends as a record or as a
    counted failure, each image that fails as a whole is one counted
    failure, and each counted failure is reported on the console.  With
    an embedding collaborator that does not fail, an image with three
    candidates one of which has an unresolvable label gives two records
    and one counted failure. *)
Theorem extraction_isolates_failures :
  forall (Env : Type) (ext : External Env) (CONFIG : Config),
    (forall questionTypes filename q w l,
        fst (fst (process_question ext CONFIG questionTypes filename q w l))
        = Ok tt)
    /\ (forall questionTypes filename q w l,
           let run := process_question ext CONFIG questionTypes filename q
                        w l in
           let failed :=
             {| allRecords := allRecords l;
                successCount := successCount l;
                errorCount := errorCount l + 1 |} in
           match mapQuestionTypeToId q.(question_type_name) questionTypes with
           | Err message =>
               run
               = (Ok tt,
                  {| env := env w;
                     trace := (trace w
                                 ++ [ConsoleError (failure_label q)
                                       message])%list |},
                  failed)
           | Ok questionTypeId =>
               match embed ext "bge-m3" (grounding_text q) (env w) with
               | (Err message, e1) =>
                   run
                   = (Ok tt,
                      {| env := e1;
                         trace :=
                           (trace w
                              ++ [Embed "bge-m3" (grounding_text q)
                                    (Err message);
                                  ConsoleError "Error generating embedding:"
                                    message;
                                  ConsoleError (failure_label q)
                                    message])%list |},
                      failed)
               | (Ok v, e1) =>
                   exists extracted_at e2,
                     run
                     = (Ok tt,
                        {| env := e2;
                           trace :=
                             (trace w
                                ++ [Embed "bge-m3" (grounding_text q) (Ok v);
                                    Now extracted_at])%list |},
                        {| allRecords :=
                             (allRecords l
                                ++ [make_record CONFIG q questionTypeId v
                                      filename extracted_at])%list;
                           successCount := successCount l;
                           errorCount := errorCount l |})
               end
           end)
    /\ (forall questionTypes filename qs w l,
           let run := for_of qs
                        (process_question ext CONFIG questionTypes filename)
                        w l in
           fst (fst run) = Ok tt
           /\ exists t,
               trace (snd (fst run)) = (trace w ++ t)%list
               /\ embeds_ok t + embeds_failed t
                  = Z.of_nat (List.length
                                (filter (resolvable questionTypes) qs))
               /\ Z.of_nat (List.length (allRecords (snd run)))
                  = Z.of_nat (List.length (allRecords l)) + embeds_ok t
               /\ errorCount (snd run)
                  = errorCount l
                    + Z.of_nat (List.length
                                  (filter (unresolvable questionTypes) qs))
                    + embeds_failed t
               /\ successCount (snd run) = successCount l)
    /\ (forall questionTypes topics imageFiles w,
           fst (fst (for_of imageFiles
                       (process_image ext CONFIG questionTypes topics) w
                       init_locals)) = Ok tt)
    /\ (forall w,
           let run := processAndExtractQuestions ext CONFIG w init_locals in
           exists setup pre post,
             trace (snd (fst run)) = (trace w ++ setup ++ pre ++ post)%list
             /\ Forall (fun ev => is_setup_event ev = true) setup
             /\ read_paths pre = images_listed ext setup
             /\ Z.of_nat (List.length (allRecords (snd run)))
                + errorCount (snd run) = accounted pre
             /\ errorCount (snd run) = reports pre
             /\ summary_agrees (fst (fst run)) (snd run))
    /\ (embed_never_fails ext ->
        forall questionTypes filename qs w l,
          let run := for_of qs
                       (process_question ext CONFIG questionTypes filename)
                       w l in
          fst (fst run) = Ok tt
          /\ List.length (allRecords (snd run))
             = (List.length (allRecords l)
                + List.length (filter (resolvable questionTypes) qs))%nat
          /\ errorCount (snd run)
             = errorCount l
               + Z.of_nat (List.length
                             (filter (unresolvable questionTypes) qs)))
    /\ (embed_never_fails ext ->
        forall questionTypes topics imagePath q1 q2 q3 w w1,
          performOCR ext imagePath questionTypes topics w init_locals
          = (Ok [q1; q2; q3], w1, init_locals) ->
          List.length (filter (unresolvable questionTypes) [q1; q2; q3])
          = 1%nat ->
          let run := process_image ext CONFIG questionTypes topics imagePath
                       w init_locals in
          fst (fst run) = Ok tt
          /\ List.length (allRecords (snd run)) = 2%nat
          /\ errorCount (snd run) = 1
          /\ successCount (snd run) = 1).
Proof.
  intros Env ext CONFIG.
  assert (Hcounts :
            embed_never_fails ext ->
            forall questionTypes filename qs w l,
              let run := for_of qs
                           (process_question ext CONFIG questionTypes
                              filename) w l in
              fst (fst run) = Ok tt
              /\ List.length (allRecords (snd run))
                 = (List.length (allRecords l)
                    + List.length (filter (resolvable questionTypes) qs))%nat
              /\ errorCount (snd run)
                 = errorCount l
                   + Z.of_nat (List.length
                                 (filter (unresolvable questionTypes) qs))).
  { intros Hembed questionTypes filename qs w l run. subst run.
    destruct (for_of qs (process_question ext CONFIG questionTypes filename)
                w l) as [[r w'] l'] eqn:Hrun.
    destruct (inner_loop ext CONFIG questionTypes filename qs w l r w' l'
                Hrun) as [-> _].
    split; [reflexivity |].
    exact (inner_loop_counts ext CONFIG questionTypes filename qs w l _ w' l'
             Hembed Hrun). }
  split; [intros; apply process_question_never_throws |].
  split.
  { intros questionTypes filename q w l run failed. subst run failed.
    rewrite process_question_run.
    destruct (mapQuestionTypeToId q.(question_type_name) questionTypes)
      as [questionTypeId | message]; [| reflexivity].
    destruct (embed ext "bge-m3" (grounding_text q) (env w))
      as [[v | message] e1].
    - destruct (toISOString ext e1) as [extracted_at e2].
      exists extracted_at, e2. rewrite <- app_assoc. reflexivity.
    - rewrite <- !app_assoc. reflexivity. }
  split.
  { intros questionTypes filename qs w l run. subst run.
    destruct (for_of qs (process_question ext CONFIG questionTypes filename)
                w l) as [[r w'] l'] eqn:Hrun.
    cbn [fst snd].
    exact (inner_loop_fates ext CONFIG questionTypes filename qs w l r w' l'
             Hrun). }
  split.
  { intros questionTypes topics imageFiles w.
    destruct (for_of imageFiles
                (process_image ext CONFIG questionTypes topics) w init_locals)
      as [[r w'] l'] eqn:Hrun.
    now destruct (outer_loop ext CONFIG questionTypes topics imageFiles w r
                    w' l' Hrun) as [-> _]. }
  split.
  { intros w run. subst run.
    destruct (processAndExtractQuestions ext CONFIG w init_locals)
      as [[r w'] l'] eqn:Hrun.
    destruct (processAndExtractQuestions_run ext CONFIG w r w' l' Hrun)
      as [questionTypes [setup [pre [post [r' H]]]]].
    destruct H as [Ht [Hs [_ [Hr [_ [Ha [He [_ [_ [_ Hsum]]]]]]]]]].
    exists setup, pre, post. cbn [fst snd]. repeat split; auto.
    all: now apply Hsum. }
  split; [exact Hcounts |].
  intros Hembed questionTypes topics imagePath q1 q2 q3 w w1 Hocr Hone run.
  assert (Hrun : exists w2 l2,
             run = (Ok tt, w2, l2)
             /\ List.length (allRecords l2) = 2%nat
             /\ errorCount l2 = 1 /\ successCount l2 = 1).
  { subst run. unfold process_image, try_catch. unfold bind at 1.
    rewrite Hocr. unfold bind at 1.
    pose proof (Hcounts Hembed questionTypes (path_basename ext imagePath)
                  [q1; q2; q3] w1 init_locals) as Hc.
    cbv zeta in Hc.
    destruct (for_of [q1; q2; q3]
                (process_question ext CONFIG questionTypes
                   (path_basename ext imagePath)) w1 init_locals)
      as [[r2 w2] l2] eqn:Hloop.
    destruct Hc as [Hok [Hlen Herr]]. cbn [fst snd] in Hok, Hlen, Herr.
    subst r2.
    destruct (inner_loop ext CONFIG questionTypes
                (path_basename ext imagePath) [q1; q2; q3] w1 init_locals
                (Ok tt) w2 l2 Hloop)
      as [_ [ti [new [_ [_ [_ [Hsucc _]]]]]]].
    unfold modify_locals. exists w2, (incr_successCount l2).
    split; [reflexivity |].
    cbn [allRecords errorCount successCount incr_successCount].
    assert (Hsplit : forall qs,
               (List.length (filter (resolvable questionTypes) qs)
                + List.length (filter (unresolvable questionTypes) qs))%nat
               = List.length qs).
    { induction qs as [| q qs IH]; [reflexivity |]. cbn [filter].
      unfold unresolvable at 1. destruct (resolvable questionTypes q);
        cbn [negb List.length]; lia. }
    specialize (Hsplit [q1; q2; q3]). cbn [List.length] in Hsplit.
    cbn [allRecords errorCount successCount init_locals List.length]
      in Hlen, Herr, Hsucc.
    split; [lia |]. split; lia. }
  destruct Hrun as [w2 [l2 [-> H]]]. cbn [fst snd].
  split; [reflexivity | exact H].
Qed.

Lemma extraction_isolates_failures_witness :
  let run := process_image ExtractionExamples.example_ext
               ExtractionExamples.example_config Examples.example_types []
               "pastpapers/images/page1.png" Examples.fresh init_locals in
  fst (fst run) = Ok tt
  /\ List.length (allRecords (snd run)) = 2%nat
  /\ errorCount (snd run) = 1
  /\ successCount (snd run) = 1.
Proof.
  exact (proj2 (proj2 (proj2 (proj2 (proj2 (proj2
           (extraction_isolates_failures unit ExtractionExamples.example_ext
              ExtractionExamples.example_config))))))
           ExtractionExamples.example_embed_never_fails
           Examples.example_types [] "pastpapers/images/page1.png"
           (ExtractionExamples.candidate 1 "文句翻譯與名句摘錄")
           (ExtractionExamples.candidate 2 "no such type")
           (ExtractionExamples.candidate 3 "情感主旨與現實啟發")
           Examples.fresh _ eq_refl eq_refl).
Defined.

(** The whole script on that world: one image, two records, one counted
    failure, status 0. *)
Example extraction_example_run :
  fst (fst (processAndExtractQuestions ExtractionExamples.example_ext
              ExtractionExamples.example_config Examples.fresh init_locals))
  = Ok (Some {| images_processed := 1;
                successful_extractions := 1;
                failed_extractions := 1;
                questions_extracted := 2 |})
  /\ fst (script ExtractionExamples.example_ext Examples.credentials
            ExtractionExamples.example_config Examples.fresh) = 0.
Proof. split; vm_compute; reflexivity. Qed.

(** The same image with an embedding collaborator that fails on the
    third candidate: the first becomes a record, the other two are
    counted. *)
Definition failing_embed : External unit :=
  {| select_question_types :=
       select_question_types ExtractionExamples.example_ext;
     select_topics := select_topics ExtractionExamples.example_ext;
     readdir := readdir ExtractionExamples.example_ext;
     readFile := readFile ExtractionExamples.example_ext;
     generate_object := generate_object ExtractionExamples.example_ext;
     embed :=
       fun _ text e =>
         if (text
             =? grounding_text
                  (ExtractionExamples.candidate 3 "情感主旨與現實啟發"))%string
         then (Err "rate limit", e)
         else (Ok [0.5%float; 0.25%float], e);
     toISOString := toISOString ExtractionExamples.example_ext;
     writeFile := writeFile ExtractionExamples.example_ext;
     insert_pastpaper := insert_pastpaper ExtractionExamples.example_ext;
     base64 := base64 ExtractionExamples.example_ext;
     path_basename := path_basename ExtractionExamples.example_ext;
     path_join := path_join ExtractionExamples.example_ext;
     JSON_stringify := JSON_stringify ExtractionExamples.example_ext |}.

Example embedding_failure_example_run :
  fst (fst (processAndExtractQuestions failing_embed
              ExtractionExamples.example_config Examples.fresh init_locals))
  = Ok (Some {| images_processed := 1;
                successful_extractions := 1;
                failed_extractions := 2;
                questions_extracted := 1 |}).
Proof. vm_compute. reflexivity. Qed.

End FailureIsolation.

(** ** C7, C8, C9: what reaches persistence *)

Module Persistence.
Import PastpaperUploader Extraction.

Lemma setup_events_silent t :
  Forall (fun ev => is_setup_event ev = true) t ->
  Forall (fun ev => is_persist ev = false) t /\ accounted t = 0.
Proof.
  induction 1 as [| ev t Hev _ [IH1 IH2]].
  - split; [constructor | reflexivity].
  - destruct ev; try discriminate; cbn [accounted]; split; auto.
Qed.

Lemma In_inserted_rows row answer t :
  In (Insert row answer) t -> In row (inserted_rows t).
Proof.
  induction t as [| ev t IH]; [intros [] |].
  intros [-> | Hin].
  - now left.
  - destruct ev; cbn [inserted_rows]; auto. right. auto.
Qed.

(** A candidate that the extraction model returned. *)
Definition candidate_of (t : list Event) (q : PastPaperQuestion) : Prop :=
  exists model text image qs,
    In (GenerateObject model text image (Ok qs)) t /\ In q qs.

(** What follows the loop in the trace: nothing when there is no record;
    else the clock and the review file of all the records, and then, when
    the file was written, one attempt to insert each record, in order. *)
Definition after_the_loop {Env : Type} (ext : External Env) (CONFIG : Config)
           (records : list PastPaperRecord) (r : result (option Summary))
           (after : list Event) : Prop :=
  match records with
  | [] => after = []
  | _ :: _ =>
      exists generated answer uploads,
        after = Now generated
                  :: WriteFile (outputFile CONFIG)
                       (review_content (JSON_stringify ext) records generated)
                       "utf-8" answer
                  :: uploads
        /\ match answer with
           | Ok _ =>
               inserted_rows uploads = records
               /\ Forall (fun ev => is_upload_event ev = true) uploads
               /\ exists summary, r = Ok (Some summary)
           | Err message => uploads = [] /\ r = Err message
           end
  end.

(** The rows whose insertion is attempted are records of the run, and
    nothing is written or inserted before the loop is over. *)
Lemma persisted_rows {Env : Type} (ext : External Env) (CONFIG : Config)
      (w : World Env Event) r w' l' :
  processAndExtractQuestions ext CONFIG w init_locals = (r, w', l') ->
  exists questionTypes before after,
    trace w' = (trace w ++ before ++ after)%list
    /\ Forall (fun ev => is_persist ev = false) before
    /\ Forall (made_from ext CONFIG questionTypes before) (allRecords l')
    /\ Z.of_nat (List.length (allRecords l')) + errorCount l'
       = accounted before
    /\ after_the_loop ext CONFIG (allRecords l') r after.
Proof.
  intros Hrun.
  destruct (processAndExtractQuestions_run ext CONFIG w r w' l' Hrun)
    as [questionTypes [setup [pre [post [r' H]]]]].
  destruct H as [Ht [Hs [Hq [_ [Hm [Ha [_ [Hp [Herr [Hok _]]]]]]]]]].
  destruct (setup_events_silent setup Hs) as [Hs1 Hs2].
  exists questionTypes, (setup ++ pre)%list, post.
  split; [now rewrite Ht, <- app_assoc |].
  split; [apply Forall_app; now split |].
  split.
  { eapply Forall_impl; [| exact Hm]. intros r0 H0.
    apply (made_from_mono ext CONFIG questionTypes pre setup [] r0) in H0.
    now rewrite app_nil_r in H0. }
  split; [rewrite accounted_app; lia |].
  unfold persistence_trace, after_the_loop in *.
  destruct (allRecords l') as [| record records].
  - now destruct Hp.
  - destruct Hp as [generated [answer [uploads [Hpost Hans]]]].
    exists generated, answer, uploads. split; [exact Hpost |].
    destruct answer as [u | message].
    + destruct Hans as [H1 [H2 Hr']].
      repeat split; try assumption.
      apply (Hok Hr'). discriminate.
    + destruct Hans as [-> Hr']. split; [reflexivity |].
      now apply Herr.
Qed.

(** The rows of the insert events that follow the loop are its records. *)
Lemma inserted_after_the_loop {Env : Type} (ext : External Env) CONFIG
      records r after row answer :
  after_the_loop ext CONFIG records r after ->
  In (Insert row answer) after -> In row records.
Proof.
  unfold after_the_loop. destruct records as [| record records].
  - intros -> [].
  - intros [generated [ans [uploads [-> Hans]]]] Hin.
    destruct Hin as [Hin | [Hin | Hin]]; try discriminate.
    destruct ans as [u | message].
    + destruct Hans as [<- _]. now apply In_inserted_rows with answer.
    + destruct Hans as [-> _]. destruct Hin.
Qed.









(** The embedding collaborator returns vectors of one dimension. *)
Definition fixed_dimension {Env : Type} (ext : External Env)
           (dimension : nat) : Prop :=
  forall model text e v e',
    embed ext model text e = (Ok v, e') -> List.length v = dimension.

(** C8.  With an embedding collaborator that returns vectors of a fixed
    positive dimension, every row whose insertion is attempted in a run
    carries a non-empty embedding, and that embedding is the answer the
    collaborator gave, before any insert, to the request over
    [question + newline + answer + newline + explanation] of the candidate
    the row was made from. *)
Theorem persisted_records_are_embedded :
  forall (Env : Type) (ext : External Env) (CONFIG : Config)
         (dimension : nat) (w : World Env Event),
    (0 < dimension)%nat ->
    fixed_dimension ext dimension ->
    let run := processAndExtractQuestions ext CONFIG w init_locals in
    exists before after,
      trace (snd (fst run)) = (trace w ++ before ++ after)%list
      /\ Forall (fun ev => is_persist ev = false) before
      /\ forall row response,
          In (Insert row response) after ->
          embedding row <> []
          /\ List.length (embedding row) = dimension
          /\ exists q,
              candidate_of before q
              /\ In (Embed "bge-m3"
                       (q.(question) ++ newline ++ q.(answer) ++ newline
                        ++ q.(explanation))
                       (Ok (embedding row))) before
              /\ record_question row = q.(question)
              /\ record_answer row = q.(answer)
              /\ record_explanation row = q.(explanation).
Proof.
  intros Env ext CONFIG dimension w Hpos Hdim run. subst run.
  destruct (processAndExtractQuestions ext CONFIG w init_locals)
    as [[r w'] l'] eqn:Hrun.
  cbn [fst snd].
  destruct (persisted_rows ext CONFIG w r w' l' Hrun)
    as [questionTypes [before [after [Ht [Hq [Hm [_ Hafter]]]]]]].
  exists before, after. split; [exact Ht |]. split; [exact Hq |].
  intros row response Hin.
  apply (inserted_after_the_loop ext CONFIG _ _ _ _ _ Hafter) in Hin.
  rewrite Forall_forall in Hm. specialize (Hm row Hin).
  destruct Hm as [q [filename [ts [model [text [image [qs H]]]]]]].
  destruct H as [Hgen [Hqs [Hid [Hemb [[e [e' Hcall]] Hrow]]]]].
  assert (Hlen : List.length (embedding row) = dimension)
    by exact (Hdim _ _ _ _ _ Hcall).
  split; [intros Hnil; rewrite Hnil in Hlen; simpl in Hlen; lia |].
  split; [exact Hlen |].
  exists q. split; [now exists model, text, image, qs |].
  split; [exact Hemb |].
  split; [exact (f_equal record_question Hrow) |].
  split; [exact (f_equal record_answer Hrow) |].
  exact (f_equal record_explanation Hrow).
Qed.

Lemma example_fixed_dimension :
  fixed_dimension ExtractionExamples.example_ext 2.
Proof. intros model text e v e' [= <- _]. reflexivity. Qed.

Lemma persisted_records_are_embedded_witness :
  exists before after,
    trace (snd (fst ExtractionExamples.example_run)) = (before ++ after)%list
    /\ forall row response,
        In (Insert row response) after -> List.length (embedding row) = 2%nat.
Proof.
  destruct (persisted_records_are_embedded unit
              ExtractionExamples.example_ext
              ExtractionExamples.example_config 2 Examples.fresh
              ltac:(lia) example_fixed_dimension)
    as [before [after [Ht [_ Hrows]]]].
  exists before, after. split; [exact Ht |].
  intros row response Hin. exact (proj1 (proj2 (Hrows row response Hin))).
Defined.

(** A candidate with other values for the two fields the extractor also
    emits. *)
Definition with_subject_and_grade (q : PastPaperQuestion)
           (subject' grade_level' : string) : PastPaperQuestion :=
  {| topic := q.(topic);
     question := q.(question);
     answer := q.(answer);
     question_number := q.(question_number);
     question_year := q.(question_year);
     subject := subject';
     explanation := q.(explanation);
     difficulty := q.(difficulty);
     grade_level := grade_level';
     question_type_name := q.(question_type_name) |}.

(** The fields a record takes over from its candidate. *)
Definition copied_from (q : PastPaperQuestion) (record : PastPaperRecord)
  : Prop :=
  record_topic record = q.(topic)
  /\ record_question record = q.(question)
  /\ record_answer record = q.(answer)
  /\ record_question_number record = q.(question_number)
  /\ record_question_year record = q.(question_year)
  /\ record_explanation record = q.(explanation)
  /\ record_difficulty record = q.(difficulty).

(** C9.  Every row whose insertion is attempted has the subject and the
    grade level of the configuration, keeps the question-type name of
    the candidate it was made from in its metadata, and has that
    candidate's topic, question, answer, number, year, explanation and
    difficulty; a candidate's own subject and grade level have no
    effect: with other values of the two fields the same record is made
    and the candidate is processed in the same way.  Every candidate
    whose label resolves and whose embedding request is answered becomes
    one record, with the subject and the grade level of the
    configuration and its own other fields. *)
Theorem persisted_subject_and_grade_from_config :
  forall (Env : Type) (ext : External Env) (CONFIG : Config)
         (w : World Env Event),
    let run := processAndExtractQuestions ext CONFIG w init_locals in
    (exists before after,
        trace (snd (fst run)) = (trace w ++ before ++ after)%list
        /\ Forall (fun ev => is_persist ev = false) before
        /\ forall row response,
            In (Insert row response) after ->
            record_subject row = config_subject CONFIG
            /\ record_grade_level row = gradeLevel CONFIG
            /\ exists q,
                candidate_of before q
                /\ metadata_question_type_name (metadata row)
                   = q.(question_type_name)
                /\ copied_from q row)
    /\ (forall q subject' grade_level' questionTypeId embedding filename
               extracted_at,
           make_record CONFIG (with_subject_and_grade q subject' grade_level')
             questionTypeId embedding filename extracted_at
           = make_record CONFIG q questionTypeId embedding filename
               extracted_at)
    /\ (forall questionTypes filename q subject' grade_level' w0 l,
           process_question ext CONFIG questionTypes filename
             (with_subject_and_grade q subject' grade_level') w0 l
           = process_question ext CONFIG questionTypes filename q w0 l)
    /\ (forall questionTypes filename q w0 l questionTypeId v e1,
           mapQuestionTypeToId q.(question_type_name) questionTypes
           = Ok questionTypeId ->
           embed ext "bge-m3" (grounding_text q) (env w0) = (Ok v, e1) ->
           exists record,
             allRecords
               (snd (process_question ext CONFIG questionTypes filename q
                       w0 l))
             = (allRecords l ++ [record])%list
             /\ record_subject record = config_subject CONFIG
             /\ record_grade_level record = gradeLevel CONFIG
             /\ metadata_question_type_name (metadata record)
                = q.(question_type_name)
             /\ question_type_id record = questionTypeId
             /\ copied_from q record).
Proof.
  intros Env ext CONFIG w run. subst run.
  split; [| split; [reflexivity | split; [reflexivity |]]].
  2:{ intros questionTypes filename q w0 l questionTypeId v e1 Hid Hembed.
      rewrite process_question_run, Hid, Hembed.
      destruct (toISOString ext e1) as [extracted_at e2].
      exists (make_record CONFIG q questionTypeId v filename extracted_at).
      split; [reflexivity |]. repeat split. }
  destruct (processAndExtractQuestions ext CONFIG w init_locals)
    as [[r w'] l'] eqn:Hrun.
  cbn [fst snd].
  destruct (persisted_rows ext CONFIG w r w' l' Hrun)
    as [questionTypes [before [after [Ht [Hq [Hm [_ Hafter]]]]]]].
  exists before, after. split; [exact Ht |]. split; [exact Hq |].
  intros row response Hin.
  apply (inserted_after_the_loop ext CONFIG _ _ _ _ _ Hafter) in Hin.
  rewrite Forall_forall in Hm. specialize (Hm row Hin).
  destruct Hm as [q [filename [ts [model [text [image [qs H]]]]]]].
  destruct H as [Hgen [Hqs [_ [_ [_ Hrow]]]]].
  split; [exact (f_equal record_subject Hrow) |].
  split; [exact (f_equal record_grade_level Hrow) |].
  exists q. split; [now exists model, text, image, qs |].
  split;
    [exact (f_equal (fun r => metadata_question_type_name (metadata r)) Hrow)
    |].
  rewrite Hrow. repeat split.
Qed.

Lemma persisted_subject_and_grade_from_config_witness :
  exists record,
    allRecords
      (snd (process_question ExtractionExamples.example_ext
              ExtractionExamples.example_config Examples.example_types
              "page1.png"
              (ExtractionExamples.candidate 1 "文句翻譯與名句摘錄")
              Examples.fresh init_locals))
    = [record]
    /\ record_subject record = "DSE中文12篇範文"
    /\ record_grade_level record = "DSE"
    /\ (ExtractionExamples.candidate 1 "文句翻譯與名句摘錄").(subject)
       = "Chinese"
    /\ (ExtractionExamples.candidate 1 "文句翻譯與名句摘錄").(grade_level)
       = "S6".
Proof.
  destruct (proj2 (proj2 (proj2
              (persisted_subject_and_grade_from_config unit
                 ExtractionExamples.example_ext
                 ExtractionExamples.example_config Examples.fresh)))
              Examples.example_types "page1.png"
              (ExtractionExamples.candidate 1 "文句翻譯與名句摘錄")
              Examples.fresh init_locals "qt-1" [0.5%float; 0.25%float] tt
              eq_refl eq_refl)
    as [record [Hrecords [Hsubject [Hgrade _]]]].
  exists record. split; [exact Hrecords |]. split; [exact Hsubject |].
  split; [exact Hgrade |]. split; reflexivity.
Defined.

End Persistence.

(** ** C10: the textbook upload *)

Section LoopInvariant.
Context {W L A : Type}.

(** An invariant that every turn of the loop keeps, whether the turn
    returns or throws, holds when the loop is left. *)
Lemma for_of_invariant (body : A -> M W L unit) (I : W -> L -> Prop)
      (xs : list A) :
  (forall x w l r w' l',
      In x xs -> I w l -> body x w l = (r, w', l') -> I w' l') ->
  forall w l r w' l',
    I w l -> for_of xs body w l = (r, w', l') -> I w' l'.
Proof.
  induction xs as [| x xs IH]; intros Hstep w l r w' l' HI Hrun.
  - simpl in Hrun. unfold ret in Hrun. now injection Hrun as _ <- <-.
  - simpl in Hrun. unfold bind in Hrun.
    destruct (body x w l) as [[r1 w1] l1] eqn:Hbody.
    assert (HI1 : I w1 l1).
    { apply (Hstep x w l r1 w1 l1); [now left | exact HI | exact Hbody]. }
    destruct r1 as [[] | message].
    + apply (IH (fun y w2 l2 r2 w3 l3 Hy => Hstep y w2 l2 r2 w3 l3
                                               (or_intror Hy))
               w1 l1 r w' l' HI1 Hrun).
    + now injection Hrun as _ <- <-.
Qed.
End LoopInvariant.

Lemma In_object_set {V : Type} (key : string) (value : V)
      (o : list (string * V)) (entry : string * V) :
  In entry (object_set key value o) -> entry = (key, value) \/ In entry o.
Proof.
  induction o as [| [k v] o IH]; simpl.
  - intros [<- | []]. now left.
  - destruct (String.eqb_spec k key) as [-> | Hne].
    + intros [<- | Hin]; [now left | right; now right].
    + intros [<- | Hin]; [right; now left |].
      destruct (IH Hin) as [-> | Hin']; [now left | right; now right].
Qed.

Lemma object_get_set_same {V : Type} (key : string) (value : V)
      (o : list (string * V)) :
  object_get key (object_set key value o) = Some value.
Proof.
  induction o as [| [k v] o IH]; simpl.
  - now rewrite String.eqb_refl.
  - destruct (String.eqb_spec k key) as [-> | Hne]; simpl.
    + now rewrite String.eqb_refl.
    + destruct (String.eqb_spec k key); [contradiction | exact IH].
Qed.

Lemma object_get_set_other {V : Type} (key key' : string) (value : V)
      (o : list (string * V)) :
  key <> key' ->
  object_get key (object_set key' value o) = object_get key o.
Proof.
  intros Hne. induction o as [| [k v] o IH]; simpl.
  - destruct (String.eqb_spec key' key); [congruence | reflexivity].
  - destruct (String.eqb_spec k key') as [-> | Hk]; simpl.
    + destruct (String.eqb_spec key' key); [congruence | reflexivity].
    + destruct (String.eqb_spec k key); [reflexivity | exact IH].
Qed.

Module TextbookFacts.
Import TextbookUploader.

Definition is_insert (ev : Event) : bool :=
  match ev with
  | Insert _ _ => true
  | _ => false
  end.

Section Run.
Context {Env : Type} (ext : External Env) (CONFIG : Config).

(** The text of an entry of the [Map] was read from its file. *)
Definition read_from (folderPath : string) (t : list Event)
           (entry : string * string) : Prop :=
  In (ReadFile (path_join ext folderPath (fst entry)) "utf-8"
        (Ok (snd entry))) t.

(** A row of the run: its content is the text read from a file of the
    folder, its embedding the collaborator's answer for the summary the
    model gave of that text, and the summary is in its metadata. *)
Definition row_of_run (folderPath : string) (t : list Event)
           (row : TextbookRecord) : Prop :=
  exists filename summary uploadedAt,
    In (ReadFile (path_join ext folderPath filename) "utf-8"
          (Ok (content row))) t
    /\ In (GenerateText "qwen3-vl-plus" (summary_prompt (content row))
             (Ok summary)) t
    /\ In (Embed "bge-m3" summary (Ok (embedding row))) t
    /\ row = make_record CONFIG (extractTopicFromFilename ext filename)
               (content row) (embedding row) filename summary uploadedAt.

Lemma row_of_run_mono folderPath t t' row :
  row_of_run folderPath t row -> row_of_run folderPath (t ++ t') row.
Proof.
  intros [filename [summary [ts [H1 [H2 [H3 H4]]]]]].
  exists filename, summary, ts.
  repeat split; auto; apply in_or_app; now left.
Qed.

(** The state of the upload loop, started in [w0]. *)
Definition upload_inv (folderPath : string) (w0 : World Env Event)
           (textbooks : list (string * string)) (w : World Env Event)
  : Prop :=
  exists t,
    trace w = (trace w0 ++ t)%list
    /\ Forall (read_from folderPath t) textbooks
    /\ forall row response,
        In (Insert row response) t -> row_of_run folderPath t row.

Lemma upload_inv_extend folderPath w0 textbooks w e' added :
  upload_inv folderPath w0 textbooks w ->
  (forall t row response,
      trace w = (trace w0 ++ t)%list ->
      Forall (read_from folderPath t) textbooks ->
      In (Insert row response) added ->
      row_of_run folderPath (t ++ added) row) ->
  upload_inv folderPath w0 textbooks
    {| env := e'; trace := (trace w ++ added)%list |}.
Proof.
  intros [t [Ht [Hread Hrows]]] Hnew.
  exists (t ++ added)%list. cbn [trace]. rewrite Ht, <- app_assoc.
  split; [reflexivity |]. split.
  - eapply Forall_impl; [| exact Hread]. intros entry Hentry.
    unfold read_from in *. apply in_or_app. now left.
  - intros row response Hin. apply in_app_or in Hin.
    destruct Hin as [Hin | Hin].
    + apply row_of_run_mono. now apply (Hrows row response).
    + now apply (Hnew t row response).
Qed.

Ltac no_insert_in Hin :=
  repeat (destruct Hin as [Hin | Hin]; [discriminate Hin |]);
  destruct Hin.

Lemma process_textbook_step folderPath w0 textbooks entry
      (w : World Env Event) (l : Locals) r w' l' :
  In entry textbooks ->
  upload_inv folderPath w0 textbooks w ->
  process_textbook ext CONFIG entry w l = (r, w', l') ->
  r = Ok tt /\ upload_inv folderPath w0 textbooks w'.
Proof.
  intros Hentry Hinv. destruct entry as [filename text].
  unfold process_textbook, try_catch. unfold bind at 1.
  unfold summarizeContent, try_catch, bind at 1, ask at 1.
  destruct (generate_text ext "qwen3-vl-plus" (summary_prompt text) (env w))
    as [[summary | message] e1]; cbn [await ret throw emit bind trace env].
  - unfold bind at 1.
    unfold generateEmbedding, try_catch, bind at 1, ask at 1.
    cbn [env trace].
    destruct (embed ext "bge-m3" summary e1) as [[v | message] e2];
      cbn [await ret throw emit bind trace env].
    + unfold bind at 1, ask at 1. cbn [env trace].
      destruct (toISOString ext e2) as [uploadedAt e3].
      unfold bind at 1, uploadTextbook, bind at 1, ask at 1. cbn [env trace].
      set (record := make_record CONFIG (extractTopicFromFilename ext filename)
                       text v filename summary uploadedAt).
      assert (Hrow :
                forall t added,
                  Forall (read_from folderPath t) textbooks ->
                  In (GenerateText "qwen3-vl-plus" (summary_prompt text)
                        (Ok summary)) added ->
                  In (Embed "bge-m3" summary (Ok v)) added ->
                  row_of_run folderPath (t ++ added) record).
      { intros t added Hread Hg He.
        exists filename, summary, uploadedAt.
        rewrite Forall_forall in Hread. specialize (Hread _ Hentry).
        split; [apply in_or_app; left; exact Hread |].
        split; [apply in_or_app; right; exact Hg |].
        split; [apply in_or_app; right; exact He | reflexivity]. }
      destruct (insert_textbook ext record e3)
        as [[[| inserted rest] | message] e4];
        cbn [throw ret modify_locals emit bind trace env];
        unfold modify_locals; rewrite <- ?app_assoc; cbn [app];
        intros [= <- <- <-]; (split; [reflexivity |]);
        (apply upload_inv_extend; [exact Hinv |]);
        intros t row response Ht Hread Hin;
        (destruct Hin as [Hin | Hin]; [discriminate Hin |]);
        (destruct Hin as [Hin | Hin]; [discriminate Hin |]);
        (destruct Hin as [Hin | Hin]; [discriminate Hin |]);
        (destruct Hin as [Hin | Hin];
         [injection Hin as <- _;
          apply (Hrow t); [exact Hread | now left | right; now left]
         | no_insert_in Hin]).
    + unfold modify_locals. rewrite <- ?app_assoc. cbn [app].
      intros [= <- <- <-]. split; [reflexivity |].
      apply upload_inv_extend; [exact Hinv |].
      intros t row response Ht Hread Hin. no_insert_in Hin.
  - unfold modify_locals. rewrite <- ?app_assoc. cbn [app].
    intros [= <- <- <-]. split; [reflexivity |].
    apply upload_inv_extend; [exact Hinv |].
    intros t row response Ht Hread Hin. no_insert_in Hin.
Qed.

Lemma no_insert_not_In t row response :
  Forall (fun ev => is_insert ev = false) t -> ~ In (Insert row response) t.
Proof.
  intros Hall Hin. rewrite Forall_forall in Hall.
  specialize (Hall _ Hin). discriminate.
Qed.

(** [readTextbookFiles] inserts nothing, and the texts it returns were
    read from the files of the folder. *)
Lemma readTextbookFiles_run folderPath (w : World Env Event)
      (l : list (string * string)) r w' l' :
  readTextbookFiles ext folderPath w l = (r, w', l') ->
  exists t,
    trace w' = (trace w ++ t)%list
    /\ Forall (fun ev => is_insert ev = false) t
    /\ forall textbooks,
        r = Ok textbooks -> Forall (read_from folderPath t) textbooks.
Proof.
  unfold readTextbookFiles. unfold bind at 1, modify_locals at 1.
  unfold try_catch. unfold bind at 1, ask at 1.
  destruct (readdir ext folderPath (env w)) as [[files | message] e1];
    cbn [await ret throw emit bind trace env].
  - destruct (Z.of_nat (List.length
                          (filter (fun file => endsWith file ".txt") files))
              =? 0).
    + cbn. intros [= <- <- <-]. eexists. rewrite <- app_assoc.
      split; [reflexivity |]. split; [repeat constructor |].
      intros textbooks [= <-]. constructor.
    + unfold bind at 1.
      set (w1 := {| env := e1;
                    trace := (trace w ++ [ReadDir folderPath (Ok files)])%list
                 |}).
      match goal with
      | |- context [for_of ?xs ?body w1 []] =>
          destruct (for_of xs body w1 []) as [[r1 w2] l2] eqn:Hloop;
          apply (for_of_invariant body
                   (fun w3 l3 =>
                      exists t,
                        trace w3 = (trace w1 ++ t)%list
                        /\ Forall (fun ev => is_insert ev = false) t
                        /\ Forall (read_from folderPath t) l3)) in Hloop
      end.
      * destruct Hloop as [t [Ht [Hni Hread]]].
        assert (Hmono : Forall (read_from folderPath
                                  (ReadDir folderPath (Ok files) :: t)) l2).
        { eapply Forall_impl; [| exact Hread]. intros entry H.
          right. exact H. }
        destruct r1 as [[] | message]; cbn; intros [= <- <- <-].
        -- exists (ReadDir folderPath (Ok files) :: t).
           rewrite Ht. unfold w1. cbn [trace]. rewrite <- app_assoc.
           split; [reflexivity |]. split; [now constructor |].
           now intros textbooks [= <-].
        -- exists (ReadDir folderPath (Ok files)
                     :: t ++ [ConsoleError "Error reading textbooks folder:"
                                message])%list.
           rewrite Ht. unfold w1. cbn [trace]. rewrite <- !app_assoc.
           split; [reflexivity |].
           split; [constructor; [reflexivity |];
                   apply Forall_app; split; [exact Hni | repeat constructor]
                  |].
           intros textbooks [=].
      * intros file w3 l3 r3 w4 l4 _ [t [Ht [Hni Hread]]].
        unfold bind, ask.
        destruct (readFile ext (path_join ext folderPath file) "utf-8"
                    (env w3)) as [[text | message] e3];
          cbn; intros [= <- <- <-].
        -- exists (t ++ [ReadFile (path_join ext folderPath file) "utf-8"
                           (Ok text)])%list.
           rewrite Ht, <- app_assoc. split; [reflexivity |].
           split; [apply Forall_app; split; [exact Hni | repeat constructor]
                  |].
           apply Forall_forall. intros entry Hin.
           apply In_object_set in Hin. destruct Hin as [-> | Hin].
           ++ unfold read_from. apply in_or_app. right. now left.
           ++ rewrite Forall_forall in Hread. unfold read_from in *.
              apply in_or_app. left. now apply Hread.
        -- exists (t ++ [ReadFile (path_join ext folderPath file) "utf-8"
                           (Err message)])%list.
           rewrite Ht, <- app_assoc. split; [reflexivity |].
           split; [apply Forall_app; split; [exact Hni | repeat constructor]
                  |].
           eapply Forall_impl; [| exact Hread]. intros entry H.
           unfold read_from in *. apply in_or_app. now left.
      * exists []. rewrite app_nil_r. repeat split; constructor.
  - cbn. intros [= <- <- <-]. eexists. rewrite <- app_assoc.
    split; [reflexivity |]. split; [repeat constructor |].
    intros textbooks [=].
Qed.

(** The rows whose insertion a run attempts are rows of the run. *)
Lemma processAndUploadTextbooks_run (w : World Env Event) (l : Locals)
      r w' l' :
  processAndUploadTextbooks ext CONFIG w l = (r, w', l') ->
  exists t,
    trace w' = (trace w ++ t)%list
    /\ forall row response,
        In (Insert row response) t ->
        row_of_run (textbooksFolder CONFIG) t row.
Proof.
  unfold processAndUploadTextbooks. unfold bind at 1, call.
  destruct (readTextbookFiles ext (textbooksFolder CONFIG) w [])
    as [[r1 w1] l1] eqn:Hread.
  apply readTextbookFiles_run in Hread.
  destruct Hread as [t1 [Ht1 [Hni Htexts]]].
  assert (Hnone : forall row response,
             In (Insert row response) t1 ->
             row_of_run (textbooksFolder CONFIG) t1 row).
  { intros row response Hin.
    destruct (no_insert_not_In t1 row response Hni Hin). }
  destruct r1 as [textbooks | message];
    [| intros [= <- <- <-]; now exists t1].
  destruct (Z.of_nat (List.length textbooks) =? 0);
    [unfold ret; intros [= <- <- <-]; now exists t1 |].
  unfold bind at 1, modify_locals at 1. unfold bind at 1.
  match goal with
  | |- context [for_of textbooks ?body w1 ?l0] =>
      destruct (for_of textbooks body w1 l0) as [[r2 w2] l2] eqn:Hloop;
      apply (for_of_invariant body
               (fun w3 _ =>
                  upload_inv (textbooksFolder CONFIG) w textbooks w3))
        in Hloop
  end.
  - destruct Hloop as [t [Ht [_ Hrows]]].
    destruct r2 as [[] | message]; cbn; intros [= <- <- <-];
      now exists t.
  - intros entry w3 l3 r3 w4 l4 Hentry Hinv Hstep.
    exact (proj2 (process_textbook_step (textbooksFolder CONFIG) w textbooks
                    entry w3 l3 r3 w4 l4 Hentry Hinv Hstep)).
  - exists t1. split; [exact Ht1 |]. split; [now apply Htexts | exact Hnone].
Qed.

End Run.

(** C10.  Every row whose insertion the textbook upload attempts has as
    [content] the text that was read from a file of the folder; its
    embedding is the embedding collaborator's answer for the summary the
    model gave of that text, not for the text; the summary is stored
    under the key [summary] of the metadata, and the other fields come
    from the file name, the file and the configuration.  The request for
    the summary is one fixed instruction followed by the whole text.  A
    text whose summary and whose embedding are answered has the insert
    of its row attempted: the row holds the text as it is and the
    embedding of the summary. *)
Theorem textbook_content_is_source_and_embedding_is_of_summary :
  forall (Env : Type) (ext : External Env) (CONFIG : Config)
         (w : World Env Event) (l : Locals),
    let run := processAndUploadTextbooks ext CONFIG w l in
    (exists t,
        trace (snd (fst run)) = (trace w ++ t)%list
        /\ forall row response,
            In (Insert row response) t ->
            exists filename summary uploadedAt,
              In (ReadFile (path_join ext (textbooksFolder CONFIG) filename)
                    "utf-8" (Ok (content row))) t
              /\ In (GenerateText "qwen3-vl-plus"
                       (summary_prompt (content row)) (Ok summary)) t
              /\ In (Embed "bge-m3" summary (Ok (embedding row))) t
              /\ object_get "summary" (metadata row) = Some (JStr summary)
              /\ topic row = extractTopicFromFilename ext filename
              /\ subject row = config_subject CONFIG
              /\ grade_level row
                 = (if truthy_string (Some (gradeLevel CONFIG))
                    then Some (gradeLevel CONFIG) else None)
              /\ metadata row
                 = make_metadata CONFIG filename summary uploadedAt)
    /\ (exists instruction,
           instruction <> ""
           /\ forall text, summary_prompt text = instruction ++ text)
    /\ (forall filename text w0 l0 summary e1 v e2,
           generate_text ext "qwen3-vl-plus" (summary_prompt text) (env w0)
           = (Ok summary, e1) ->
           embed ext "bge-m3" summary e1 = (Ok v, e2) ->
           exists uploadedAt response rest,
             trace (snd (fst (process_textbook ext CONFIG (filename, text)
                                w0 l0)))
             = (trace w0
                  ++ [GenerateText "qwen3-vl-plus" (summary_prompt text)
                        (Ok summary);
                      Embed "bge-m3" summary (Ok v);
                      Now uploadedAt;
                      Insert
                        (make_record CONFIG
                           (extractTopicFromFilename ext filename) text v
                           filename summary uploadedAt)
                        response]
                  ++ rest)%list).
Proof.
  intros Env ext CONFIG w l run. subst run.
  split; [| split].
  2:{ exists ("以下是其中一篇HKDSE十二篇範文的內容，現在我希望將內容進行整合和縮短，以便嵌入到數據庫中。:"
               ++ newline ++ newline).
      split; [discriminate |].
      intros text. unfold summary_prompt.
      now rewrite !string_app_assoc. }
  2:{ intros filename text w0 l0 summary e1 v e2 Hsummary Hembed.
      unfold process_textbook, try_catch. unfold bind at 1.
      unfold summarizeContent, try_catch, bind at 1, ask at 1.
      rewrite Hsummary. cbn [await ret throw emit bind trace env].
      unfold bind at 1.
      unfold generateEmbedding, try_catch, bind at 1, ask at 1.
      cbn [env trace]. rewrite Hembed.
      cbn [await ret throw emit bind trace env].
      unfold bind at 1, ask at 1. cbn [env trace].
      destruct (toISOString ext e2) as [uploadedAt e3].
      unfold bind at 1, uploadTextbook, bind at 1, ask at 1. cbn [env trace].
      destruct (insert_textbook ext _ e3) as [[[| inserted more] | message] e4];
        cbn [await ret throw emit bind trace env modify_locals fst snd];
        unfold modify_locals; cbn [fst snd trace];
        exists uploadedAt; eexists; eexists; rewrite <- !app_assoc;
        cbn [List.app]; reflexivity. }
  destruct (processAndUploadTextbooks ext CONFIG w l) as [[r w'] l'] eqn:Hrun.
  cbn [fst snd].
  destruct (processAndUploadTextbooks_run ext CONFIG w l r w' l' Hrun)
    as [t [Ht Hrows]].
  exists t. split; [exact Ht |].
  intros row response Hin.
  destruct (Hrows row response Hin)
    as [filename [summary [uploadedAt [H1 [H2 [H3 Hrow]]]]]].
  exists filename, summary, uploadedAt.
  split; [exact H1 |]. split; [exact H2 |]. split; [exact H3 |].
  split.
  { rewrite (f_equal metadata Hrow). cbn [metadata make_record].
    unfold make_metadata.
    rewrite object_get_set_other by discriminate.
    apply object_get_set_same. }
  split; [exact (f_equal topic Hrow) |].
  split; [exact (f_equal subject Hrow) |].
  split; [exact (f_equal grade_level Hrow) |].
  exact (f_equal metadata Hrow).
Qed.

(** A folder with one text file, run to the end. *)
Definition example_ext : External unit :=
  {| readdir := fun _ e => (Ok ["師說.txt"; "cover.png"], e);
     readFile := fun _ _ e => (Ok "古之學者必有師。", e);
     generate_text := fun _ _ e => (Ok "論從師之道", e);
     embed := fun _ _ e => (Ok [0.5%float; 0.25%float], e);
     toISOString := fun e => ("2025-01-01T00:00:00.000Z", e);
     insert_textbook := fun _ e => (Ok ["row-1"], e);
     path_basename_ext := fun name _ => "師說";
     path_join := fun a b => a ++ "/" ++ b |}.

Definition example_config : Config :=
  {| config_subject := "DSE中文12篇範文";
     gradeLevel := "DSE";
     textbooksFolder := "textbooks";
     config_metadata := [] |}.

Lemma textbook_content_is_source_and_embedding_is_of_summary_witness :
  exists uploadedAt response rest,
    trace (snd (fst (process_textbook example_ext example_config
                       ("師說.txt", "古之學者必有師。") Examples.fresh
                       {| successCount := 0; errorCount := 0 |})))
    = ([GenerateText "qwen3-vl-plus" (summary_prompt "古之學者必有師。")
          (Ok "論從師之道");
        Embed "bge-m3" "論從師之道" (Ok [0.5%float; 0.25%float]);
        Now uploadedAt;
        Insert
          (make_record example_config "師說" "古之學者必有師。"
             [0.5%float; 0.25%float] "師說.txt" "論從師之道" uploadedAt)
          response]
         ++ rest)%list.
Proof.
  exact (proj2 (proj2
           (textbook_content_is_source_and_embedding_is_of_summary unit
              example_ext example_config Examples.fresh
              {| successCount := 0; errorCount := 0 |}))
           "師說.txt" "古之學者必有師。" Examples.fresh
           {| successCount := 0; errorCount := 0 |} "論從師之道" tt
           [0.5%float; 0.25%float] tt eq_refl eq_refl).
Defined.

Example textbook_example_run :
  filter is_insert
    (trace (snd (fst (processAndUploadTextbooks example_ext example_config
                        Examples.fresh
                        {| successCount := 0; errorCount := 0 |}))))
  = [Insert
       {| topic := "師說";
          content := "古之學者必有師。";
          subject := "DSE中文12篇範文";
          grade_level := Some "DSE";
          embedding := [0.5%float; 0.25%float];
          metadata := [("filename", JStr "師說.txt");
                       ("summary", JStr "論從師之道");
                       ("uploadedAt", JStr "2025-01-01T00:00:00.000Z")] |}
       (Ok ["row-1"])].
Proof. vm_compute. reflexivity. Qed.

End TextbookFacts.

(** * Further properties of the scripts *)

(** ** The MCQ set creator and the generator: what sampling selects *)

Lemma slice0_firstn {A : Type} (l : list A) (e : Z) :
  0 <= e -> slice0 l e = firstn (Z.to_nat e) l.
Proof.
  intros He. unfold slice0. destruct (Z.ltb_spec e 0); [lia |].
  destruct (Z.le_gt_cases e (Z.of_nat (List.length l))) as [Hle | Hgt].
  - now rewrite Z.min_l.
  - rewrite Z.min_r by lia. rewrite Nat2Z.id.
    now rewrite !firstn_all2 by lia.
Qed.

Module SelectionFacts.

(** A selection drawn from [data]: some of its rows, none twice. *)
Definition drawn_from {A : Type} (data selected : list A) : Prop :=
  exists rest, Permutation data (selected ++ rest).

Lemma slice0_drawn {A : Type} (data shuffled : list A) (e : Z) :
  0 <= e -> Permutation data shuffled ->
  drawn_from data (slice0 shuffled e).
Proof.
  intros He Hperm. exists (skipn (Z.to_nat e) shuffled).
  rewrite slice0_firstn by exact He. now rewrite firstn_skipn.
Qed.

(** One call of [fetchMCQsByDifficulty] that returns: the store answered
    [data], and the result is exactly [min(limit, |data|)] rows drawn
    from it; the caller's locals are untouched. *)
Lemma fetchMCQsByDifficulty_selected {Env L : Type}
      (ext : SetCreator.External Env) filters questionTypes difficultyLevels
      limit (w : World Env SetCreator.Event) (l : L) selected w' l' :
  SetCreatorSampling.honest_shuffle ext ->
  0 <= limit ->
  SetCreator.fetchMCQsByDifficulty ext filters questionTypes difficultyLevels
    limit w l = (Ok selected, w', l') ->
  l' = l
  /\ exists data e1,
      SetCreator.select_mcqs ext
        (SetCreator.mcqs_query filters questionTypes difficultyLevels) (env w)
      = (Ok data, e1)
      /\ Z.of_nat (List.length selected)
         = Z.min limit (Z.of_nat (List.length data))
      /\ drawn_from data selected.
Proof.
  intros Hshuffle Hlimit Hrun.
  rewrite SetCreatorSampling.fetchMCQsByDifficulty_run in Hrun.
  destruct (SetCreator.select_mcqs ext _ (env w)) as [[data | message] e1]
    eqn:Hsel; [| discriminate].
  destruct (Z.of_nat (List.length data) =? 0) eqn:Hlen.
  - injection Hrun as <- _ <-. split; [reflexivity |].
    exists data, e1. split; [reflexivity |].
    apply Z.eqb_eq in Hlen. split; [simpl; lia |].
    exists data. apply Permutation_refl.
  - specialize (Hshuffle data e1).
    destruct (SetCreator.sort_random ext data e1) as [shuffled e2].
    simpl in Hshuffle. injection Hrun as <- _ <-. split; [reflexivity |].
    exists data, e1. split; [reflexivity |]. split.
    + rewrite slice0_length by lia.
      rewrite <- (Permutation_length Hshuffle). lia.
    + apply slice0_drawn; [lia | exact Hshuffle].
Qed.

Lemma fetchRandomQuestions_selected {Env L : Type}
      (ext : McqGenerator.External Env) subject topic questionTypeNames limit
      questionTypes (w : World Env McqGenerator.Event) (l : L) selected w' l' :
  McqGeneratorSampling.honest_shuffle ext ->
  0 <= limit ->
  McqGenerator.fetchRandomQuestions ext subject topic questionTypeNames limit
    questionTypes w l = (Ok selected, w', l') ->
  exists data e1,
    McqGenerator.select_pastpapers ext
      (McqGenerator.pastpapers_query subject topic questionTypeNames
         questionTypes) (env w)
    = (Ok data, e1)
    /\ data <> []
    /\ Z.of_nat (List.length selected)
       = Z.min limit (Z.of_nat (List.length data))
    /\ drawn_from data selected.
Proof.
  intros Hshuffle Hlimit Hrun.
  rewrite McqGeneratorSampling.fetchRandomQuestions_run in Hrun.
  destruct (McqGenerator.select_pastpapers ext _ (env w))
    as [[data | message] e1] eqn:Hsel; [| discriminate].
  destruct (Z.of_nat (List.length data) =? 0) eqn:Hlen; [discriminate |].
  specialize (Hshuffle data e1).
  destruct (McqGenerator.sort_random ext data e1) as [shuffled e2].
  simpl in Hshuffle. injection Hrun as <- _ _.
  exists data, e1. split; [reflexivity |]. split.
  { intros ->. discriminate. }
  split.
  - rewrite slice0_length by lia.
    rewrite <- (Permutation_length Hshuffle). lia.
  - apply slice0_drawn; [lia | exact Hshuffle].
Qed.

(** X1.  With a random sort that rearranges and a count that is not
    negative, a sampling call that returns has selected exactly
    [min(requested, available)] of the rows the store answered, each row
    at most as often as the store answered it (sampling is without
    replacement); [fetchRandomQuestions] never returns an empty selection
    when at least one record is requested: it throws on an empty
    answer instead. *)
Theorem sampling_selects_exactly_min :
  forall (Env : Type) (set_ext : SetCreator.External Env)
         (generator_ext : McqGenerator.External Env) (limit : Z),
    SetCreatorSampling.honest_shuffle set_ext ->
    McqGeneratorSampling.honest_shuffle generator_ext ->
    0 <= limit ->
    (forall filters questionTypes difficultyLevels w selected w' l',
        SetCreator.fetchMCQsByDifficulty set_ext filters questionTypes
          difficultyLevels limit w tt = (Ok selected, w', l') ->
        exists data e1,
          SetCreator.select_mcqs set_ext
            (SetCreator.mcqs_query filters questionTypes difficultyLevels)
            (env w) = (Ok data, e1)
          /\ Z.of_nat (List.length selected)
             = Z.min limit (Z.of_nat (List.length data))
          /\ drawn_from data selected)
    /\ (forall subject topic questionTypeNames questionTypes w selected w' l',
           McqGenerator.fetchRandomQuestions generator_ext subject topic
             questionTypeNames limit questionTypes w tt
           = (Ok selected, w', l') ->
           exists data e1,
             McqGenerator.select_pastpapers generator_ext
               (McqGenerator.pastpapers_query subject topic questionTypeNames
                  questionTypes) (env w) = (Ok data, e1)
             /\ Z.of_nat (List.length selected)
                = Z.min limit (Z.of_nat (List.length data))
             /\ drawn_from data selected
             /\ (1 <= limit -> selected <> [])).
Proof.
  intros Env set_ext generator_ext limit Hs Hg Hlimit. split.
  - intros filters questionTypes difficultyLevels w selected w' l' Hrun.
    exact (proj2 (fetchMCQsByDifficulty_selected set_ext filters questionTypes
                    difficultyLevels limit w tt selected w' l' Hs Hlimit
                    Hrun)).
  - intros subject topic questionTypeNames questionTypes w selected w' l' Hrun.
    destruct (fetchRandomQuestions_selected generator_ext subject topic
                questionTypeNames limit questionTypes w tt selected w' l' Hg
                Hlimit Hrun) as [data [e1 [Hsel [Hne [Hlen Hdrawn]]]]].
    exists data, e1. repeat split; try assumption.
    intros Hone ->. simpl in Hlen.
    destruct data; [now apply Hne |]. simpl List.length in Hlen. lia.
Qed.

Lemma sampling_selects_exactly_min_witness :
  exists selected,
    fst (fst (McqGenerator.fetchRandomQuestions
                (Examples.generator_store Examples.three_pastpapers [])
                "DSE中文12篇範文" (Some "師說") None 2 Examples.example_types
                Examples.fresh tt)) = Ok selected
    /\ List.length selected = 2%nat
    /\ drawn_from Examples.three_pastpapers selected.
Proof.
  destruct (McqGenerator.fetchRandomQuestions
              (Examples.generator_store Examples.three_pastpapers [])
              "DSE中文12篇範文" (Some "師說") None 2 Examples.example_types
              Examples.fresh tt) as [[r w'] l'] eqn:Hrun.
  assert (Hok : exists selected, r = Ok selected).
  { vm_compute in Hrun. injection Hrun as <- _ _. eexists. reflexivity. }
  destruct Hok as [selected ->].
  destruct (proj2 (sampling_selects_exactly_min unit
                     (Examples.set_store Examples.five_mcqs)
                     (Examples.generator_store Examples.three_pastpapers [])
                     2 (Examples.set_store_shuffles _)
                     (Examples.generator_store_shuffles _ _) ltac:(lia))
              _ _ _ _ _ _ _ _ Hrun)
    as [data [e1 [Hsel [Hlen [Hdrawn _]]]]].
  vm_compute in Hsel. injection Hsel as <- _.
  exists selected. split; [reflexivity |].
  split; [simpl in Hlen; lia | exact Hdrawn].
Defined.

End SelectionFacts.

(** ** The MCQ set creator: difficulty bands, and what [main] inserts *)

Module SetCreatorMore.
Import SetCreator.



Lemma fetchMCQsByDifficulty_trace {Env L : Type} (ext : External Env)
      filters questionTypes difficultyLevels limit (w : World Env Event)
      (l : L) :
  exists t,
    trace (snd (fst (fetchMCQsByDifficulty ext filters questionTypes
                       difficultyLevels limit w l)))
    = (trace w ++ t)%list
    /\ EmptySelection.inserts_nothing t.
Proof.
  rewrite SetCreatorSampling.fetchMCQsByDifficulty_run.
  destruct (select_mcqs ext _ (env w)) as [[data | message] e1].
  - destruct (Z.of_nat (List.length data) =? 0).
    + eexists. cbn [fst snd trace]. rewrite <- app_assoc.
      split; [reflexivity | repeat constructor].
    + destruct (sort_random ext data e1) as [shuffled e2].
      eexists. cbn [fst snd trace]. rewrite <- app_assoc.
      split; [reflexivity | repeat constructor].
  - eexists. cbn [fst snd trace].
    split; [reflexivity | repeat constructor].
Qed.


Lemma band_result {Env : Type} (ext : External Env) (n : Z) filters
      questionTypes levels (w : World Env Event) (l : list MCQ) :
  let run := (if 0 <? n
              then
                questions <-
                  fetchMCQsByDifficulty ext filters questionTypes levels n ;;
                modify_locals (fun allMCQs => (allMCQs ++ questions)%list)
              else ret tt) w l in
  (fst (fst run) = Ok tt \/ (exists message, fst (fst run) = Err message))
  /\ exists t, trace (snd (fst run)) = (trace w ++ t)%list
               /\ EmptySelection.inserts_nothing t.
Proof.
  destruct (0 <? n).
  - destruct (fetchMCQsByDifficulty_trace ext filters questionTypes levels n
                w l) as [t [Ht Hquiet]].
    cbv zeta. unfold bind.
    destruct (fetchMCQsByDifficulty ext filters questionTypes levels n w l)
      as [[[selected | message] w1] l1]; cbn [fst snd] in *.
    + split; [now left | now exists t].
    + split; [right; now exists message | now exists t].
  - cbv zeta. cbn. split; [now left |]. exists []. rewrite app_nil_r.
    split; [reflexivity | constructor].
Qed.




End SetCreatorMore.

(** ** The MCQ set creator: what a run of [main] inserts *)

Module SetCreatorOutcome.
Import SetCreator.

Section Quiet.
Context {Env : Type} (ext : External Env).

(** A computation that neither creates a set nor links records. *)
Definition quiet {L A : Type} (c : M (World Env Event) L A) : Prop :=
  forall w l,
  exists t, trace (snd (fst (c w l))) = (trace w ++ t)%list
            /\ EmptySelection.inserts_nothing t.

Lemma quiet_ret {L A : Type} (a : A) : quiet (L := L) (ret a).
Proof.
  intros w l. exists []. rewrite app_nil_r. split; [reflexivity | constructor].
Qed.

Lemma quiet_throw {L A : Type} message : quiet (L := L) (A := A) (throw message).
Proof.
  intros w l. exists []. rewrite app_nil_r. split; [reflexivity | constructor].
Qed.

Lemma quiet_get_locals {L : Type} : quiet (L := L) get_locals.
Proof.
  intros w l. exists []. rewrite app_nil_r. split; [reflexivity | constructor].
Qed.

Lemma quiet_modify_locals {L : Type} (f : L -> L) : quiet (modify_locals f).
Proof.
  intros w l. exists []. rewrite app_nil_r. split; [reflexivity | constructor].
Qed.

Lemma quiet_bind {L A B : Type} (c : M (World Env Event) L A)
      (k : A -> M (World Env Event) L B) :
  quiet c -> (forall a, quiet (k a)) -> quiet (bind c k).
Proof.
  intros Hc Hk w l. destruct (Hc w l) as [t1 [Ht1 Hq1]]. unfold bind.
  destruct (c w l) as [[[a | message] w1] l1]; cbn [fst snd] in *.
  - destruct (Hk a w1 l1) as [t2 [Ht2 Hq2]].
    exists (t1 ++ t2)%list. rewrite Ht2, Ht1, app_assoc.
    split; [reflexivity | now apply Forall_app].
  - now exists t1.
Qed.

Lemma quiet_call {L L' A : Type} (init : L')
      (c : M (World Env Event) L' A) :
  quiet c -> quiet (L := L) (call init c).
Proof.
  intros Hc w l. destruct (Hc w init) as [t [Ht Hq]]. unfold call.
  destruct (c w init) as [[r w1] l1]. now exists t.
Qed.

Lemma quiet_fetchMCQsByDifficulty {L : Type} filters questionTypes levels
      limit :
  quiet (L := L)
        (fetchMCQsByDifficulty ext filters questionTypes levels limit).
Proof.
  intros w l. apply SetCreatorMore.fetchMCQsByDifficulty_trace.
Qed.

Lemma quiet_band (n : Z) filters questionTypes levels :
  quiet (if 0 <? n
         then
           questions <-
             fetchMCQsByDifficulty ext filters questionTypes levels n ;;
           modify_locals (fun allMCQs => (allMCQs ++ questions)%list)
         else ret tt).
Proof.
  destruct (0 <? n); [| apply quiet_ret].
  apply quiet_bind; [apply quiet_fetchMCQsByDifficulty |].
  intros questions. apply quiet_modify_locals.
Qed.

Lemma quiet_fetchMCQs filters questionTypes :
  quiet (fetchMCQs ext filters questionTypes).
Proof.
  unfold fetchMCQs.
  apply quiet_bind; [apply quiet_modify_locals | intros _].
  destruct (difficultyDistribution filters) as [dist |].
  - apply quiet_bind; [apply quiet_band | intros _].
    apply quiet_bind; [apply quiet_band | intros _].
    apply quiet_bind; [apply quiet_band | intros _].
    apply quiet_get_locals.
  - apply quiet_bind; [apply quiet_fetchMCQsByDifficulty | intros questions].
    apply quiet_bind; [apply quiet_modify_locals | intros _].
    apply quiet_get_locals.
Qed.

Lemma quiet_fetchQuestionTypes {L : Type} subject :
  quiet (L := L) (fetchQuestionTypes ext subject).
Proof.
  intros w l. unfold fetchQuestionTypes, bind, ask.
  destruct (select_question_types ext _ (env w)) as [[data | message] e1];
    eexists; (split; [reflexivity | repeat constructor]).
Qed.
End Quiet.

(** The row [main] hands to [createMCQSet]. *)
Definition set_row (CONFIG : Config) : NewMCQSet :=
  {| new_topic := setTopic CONFIG;
     new_description := Some (setDescription CONFIG);
     new_subject := setSubject CONFIG |}.

(** The condition under which [main] queries the question types. *)
Definition needs_question_types (CONFIG : Config) : bool :=
  match questionTypeNames (filters CONFIG) with
  | Some _ => true
  | None => false
  end
  || truthy_string (filter_subject (filters CONFIG)).

(** [selectedMCQs] is what [fetchMCQs] returned to [main], run on the
    question types of step 1; up to there the run, whose events are
    [pre], has inserted nothing. *)
Definition selected_by {Env : Type} (ext : External Env) (CONFIG : Config)
           (w : World Env Event) (pre : list Event)
           (selectedMCQs : list MCQ) : Prop :=
  exists questionTypes w0 w1 l1,
    (if needs_question_types CONFIG
     then fetchQuestionTypes ext (setSubject CONFIG)
     else ret []) w tt = (Ok questionTypes, w0, tt)
    /\ fetchMCQs ext (filters CONFIG) questionTypes w0 []
       = (Ok selectedMCQs, w1, l1)
    /\ trace w1 = (trace w ++ pre)%list
    /\ EmptySelection.inserts_nothing pre.

(** X3.  What a run of [main] inserts.  A run that succeeds has created
    one set and then linked to it, under the id the store gave that set,
    the rows of exactly the records [fetchMCQs] returned, which are at
    least one; these two inserts are the last two events and the only
    inserts.  A run that fails reports its error on the console and
    rethrows it, and it failed in one of three ways: before any insert;
    at the creation of the set, with nothing linked; or at the linking of
    the records [fetchMCQs] returned, and then the set that was created
    stays in the store (nothing removes it). *)
Theorem main_inserts_set_then_links :
  forall (Env : Type) (ext : External Env) (CONFIG : Config)
         (w : World Env Event),
    let '(r, w', _) := main ext CONFIG w tt in
    match r with
    | Ok _ =>
        exists pre selectedMCQs mcqSet,
          selectedMCQs <> []
          /\ selected_by ext CONFIG w pre selectedMCQs
          /\ EmptySelection.inserts_nothing pre
          /\ trace w'
             = (trace w ++ pre
                  ++ [InsertMCQSet (set_row CONFIG) (Ok mcqSet);
                      InsertSetQuestions
                        (mcqSetQuestions (set_id mcqSet) selectedMCQs)
                        (Ok tt)])%list
    | Err error =>
        exists t,
          trace w'
          = (trace w ++ t ++ [ConsoleError (newline ++ "✗ Error:") error])%list
          /\ (EmptySelection.inserts_nothing t
              \/ (exists pre message,
                     EmptySelection.inserts_nothing pre
                     /\ t = (pre ++ [InsertMCQSet (set_row CONFIG)
                                       (Err message)])%list
                     /\ error = "Failed to create MCQ set: " ++ message)
              \/ (exists pre selectedMCQs mcqSet message,
                     selected_by ext CONFIG w pre selectedMCQs
                     /\ EmptySelection.inserts_nothing pre
                     /\ t = (pre
                               ++ [InsertMCQSet (set_row CONFIG) (Ok mcqSet);
                                   InsertSetQuestions
                                     (mcqSetQuestions (set_id mcqSet)
                                        selectedMCQs)
                                     (Err message)])%list
                     /\ error = "Failed to link MCQs to set: " ++ message))
    end.
Proof.
  intros Env ext CONFIG w.
  destruct (main ext CONFIG w tt) as [[r w'] l'] eqn:Hmain.
  revert Hmain. unfold main, try_catch.
  fold (needs_question_types CONFIG).
  unfold bind at 1.
  assert (Htypes : quiet (L := unit)
                     (if needs_question_types CONFIG
                      then fetchQuestionTypes ext (setSubject CONFIG)
                      else ret [])).
  { destruct (needs_question_types CONFIG);
      [apply quiet_fetchQuestionTypes | apply quiet_ret]. }
  destruct (Htypes w tt) as [t0 [Ht0 Hq0]].
  destruct ((if needs_question_types CONFIG
             then fetchQuestionTypes ext (setSubject CONFIG)
             else ret []) w tt)
    as [[[questionTypes | message] w0] l0] eqn:Hstep1; cbn [fst snd] in Ht0.
  2:{ unfold bind, emit, throw. intros [= <- <- <-]. cbn [trace].
      exists t0. rewrite Ht0, app_assoc. split; [reflexivity | now left]. }
  destruct l0.
  unfold bind at 1, call at 1.
  destruct (quiet_fetchMCQs ext (filters CONFIG) questionTypes w0 [])
    as [t1 [Ht1 Hq1]].
  destruct (fetchMCQs ext (filters CONFIG) questionTypes w0 [])
    as [[[selectedMCQs | message] w1] l1] eqn:Hfetch; cbn [fst snd] in Ht1.
  2:{ unfold bind, emit, throw. intros [= <- <- <-]. cbn [trace].
      exists (t0 ++ t1)%list. rewrite Ht1, Ht0, !app_assoc.
      split; [reflexivity | left; now apply Forall_app]. }
  assert (Hpre : EmptySelection.inserts_nothing (t0 ++ t1))
    by now apply Forall_app.
  assert (Htrace : trace w1 = (trace w ++ (t0 ++ t1))%list)
    by now rewrite Ht1, Ht0, app_assoc.
  assert (Hselected : selected_by ext CONFIG w (t0 ++ t1) selectedMCQs).
  { exists questionTypes, w0, w1, l1. auto. }
  unfold bind at 1.
  destruct (Z.of_nat (List.length selectedMCQs) =? 0) eqn:Hempty.
  { unfold throw, bind, emit. intros [= <- <- <-]. cbn [trace].
    exists (t0 ++ t1)%list. rewrite Htrace, !app_assoc.
    split; [reflexivity | now left]. }
  assert (Hsome : selectedMCQs <> []).
  { intros ->. discriminate Hempty. }
  unfold ret at 1. unfold bind at 1.
  unfold createMCQSet, bind at 1, ask at 1.
  fold (set_row CONFIG).
  destruct (insert_mcqset ext (set_row CONFIG) (env w1))
    as [[mcqSet | message] e2].
  2:{ unfold throw, bind, emit. intros [= <- <- <-]. cbn [trace].
      exists ((t0 ++ t1) ++ [InsertMCQSet (set_row CONFIG) (Err message)])%list.
      rewrite Htrace, !app_assoc. split; [reflexivity |].
      right; left. exists (t0 ++ t1)%list, message. auto. }
  unfold ret at 1. unfold linkMCQsToSet, bind at 1, ask at 1. cbn [env trace].
  destruct (insert_set_questions ext
              (mcqSetQuestions (set_id mcqSet) selectedMCQs) e2)
    as [[[] | message] e3].
  - unfold ret. intros [= <- <- <-]. cbn [trace].
    exists (t0 ++ t1)%list, selectedMCQs, mcqSet.
    split; [exact Hsome |]. split; [exact Hselected |].
    split; [exact Hpre |].
    rewrite Htrace, <- !app_assoc. reflexivity.
  - unfold throw, bind, emit. intros [= <- <- <-]. cbn [trace].
    exists ((t0 ++ t1)
              ++ [InsertMCQSet (set_row CONFIG) (Ok mcqSet);
                  InsertSetQuestions
                    (mcqSetQuestions (set_id mcqSet) selectedMCQs)
                    (Err message)])%list.
    rewrite Htrace, <- !app_assoc. split; [reflexivity |].
    right; right. exists (t0 ++ t1)%list, selectedMCQs, mcqSet, message.
    rewrite <- !app_assoc. auto.
Qed.

End SetCreatorOutcome.

(** ** The MCQ set creator: linking records of any difficulty *)

Module SetLinkageMore.
Import SetCreator.

(** X4.  Whatever the difficulties of the selected records are,
    [linkMCQsToSet] builds one row per record, each carrying the id of
    the set; the rows, numbered 1, 2, ..., N, list the ids of the
    selected records, every one once, by ascending sort key, records of
    one key in their selection order.  The
    key of a record is its difficulty, except that a difficulty of 0
    counts like a missing one: both get the key 999, so such a record
    is placed after every record of difficulty 1 to 5. *)
Theorem linkMCQsToSet_rows_for_any_difficulty :
  forall (mcqSetId : string) (mcqs : list MCQ),
    let rows := mcqSetQuestions mcqSetId mcqs in
    List.length rows = List.length mcqs
    /\ Forall (fun row => mcqset_id row = mcqSetId) rows
    /\ map mcq_id rows = map id (sortedMCQs mcqs)
    /\ map order_index rows = map Z.of_nat (seq 1 (List.length mcqs))
    /\ Permutation mcqs (sortedMCQs mcqs)
    /\ Permutation (map id mcqs) (map mcq_id rows)
    /\ StronglySorted (key_le SetCreatorFacts.sort_key) (sortedMCQs mcqs)
    /\ (forall k : Z,
           filter (fun m => SetCreatorFacts.sort_key m =? k) (sortedMCQs mcqs)
           = filter (fun m => SetCreatorFacts.sort_key m =? k) mcqs)
    /\ (forall m : MCQ,
           SetCreatorFacts.sort_key m
           = match difficulty m with
             | Some d => if d =? 0 then 999 else d
             | None => 999
             end).
Proof.
  intros mcqSetId mcqs rows.
  split; [| split; [| split; [| split; [| split; [| split; [| split;
    [| split]]]]]]].
  3:{ apply SetCreatorFacts.mcqSetQuestions_mcq_id. }
  3:{ apply SetCreatorFacts.mcqSetQuestions_order_index. }
  3:{ apply SetCreatorFacts.sortedMCQs_perm. }
  - pose proof (SetCreatorFacts.mcqSetQuestions_order_index mcqSetId mcqs)
      as Hidx.
    apply (f_equal (@List.length Z)) in Hidx.
    now rewrite !length_map, length_seq in Hidx.
  - apply Forall_forall. intros row Hrow.
    assert (Hids : map mcqset_id rows
                   = map (fun _ => mcqSetId) (sortedMCQs mcqs)).
    { unfold rows, mcqSetQuestions, map_index.
      apply map_index_from_payload. reflexivity. }
    apply (in_map mcqset_id) in Hrow. rewrite Hids in Hrow.
    apply in_map_iff in Hrow. destruct Hrow as [m [Hm _]]. now symmetry.
  - unfold rows. rewrite SetCreatorFacts.mcqSetQuestions_mcq_id.
    apply Permutation_map, SetCreatorFacts.sortedMCQs_perm.
  - unfold sortedMCQs. rewrite SetCreatorFacts.by_difficulty_by_key.
    apply Array_sort_sorted.
  - intros k. unfold sortedMCQs.
    rewrite SetCreatorFacts.by_difficulty_by_key.
    apply Array_sort_stable.
  - intros m. unfold SetCreatorFacts.sort_key, or_number.
    destruct (difficulty m) as [d |]; reflexivity.
Qed.

End SetLinkageMore.

(** ** The MCQ generator: the pipeline of a run *)

Module GeneratorPipeline.
Import McqGenerator.

(** No event of the trace is a write that succeeded. *)
Definition writes_no_file (t : list Event) : Prop :=
  Forall (fun ev => match ev with
                    | WriteFile _ _ _ (Ok _) => False
                    | _ => True
                    end) t.

Definition question_types_query (CONFIG : Config) : Query :=
  query_eq "subject" (config_subject CONFIG)
    {| from := "question_types"; select := "id, name, subject";
       clauses := [] |}.

Definition textbook_query (CONFIG : Config) (topic : string) : Query :=
  query_eq "topic" topic
    (query_eq "subject" (config_subject CONFIG)
       {| from := "textbooks"; select := "topic, content, subject";
          clauses := [] |}).

Lemma generator_fetchQuestionTypes_cases {Env L : Type} (ext : External Env)
      (CONFIG : Config) (w : World Env Event) (l : L) :
  exists answer e1,
    fetchQuestionTypes ext (config_subject CONFIG) w l
    = (match answer with
       | Ok data => Ok data
       | Err message => Err ("Failed to fetch question types: " ++ message)
       end,
       {| env := e1;
          trace := (trace w
                      ++ [SelectQuestionTypes (question_types_query CONFIG)
                            answer])%list |}, l).
Proof.
  unfold fetchQuestionTypes, bind, ask. fold (question_types_query CONFIG).
  destruct (select_question_types ext (question_types_query CONFIG) (env w))
    as [[data | message] e1].
  - now exists (Ok data), e1.
  - now exists (Err message), e1.
Qed.

Lemma fetchTextbookContent_cases {Env L : Type} (ext : External Env)
      (CONFIG : Config) (topic : string) (w : World Env Event) (l : L) :
  exists answer e1,
    fetchTextbookContent ext (config_subject CONFIG) topic w l
    = (match answer with
       | Ok data => Ok data
       | Err message => Err ("Failed to fetch textbook content: " ++ message)
       end,
       {| env := e1;
          trace := (trace w
                      ++ [SelectTextbook (textbook_query CONFIG topic)
                            answer])%list |}, l).
Proof.
  unfold fetchTextbookContent, bind, ask.
  fold (textbook_query CONFIG topic).
  destruct (select_textbook ext (textbook_query CONFIG topic) (env w))
    as [[data | message] e1].
  - now exists (Ok data), e1.
  - now exists (Err message), e1.
Qed.

Lemma saveMCQsToFile_cases {Env L : Type} (ext : External Env)
      (mcqs : GeneratedMCQs) (CONFIG : Config) (w : World Env Event)
      (l : L) :
  exists generated written e2,
    saveMCQsToFile ext mcqs (outputFile CONFIG) CONFIG w l
    = (written,
       {| env := e2;
          trace := (trace w
                      ++ [Now generated;
                          WriteFile (outputFile CONFIG)
                            (mcqs_content mcqs CONFIG generated) "utf-8"
                            written])%list |}, l).
Proof.
  unfold saveMCQsToFile, bind, ask.
  destruct (toISOString ext (env w)) as [generated e1]. cbn [env trace].
  destruct (writeFile ext (outputFile CONFIG)
              (mcqs_content mcqs CONFIG generated) "utf-8" e1)
    as [written e2].
  exists generated, written, e2. rewrite <- app_assoc.
  destruct written as [[] | message]; reflexivity.
Qed.

(** The events of a run that went through, by what the collaborators
    answered. *)
Definition pipeline (CONFIG : Config) (topic : string)
           (questionTypes : list QuestionType)
           (data shuffled : list PastPaperQuestion)
           (textbookContent : TextbookContent) (mcqs : GeneratedMCQs)
           (generated : string) : list Event :=
  let sampleQuestions :=
    slice0 shuffled
      (Z.min (numberOfQuestions CONFIG) (Z.of_nat (List.length data))) in
  [ SelectQuestionTypes (question_types_query CONFIG) (Ok questionTypes);
    SelectPastpapers
      (pastpapers_query (config_subject CONFIG) (config_topic CONFIG)
         (McqGenerator.questionTypes CONFIG) questionTypes)
      (Ok data);
    RandomSort data shuffled;
    SelectTextbook (textbook_query CONFIG topic) (Ok textbookContent);
    GenerateObject "deepseek-v3.2"
      (Generation.prompt_of textbookContent sampleQuestions
         (numberOfMCQsToGenerate CONFIG) (config_difficulty CONFIG)
         questionTypes)
      (Ok mcqs);
    Now generated;
    WriteFile (outputFile CONFIG) (mcqs_content mcqs CONFIG generated)
      "utf-8" (Ok tt) ].

(** X5.  The generator writes its file last, and only when every step
    before it succeeded.  A run that ends with status 0 made exactly
    seven calls, in this order: the question types of the configured
    subject, the past-paper records, their random sort, the textbook of
    the configured subject and topic, one generation request whose prompt
    is built from that textbook and from the sampled records, the clock,
    and one write of the configured output file, whose content is the
    report of the records the model returned; these records passed the
    schema and at least one past-paper record was found.  Every other run
    ends with status 1 and has written no file. *)
Theorem generator_writes_the_file_last :
  forall (Env : Type) (ext : External Env) (penv : ProcessEnv)
         (CONFIG : Config) (w : World Env Event),
    let '(code, w') := script ext penv CONFIG w in
    (code = 0
     /\ exists topic questionTypes data shuffled textbookContent mcqs
               generated,
         config_topic CONFIG = Some topic
         /\ data <> []
         /\ MCQsSchema mcqs = true
         /\ trace w'
            = (trace w
                 ++ pipeline CONFIG topic questionTypes data shuffled
                      textbookContent mcqs generated)%list)
    \/ (code = 1
        /\ exists t, trace w' = (trace w ++ t)%list /\ writes_no_file t).
Proof.
  intros Env ext penv CONFIG w.
  destruct (script ext penv CONFIG w) as [code w'] eqn:Hscript.
  revert Hscript. unfold script.
  assert (Hstop : forall (full : list Event) (e : Env),
             (exists t, full = (trace w ++ t)%list /\ writes_no_file t) ->
             (1, {| env := e; trace := full |}) = (code, w') ->
             (code = 0
              /\ exists topic questionTypes data shuffled textbookContent mcqs
                        generated,
                  config_topic CONFIG = Some topic
                  /\ data <> []
                  /\ MCQsSchema mcqs = true
                  /\ trace w'
                     = (trace w
                          ++ pipeline CONFIG topic questionTypes data shuffled
                               textbookContent mcqs generated)%list)
             \/ (code = 1
                 /\ exists t, trace w' = (trace w ++ t)%list
                              /\ writes_no_file t)).
  { intros full e Ht [= <- <-]. right. split; [reflexivity | exact Ht]. }
  destruct (negb (truthy_string (SUPABASE_URL penv))
            || negb (truthy_string (SUPABASE_ANON_KEY penv))).
  { intros [= <- <-]. right. split; [reflexivity |]. exists [].
    rewrite app_nil_r. split; [reflexivity | constructor]. }
  destruct (negb (truthy_string (OPENAI_API_KEY penv))).
  { intros [= <- <-]. right. split; [reflexivity |]. exists [].
    rewrite app_nil_r. split; [reflexivity | constructor]. }
  unfold generateMCQQuestions. unfold bind at 1.
  destruct (generator_fetchQuestionTypes_cases ext CONFIG w tt) as [types [e1 ->]].
  destruct types as [questionTypes | message].
  2:{ cbv beta iota; cbn [env trace]; apply Hstop; rewrite <- ?app_assoc;
      eexists; (split; [reflexivity | repeat constructor]). }
  unfold bind at 1.
  rewrite McqGeneratorSampling.fetchRandomQuestions_run. cbv zeta.
  cbn [env trace].
  destruct (select_pastpapers ext
              (pastpapers_query (config_subject CONFIG) (config_topic CONFIG)
                 (McqGenerator.questionTypes CONFIG) questionTypes) e1)
    as [[data | message] e2].
  2:{ cbv beta iota; cbn [env trace]; apply Hstop; rewrite <- ?app_assoc;
      eexists; (split; [reflexivity | repeat constructor]). }
  destruct (Z.of_nat (List.length data) =? 0) eqn:Hempty.
  { cbv beta iota; cbn [env trace]; apply Hstop; rewrite <- ?app_assoc;
      eexists; (split; [reflexivity | repeat constructor]). }
  assert (Hdata : data <> []) by (intros ->; discriminate Hempty).
  destruct (sort_random ext data e2) as [shuffled e3].
  destruct (config_topic CONFIG) as [topic |] eqn:Htopic.
  2:{ unfold throw. cbv beta iota; cbn [env trace]; apply Hstop; rewrite <- ?app_assoc;
      eexists; (split; [reflexivity | repeat constructor]). }
  destruct (truthy_string (Some topic)).
  2:{ unfold throw. cbv beta iota; cbn [env trace]; apply Hstop; rewrite <- ?app_assoc;
      eexists; (split; [reflexivity | repeat constructor]). }
  unfold bind at 1.
  match goal with
  | |- context [fetchTextbookContent ext _ topic ?w0 tt] =>
      destruct (fetchTextbookContent_cases ext CONFIG topic w0 tt)
        as [textbook [e4 ->]]
  end.
  cbn [env trace].
  destruct textbook as [textbookContent | message].
  2:{ cbv beta iota; cbn [env trace]; apply Hstop; rewrite <- ?app_assoc;
      eexists; (split; [reflexivity | repeat constructor]). }
  unfold bind at 1. rewrite Generation.generateMCQs_run. cbv zeta.
  cbn [env trace].
  match goal with
  | |- context [generate_object ext ?m ?p e4] =>
      destruct (generate_object ext m p e4) as [[mcqs | message] e5]
  end.
  2:{ cbv beta iota; cbn [env trace]; apply Hstop; rewrite <- ?app_assoc;
      eexists; (split; [reflexivity | repeat constructor]). }
  destruct (MCQsSchema mcqs) eqn:Hschema.
  2:{ cbv beta iota; cbn [env trace]; apply Hstop; rewrite <- ?app_assoc;
      eexists; (split; [reflexivity | repeat constructor]). }
  match goal with
  | |- context [saveMCQsToFile ext mcqs _ CONFIG ?w0 tt] =>
      destruct (saveMCQsToFile_cases ext mcqs CONFIG w0 tt)
        as [generated [written [e6 ->]]]
  end.
  cbn [env trace].
  destruct written as [[] | message].
  2:{ cbv beta iota; cbn [env trace]; apply Hstop; rewrite <- ?app_assoc;
      eexists; (split; [reflexivity | repeat constructor]). }
  intros [= <- <-]. left. split; [reflexivity |].
  exists topic, questionTypes, data, shuffled, textbookContent, mcqs,
    generated.
  split; [reflexivity |]. split; [exact Hdata |]. split; [exact Hschema |].
  unfold pipeline. rewrite Htopic. cbn [trace]. rewrite <- !app_assoc.
  reflexivity.
Qed.

End GeneratorPipeline.

(** ** The past-paper uploader: labels, upload counters, fatal errors *)

Module UploaderOutcome.
Import PastpaperUploader.

Lemma find_first {A : Type} (f : A -> bool) (l : list A) :
  match find f l with
  | Some x =>
      exists pre post,
        l = (pre ++ x :: post)%list /\ f x = true
        /\ Forall (fun y => f y = false) pre
  | None => Forall (fun y => f y = false) l
  end.
Proof.
  induction l as [| y l IH]; simpl; [constructor |].
  destruct (f y) eqn:Hy.
  - exists [], l. repeat split; [exact Hy | constructor].
  - destruct (find f l) as [x |].
    + destruct IH as [pre [post [-> [Hx Hpre]]]].
      exists (y :: pre), post. repeat split; [exact Hx |].
      now constructor.
    + now constructor.
Qed.

(** X6.  [mapQuestionTypeToId] resolves a label to the id of the first
    question type, in the order the store returned them, whose name is
    exactly the label; when no type has that name it fails with a message
    that quotes the label. *)
Theorem mapQuestionTypeToId_first_exact_match :
  forall (questionTypeName : string) (questionTypes : list QuestionType),
    match mapQuestionTypeToId questionTypeName questionTypes with
    | Ok questionTypeId =>
        exists earlier questionType later,
          questionTypes = (earlier ++ questionType :: later)%list
          /\ qt_name questionType = questionTypeName
          /\ qt_id questionType = questionTypeId
          /\ Forall (fun qt => qt_name qt <> questionTypeName) earlier
    | Err message =>
        Forall (fun qt => qt_name qt <> questionTypeName) questionTypes
        /\ message
           = "Question type " ++ quote ++ questionTypeName ++ quote
             ++ " not found in available types"
    end.
Proof.
  intros questionTypeName questionTypes. unfold mapQuestionTypeToId, Array_find.
  pose proof (find_first (fun qt => (qt_name qt =? questionTypeName)%string)
                questionTypes) as Hfind.
  assert (Hno : forall l,
             Forall (fun qt => (qt_name qt =? questionTypeName)%string = false)
                    l ->
             Forall (fun qt => qt_name qt <> questionTypeName) l).
  { intros l. apply Forall_impl. intros qt Hqt. now apply String.eqb_neq. }
  destruct (find _ questionTypes) as [questionType |].
  - destruct Hfind as [pre [post [-> [Hname Hpre]]]].
    exists pre, questionType, post.
    split; [reflexivity |]. split; [now apply String.eqb_eq |].
    split; [reflexivity | now apply Hno].
  - split; [now apply Hno | reflexivity].
Qed.

(** The inserts the store accepted: it answered with at least one row. *)
Fixpoint accepted (t : list Event) : Z :=
  match t with
  | [] => 0
  | Insert _ (Ok (_ :: _)) :: t' => 1 + accepted t'
  | _ :: t' => accepted t'
  end.

(** The failures reported on the console. *)
Fixpoint console_errors (t : list Event) : Z :=
  match t with
  | [] => 0
  | ConsoleError _ _ :: t' => 1 + console_errors t'
  | _ :: t' => console_errors t'
  end.

Lemma accepted_app t1 t2 : accepted (t1 ++ t2) = accepted t1 + accepted t2.
Proof.
  induction t1 as [| ev t1 IH]; [reflexivity |].
  destruct ev as [| | | | | | | | ? [[|] |] | |]; cbn [accepted app];
    rewrite ?IH; lia.
Qed.

Lemma console_errors_app t1 t2 :
  console_errors (t1 ++ t2) = console_errors t1 + console_errors t2.
Proof.
  induction t1 as [| ev t1 IH]; [reflexivity |].
  destruct ev; cbn [console_errors app]; rewrite ?IH; lia.
Qed.

Lemma upload_question_counts {Env : Type} (ext : External Env)
      (question : PastPaperRecord) (w : World Env Event) (c : UploadCounts)
      r w' c' :
  upload_question ext question w c = (r, w', c') ->
  r = Ok tt
  /\ exists t, trace w' = (trace w ++ t)%list
               /\ Extraction.inserted_rows t = [question]
               /\ c' = (fst c + accepted t, snd c + console_errors t)
               /\ accepted t + console_errors t = 1.
Proof.
  unfold upload_question, try_catch, bind, ask, modify_locals, emit, throw.
  destruct (insert_pastpaper ext question (env w))
    as [[[| inserted rest] | message] e1]; cbn; intros [= <- <- <-];
    (split; [reflexivity |]); eexists; rewrite <- ?app_assoc;
    (split; [reflexivity |]); split; try reflexivity;
    cbn [accepted console_errors app]; split; try reflexivity;
    f_equal; lia.
Qed.

(** X7.  [uploadToSupabase] never throws: it attempts one insert per
    record, in the order of the records, and its two counters account for
    every record.  [successCount] is the number of inserts the store
    accepted with at least one row in its answer, [errorCount] the number
    of failures it reported on the console; an insert the store rejected,
    or answered with no row, is counted as failed and the loop goes on
    with the next record. *)
Theorem uploadToSupabase_counts_every_record :
  forall (Env : Type) (ext : External Env) (questions : list PastPaperRecord)
         (w : World Env Event) (c : UploadCounts),
    let '(r, w', c') := uploadToSupabase ext questions w c in
    exists t,
      r = Ok c'
      /\ trace w' = (trace w ++ t)%list
      /\ Extraction.inserted_rows t = questions
      /\ c' = (accepted t, console_errors t)
      /\ accepted t + console_errors t = Z.of_nat (List.length questions).
Proof.
  intros Env ext questions w c.
  destruct (uploadToSupabase ext questions w c) as [[r w'] c'] eqn:Hrun.
  revert Hrun.
  unfold uploadToSupabase. unfold bind at 1. unfold modify_locals at 1.
  unfold bind at 1.
  destruct (for_of questions (upload_question ext) w (0, 0))
    as [[r1 w1] c1] eqn:Hloop.
  apply (for_of_fold (upload_question ext)
           (fun done w2 c2 =>
              exists t, trace w2 = (trace w ++ t)%list
                        /\ Extraction.inserted_rows t = done
                        /\ c2 = (accepted t, console_errors t)
                        /\ accepted t + console_errors t
                           = Z.of_nat (List.length done)))
    with (done := []) in Hloop.
  - destruct Hloop as [-> [t [Ht [Hrows [Hc Hsum]]]]].
    unfold get_locals. intros [= <- <- <-].
    exists t. repeat split; assumption.
  - intros done q w2 c2 r2 w3 c3 [t [Ht [Hrows [Hc Hsum]]]] Hstep.
    apply upload_question_counts in Hstep.
    destruct Hstep as [-> [t' [Ht' [Hrows' [Hc' Hsum']]]]].
    split; [reflexivity |]. exists (t ++ t')%list.
    rewrite Ht', Ht, <- app_assoc, Extraction.inserted_rows_app, Hrows,
      Hrows', accepted_app, console_errors_app, length_app.
    split; [reflexivity |]. split; [reflexivity |].
    subst c2. cbn [fst snd] in Hc'. split; [exact Hc' |].
    cbn [List.length]. lia.
  - exists []. rewrite app_nil_r. repeat split.
Qed.

(** An event that ends the run. *)
Definition is_fatal (ev : Event) : bool :=
  match ev with
  | SelectQuestionTypes _ (Err _) => true
  | SelectTopics _ (Err _) => true
  | ReadDir _ (Err _) => true
  | WriteFile _ _ _ (Err _) => true
  | _ => false
  end.

(** The events of the loop over the images. *)
Definition is_loop_event (ev : Event) : bool :=
  match ev with
  | ReadFile _ _ => true
  | GenerateObject _ _ _ _ => true
  | Embed _ _ _ => true
  | Now _ => true
  | ConsoleError _ _ => true
  | _ => false
  end.

Definition harmless (t : list Event) : Prop :=
  Forall (fun ev => is_fatal ev = false) t.

(** A result and the events that led to it agree: a failure has a fatal
    event, a success has none. *)
Definition outcome {A : Type} (r : result A) (t : list Event) : Prop :=
  match r with
  | Ok _ => harmless t
  | Err _ => Exists (fun ev => is_fatal ev = true) t
  end.

Lemma outcome_app {A : Type} (r : result A) t1 t2 :
  harmless t1 -> outcome r t2 -> outcome r (t1 ++ t2).
Proof.
  intros H1. destruct r; cbn.
  - intros H2. now apply Forall_app.
  - intros H2. apply Exists_app. now right.
Qed.

Lemma loop_events_harmless t :
  Forall (fun ev => is_loop_event ev = true) t -> harmless t.
Proof. apply Forall_impl. intros ev. now destruct ev. Qed.

Lemma candidate_events_harmless t :
  Forall (fun ev => Extraction.is_candidate_event ev = true) t -> harmless t.
Proof. apply Forall_impl. intros ev. now destruct ev. Qed.

Lemma upload_events_harmless t :
  Forall (fun ev => Extraction.is_upload_event ev = true) t -> harmless t.
Proof. apply Forall_impl. intros ev. now destruct ev. Qed.

Section Steps.
Context {Env : Type} (ext : External Env) (CONFIG : Config).

Definition question_types_query : Query :=
  query_eq "subject" (config_subject CONFIG)
    {| from := "question_types"; select := "id, name, subject";
       clauses := [] |}.

Definition topics_query : Query :=
  query_eq "subject" (config_subject CONFIG)
    {| from := "textbooks"; select := "topic, subject"; clauses := [] |}.

Lemma fetchQuestionTypes_cases {L : Type} (w : World Env Event) (l : L) :
  fetchQuestionTypes ext (config_subject CONFIG) w l
  = match select_question_types ext question_types_query (env w) with
    | (answer, e1) =>
        (match answer with
         | Ok data => Ok data
         | Err message => Err ("Failed to fetch question types: " ++ message)
         end,
         {| env := e1;
            trace := (trace w
                        ++ [SelectQuestionTypes question_types_query
                              answer])%list |}, l)
    end.
Proof.
  unfold fetchQuestionTypes, bind, ask. fold question_types_query.
  now destruct (select_question_types ext question_types_query (env w))
    as [[data | message] e1].
Qed.

Lemma fetchTopics_cases {L : Type} (w : World Env Event) (l : L) :
  fetchTopics ext (config_subject CONFIG) w l
  = match select_topics ext topics_query (env w) with
    | (answer, e1) =>
        (match answer with
         | Ok data => Ok data
         | Err message => Err ("Failed to fetch topics: " ++ message)
         end,
         {| env := e1;
            trace := (trace w ++ [SelectTopics topics_query answer])%list |},
         l)
    end.
Proof.
  unfold fetchTopics, bind, ask. fold topics_query.
  now destruct (select_topics ext topics_query (env w))
    as [[data | message] e1].
Qed.

Lemma readImageFiles_cases {L : Type} (folderPath : string)
      (w : World Env Event) (l : L) :
  readImageFiles ext folderPath w l
  = match readdir ext folderPath (env w) with
    | (Ok files, e1) =>
        if Z.of_nat (List.length (filter Extraction.is_image files)) =? 0
        then
          (Ok [],
           {| env := e1;
              trace := ((trace w ++ [ReadDir folderPath (Ok files)])
                          ++ [ConsoleWarn ("No image files found in "
                                           ++ folderPath)])%list |}, l)
        else
          (Ok (map (fun file => path_join ext folderPath file)
                   (filter Extraction.is_image files)),
           {| env := e1;
              trace := (trace w ++ [ReadDir folderPath (Ok files)])%list |},
           l)
    | (Err message, e1) =>
        (Err message,
         {| env := e1;
            trace := ((trace w ++ [ReadDir folderPath (Err message)])
                        ++ [ConsoleError "Error reading pastpapers folder:"
                              message])%list |}, l)
    end.
Proof.
  unfold readImageFiles, try_catch, bind, ask.
  destruct (readdir ext folderPath (env w)) as [[files | message] e1];
    cbn [await ret throw]; [| reflexivity].
  fold Extraction.is_image.
  now destruct (Z.of_nat (List.length (filter Extraction.is_image files))
                =? 0).
Qed.

(** One image never ends the run, whatever happens to it. *)
Lemma process_image_events (questionTypes : list QuestionType)
      (topics : list Topic) (imagePath : string) (w : World Env Event)
      (l : Locals) r w' l' :
  process_image ext CONFIG questionTypes topics imagePath w l = (r, w', l') ->
  r = Ok tt
  /\ exists t, trace w' = (trace w ++ t)%list
               /\ Forall (fun ev => is_loop_event ev = true) t.
Proof.
  unfold process_image, try_catch. unfold bind at 1.
  rewrite Extraction.performOCR_run.
  destruct (readFile ext imagePath (env w)) as [[buffer | message] e1].
  2:{ unfold bind, emit, modify_locals. intros [= <- <- <-].
      split; [reflexivity |]. eexists. cbn [trace]. rewrite <- !app_assoc.
      split; [reflexivity | repeat constructor]. }
  cbv zeta.
  destruct (generate_object ext "qwen3-vl-plus"
              (Extraction.ocr_text questionTypes topics)
              (Extraction.ocr_image ext imagePath buffer) e1)
    as [[qs | message] e2].
  2:{ unfold bind, emit, modify_locals. intros [= <- <- <-].
      split; [reflexivity |]. eexists. cbn [trace]. rewrite <- !app_assoc.
      split; [reflexivity | repeat constructor]. }
  destruct (ExtractedQuestionsSchema qs).
  2:{ unfold bind, emit, modify_locals. intros [= <- <- <-].
      split; [reflexivity |]. eexists. cbn [trace]. rewrite <- !app_assoc.
      split; [reflexivity | repeat constructor]. }
  unfold bind at 1.
  match goal with
  | |- context [for_of qs ?body ?w0 l] =>
      destruct (for_of qs body w0 l) as [[r1 w1] l1] eqn:Hinner
  end.
  apply Extraction.inner_loop in Hinner.
  destruct Hinner as [-> [t [new [Ht [Hev _]]]]].
  unfold modify_locals. intros [= <- <- <-]. split; [reflexivity |].
  cbn [trace] in Ht. eexists. rewrite Ht, <- !app_assoc.
  split; [reflexivity |].
  apply Forall_app. split; [repeat constructor |].
  apply Forall_app. split; [repeat constructor |].
  eapply Forall_impl; [| exact Hev]. intros ev. now destruct ev.
Qed.

Lemma images_loop_events (questionTypes : list QuestionType)
      (topics : list Topic) (imageFiles : list string)
      (w : World Env Event) (l : Locals) r w' l' :
  for_of imageFiles (process_image ext CONFIG questionTypes topics) w l
  = (r, w', l') ->
  r = Ok tt
  /\ exists t, trace w' = (trace w ++ t)%list
               /\ Forall (fun ev => is_loop_event ev = true) t.
Proof.
  intros Hrun.
  apply (for_of_fold (process_image ext CONFIG questionTypes topics)
           (fun _ w2 _ =>
              exists t, trace w2 = (trace w ++ t)%list
                        /\ Forall (fun ev => is_loop_event ev = true) t))
    with (done := []) in Hrun; [exact Hrun | |].
  - intros done x w2 l2 r2 w3 l3 [t [Ht Hev]] Hstep.
    apply process_image_events in Hstep.
    destruct Hstep as [-> [t' [Ht' Hev']]]. split; [reflexivity |].
    exists (t ++ t')%list. rewrite Ht', Ht, <- app_assoc.
    split; [reflexivity | now apply Forall_app].
  - exists []. rewrite app_nil_r. split; [reflexivity | constructor].
Qed.

Lemma review_then_upload_outcome (w : World Env Event) (l : Locals)
      r w' l' :
  review_then_upload ext CONFIG w l = (r, w', l') ->
  exists t, trace w' = (trace w ++ t)%list /\ outcome r t.
Proof.
  intros Hrun. apply Extraction.review_then_upload_run in Hrun.
  destruct Hrun as [_ [post [Ht Hpost]]]. exists post.
  split; [exact Ht |]. unfold Extraction.persistence_trace in Hpost.
  destruct (allRecords l) as [| record records].
  - destruct Hpost as [-> ->]. constructor.
  - destruct Hpost as [generated [answer [uploads [-> Hanswer]]]].
    destruct answer as [[] | message].
    + destruct Hanswer as [_ [Hev ->]]. cbn.
      constructor; [reflexivity |]. constructor; [reflexivity |].
      now apply upload_events_harmless.
    + destruct Hanswer as [-> ->]. cbn.
      apply Exists_cons_tl. now apply Exists_cons_hd.
Qed.

Lemma processAndExtractQuestions_outcome (w : World Env Event) (l : Locals)
      r w' l' :
  processAndExtractQuestions ext CONFIG w l = (r, w', l') ->
  exists t, trace w' = (trace w ++ t)%list /\ outcome r t.
Proof.
  unfold processAndExtractQuestions. unfold bind at 1.
  rewrite fetchQuestionTypes_cases.
  destruct (select_question_types ext question_types_query (env w))
    as [[questionTypes | message] e1].
  2:{ intros [= <- <- <-]. eexists. split; [reflexivity |].
      now apply Exists_cons_hd. }
  unfold bind at 1. rewrite fetchTopics_cases. cbn [env trace].
  destruct (select_topics ext topics_query e1) as [[topics | message] e2].
  2:{ intros [= <- <- <-]. eexists. cbn [trace]. rewrite <- !app_assoc.
      split; [reflexivity |]. apply Exists_cons_tl. now apply Exists_cons_hd. }
  unfold bind at 1. rewrite readImageFiles_cases. cbn [env trace].
  destruct (readdir ext (pastpapersFolder CONFIG) e2)
    as [[files | message] e3].
  2:{ intros [= <- <- <-]. eexists. cbn [trace]. rewrite <- !app_assoc.
      split; [reflexivity |]. apply Exists_cons_tl, Exists_cons_tl.
      now apply Exists_cons_hd. }
  destruct (Z.of_nat (List.length (filter Extraction.is_image files)) =? 0).
  { cbn [List.length Z.of_nat Z.eqb]. unfold ret. intros [= <- <- <-].
    eexists. cbn [trace]. rewrite <- !app_assoc.
    split; [reflexivity | repeat constructor]. }
  match goal with
  | |- context [Z.of_nat (List.length ?fs) =? 0] =>
      destruct (Z.of_nat (List.length fs) =? 0)
  end.
  { unfold ret. intros [= <- <- <-].
    eexists. cbn [trace]. rewrite <- !app_assoc.
    split; [reflexivity | repeat constructor]. }
  unfold bind at 1, modify_locals at 1. unfold bind at 1.
  match goal with
  | |- context [for_of ?fs ?body ?w0 init_locals] =>
      destruct (for_of fs body w0 init_locals) as [[r4 w4] l4] eqn:Hloop
  end.
  apply images_loop_events in Hloop.
  destruct Hloop as [-> [pre [Tpre Hpre]]]. cbn [trace] in Tpre.
  unfold bind at 1.
  destruct (review_then_upload ext CONFIG w4 l4) as [[r5 w5] l5] eqn:Hrev.
  apply review_then_upload_outcome in Hrev.
  destruct Hrev as [post [Tpost Hpost]].
  assert (Hall : trace w5
                 = (trace w
                      ++ [SelectQuestionTypes question_types_query
                            (Ok questionTypes);
                          SelectTopics topics_query (Ok topics);
                          ReadDir (pastpapersFolder CONFIG) (Ok files)]
                      ++ pre ++ post)%list).
  { rewrite Tpost, Tpre, <- !app_assoc. reflexivity. }
  assert (Hsafe : harmless
                    ([SelectQuestionTypes question_types_query
                        (Ok questionTypes);
                      SelectTopics topics_query (Ok topics);
                      ReadDir (pastpapersFolder CONFIG) (Ok files)]
                       ++ pre)).
  { apply Forall_app. split; [repeat constructor |].
    now apply loop_events_harmless. }
  destruct r5 as [[] | message].
  - unfold bind, get_locals, ret. intros [= <- <- <-].
    eexists. split; [exact Hall |].
    rewrite app_assoc. apply (outcome_app (Ok tt)); assumption.
  - intros [= <- <- <-]. eexists. split; [exact Hall |].
    rewrite app_assoc.
    apply (outcome_app (Err message : result unit)); assumption.
Qed.
End Steps.

(** X8.  The past-paper uploader ends with status 1 only when the
    credentials are missing or one of four calls failed: the query of the
    question types, the query of the topics, the listing of the image
    folder, or the write of the review file.  Whenever none of these
    failed the run ends with status 0, whatever happened to the images,
    the extraction model, the embeddings and the inserts. *)
Theorem uploader_fails_only_on_setup_or_review_file :
  forall (Env : Type) (ext : External Env) (penv : ProcessEnv)
         (CONFIG : Config) (w : World Env Event),
    let '(code, w') := script ext penv CONFIG w in
    exists t,
      trace w' = (trace w ++ t)%list
      /\ ((code = 0 /\ Configuration.credentials_missing penv = false
           /\ harmless t)
          \/ (code = 1
              /\ (Configuration.credentials_missing penv = true
                  \/ Exists (fun ev => is_fatal ev = true) t))).
Proof.
  intros Env ext penv CONFIG w.
  destruct (script ext penv CONFIG w) as [code w'] eqn:Hscript.
  revert Hscript. unfold script, Configuration.credentials_missing,
    Configuration.supabase_missing.
  destruct (negb (truthy_string (SUPABASE_URL penv))
            || negb (truthy_string (SUPABASE_ANON_KEY penv))).
  { intros [= <- <-]. exists []. rewrite app_nil_r.
    split; [reflexivity |]. right. split; [reflexivity | now left]. }
  destruct (negb (truthy_string (OPENAI_API_KEY penv))).
  { intros [= <- <-]. exists []. rewrite app_nil_r.
    split; [reflexivity |]. right. split; [reflexivity | now left]. }
  destruct (processAndExtractQuestions ext CONFIG w init_locals)
    as [[r w1] l1] eqn:Hrun.
  apply processAndExtractQuestions_outcome in Hrun.
  destruct Hrun as [t [Ht Hout]].
  destruct r as [summary | message]; intros [= <- <-].
  - exists t. split; [exact Ht |]. left. auto.
  - exists (t ++ [ConsoleError (newline ++ "✗ Script failed:") message])%list.
    cbn [trace]. rewrite Ht, <- app_assoc. split; [reflexivity |].
    right. split; [reflexivity |]. right. apply Exists_app. now left.
Qed.

End UploaderOutcome.

(** ** The past-paper uploader: an answer outside the schema, an empty folder *)

Module UploaderEdges.
Import PastpaperUploader.

(** X9.  One candidate whose difficulty is outside 1..5 makes the whole
    answer of the extraction model fail the schema: the image is then
    counted as one failure, none of its candidates becomes a record (the
    valid ones neither), no embedding is requested, and the loop goes on.
    The failure is reported twice on the console, by [performOCR] and by
    the loop. *)
Theorem schema_violation_discards_the_image :
  forall (Env : Type) (ext : External Env) (CONFIG : Config)
         (questionTypes : list QuestionType) (topics : list Topic)
         (imagePath : string) (w : World Env Event) (l : Locals)
         (buffer : string) (e1 e2 : Env) (qs : ExtractedQuestions)
         (q : PastPaperQuestion),
    readFile ext imagePath (env w) = (Ok buffer, e1) ->
    generate_object ext "qwen3-vl-plus"
      (Extraction.ocr_text questionTypes topics)
      (Extraction.ocr_image ext imagePath buffer) e1 = (Ok qs, e2) ->
    In q qs ->
    ~ 1 <= q.(difficulty) <= 5 ->
    process_image ext CONFIG questionTypes topics imagePath w l
    = (Ok tt,
       {| env := e2;
          trace :=
            (trace w
               ++ [ReadFile imagePath (Ok buffer);
                   GenerateObject "qwen3-vl-plus"
                     (Extraction.ocr_text questionTypes topics)
                     (Extraction.ocr_image ext imagePath buffer) (Ok qs);
                   ConsoleError "Error performing OCR:" schema_violation;
                   ConsoleError
                     ("  ✗ Error processing " ++ path_basename ext imagePath
                      ++ ":")
                     schema_violation])%list |},
       {| allRecords := allRecords l;
          successCount := successCount l;
          errorCount := errorCount l + 1 |}).
Proof.
  intros Env ext CONFIG questionTypes topics imagePath w l buffer e1 e2 qs q
    Hread Hmodel Hq Hrange.
  assert (Hschema : ExtractedQuestionsSchema qs = false).
  { destruct (ExtractedQuestionsSchema qs) eqn:Hall; [| reflexivity].
    unfold ExtractedQuestionsSchema in Hall.
    rewrite forallb_forall in Hall. specialize (Hall q Hq).
    unfold PastPaperQuestionSchema in Hall.
    apply andb_true_iff in Hall. destruct Hall as [_ Hall].
    apply andb_true_iff in Hall. destruct Hall as [Hlo Hhi].
    apply Z.leb_le in Hlo, Hhi. lia. }
  unfold process_image, try_catch. unfold bind at 1.
  rewrite Extraction.performOCR_run, Hread. cbv zeta.
  rewrite Hmodel, Hschema.
  unfold bind, emit, modify_locals, incr_errorCount. cbn [trace env].
  rewrite <- !app_assoc. reflexivity.
Qed.

Definition outside_the_schema : PastPaperQuestion :=
  {| topic := "師說";
     question := "Q2";
     answer := "A2";
     question_number := 2;
     question_year := 2023;
     subject := "Chinese";
     explanation := "E2";
     difficulty := 6;
     grade_level := "S6";
     question_type_name := "文句翻譯與名句摘錄" |}.

Definition careless_model : External unit :=
  {| select_question_types := fun _ e => (Ok Examples.example_types, e);
     select_topics := fun _ e => (Ok [], e);
     readdir := fun _ e => (Ok ["page1.png"], e);
     readFile := fun _ e => (Ok "PNG", e);
     generate_object :=
       fun _ _ _ e =>
         (Ok [ExtractionExamples.candidate 1 "文句翻譯與名句摘錄";
              outside_the_schema], e);
     embed := fun _ _ e => (Ok [0.5%float], e);
     toISOString := fun e => ("2025-01-01T00:00:00.000Z", e);
     writeFile := fun _ _ _ e => (Ok tt, e);
     insert_pastpaper := fun _ e => (Ok ["row-1"], e);
     base64 := fun s => s;
     path_basename := fun s => s;
     path_join := fun a b => a ++ "/" ++ b;
     JSON_stringify := fun _ => "{}" |}.

Lemma schema_violation_discards_the_image_witness :
  snd (process_image careless_model ExtractionExamples.example_config
         Examples.example_types [] "page1.png" Examples.fresh init_locals)
  = {| allRecords := []; successCount := 0; errorCount := 1 |}.
Proof.
  rewrite (schema_violation_discards_the_image unit careless_model
             ExtractionExamples.example_config Examples.example_types []
             "page1.png" Examples.fresh init_locals "PNG" tt tt
             [ExtractionExamples.candidate 1 "文句翻譯與名句摘錄";
              outside_the_schema]
             outside_the_schema);
    [reflexivity | reflexivity | reflexivity | right; left; reflexivity
     | simpl; lia].
Defined.

(** The events of a run that found no image. *)
Definition early_exit (CONFIG : Config) (questionTypes : list QuestionType)
           (topics : list Topic) (files : list string) : list Event :=
  [ SelectQuestionTypes (UploaderOutcome.question_types_query CONFIG)
      (Ok questionTypes);
    SelectTopics (UploaderOutcome.topics_query CONFIG) (Ok topics);
    ReadDir (pastpapersFolder CONFIG) (Ok files);
    ConsoleWarn ("No image files found in " ++ pastpapersFolder CONFIG) ].

(** X10.  When the listing of the folder has no [.jpg], [.jpeg] or
    [.png] name, the run warns and returns early without a summary: it
    has made the three setup calls and nothing else (no image read, no
    model or embedding request, no file written, nothing inserted), and
    the counters are untouched.  Conversely a run returns without a
    summary only in this way. *)
Theorem no_image_files_ends_the_run_early :
  forall (Env : Type) (ext : External Env) (CONFIG : Config)
         (w : World Env Event) (l : Locals),
    (forall questionTypes e1 topics e2 files e3,
        select_question_types ext (UploaderOutcome.question_types_query CONFIG)
          (env w) = (Ok questionTypes, e1) ->
        select_topics ext (UploaderOutcome.topics_query CONFIG) e1
        = (Ok topics, e2) ->
        readdir ext (pastpapersFolder CONFIG) e2 = (Ok files, e3) ->
        filter Extraction.is_image files = [] ->
        processAndExtractQuestions ext CONFIG w l
        = (Ok None,
           {| env := e3;
              trace := (trace w
                          ++ early_exit CONFIG questionTypes topics files)%list
           |}, l))
    /\ (let '(r, w', l') := processAndExtractQuestions ext CONFIG w l in
        r = Ok None ->
        l' = l
        /\ exists questionTypes topics files,
            filter Extraction.is_image files = []
            /\ trace w'
               = (trace w
                    ++ early_exit CONFIG questionTypes topics files)%list).
Proof.
  intros Env ext CONFIG w l. split.
  - intros questionTypes e1 topics e2 files e3 Htypes Htopics Hdir Hnone.
    unfold processAndExtractQuestions. unfold bind at 1.
    rewrite UploaderOutcome.fetchQuestionTypes_cases, Htypes.
    unfold bind at 1. rewrite UploaderOutcome.fetchTopics_cases.
    cbn [env trace]. rewrite Htopics.
    unfold bind at 1. rewrite UploaderOutcome.readImageFiles_cases.
    cbn [env trace]. rewrite Hdir, Hnone.
    cbn [List.length Z.of_nat Z.eqb]. unfold ret, early_exit.
    rewrite <- !app_assoc. reflexivity.
  - destruct (processAndExtractQuestions ext CONFIG w l) as [[r w'] l']
      eqn:Hrun.
    revert Hrun. unfold processAndExtractQuestions. unfold bind at 1.
    rewrite UploaderOutcome.fetchQuestionTypes_cases.
    destruct (select_question_types ext
                (UploaderOutcome.question_types_query CONFIG) (env w))
      as [[questionTypes | message] e1]; [| intros [= <- <- <-]; discriminate].
    unfold bind at 1. rewrite UploaderOutcome.fetchTopics_cases.
    cbn [env trace].
    destruct (select_topics ext (UploaderOutcome.topics_query CONFIG) e1)
      as [[topics | message] e2]; [| intros [= <- <- <-]; discriminate].
    unfold bind at 1. rewrite UploaderOutcome.readImageFiles_cases.
    cbn [env trace].
    destruct (readdir ext (pastpapersFolder CONFIG) e2)
      as [[files | message] e3]; [| intros [= <- <- <-]; discriminate].
    destruct (Z.of_nat (List.length (filter Extraction.is_image files)) =? 0)
      eqn:Hlen.
    + cbn [List.length Z.of_nat Z.eqb]. unfold ret.
      intros [= <- <- <-] _. split; [reflexivity |].
      exists questionTypes, topics, files. split.
      * apply Z.eqb_eq in Hlen. apply length_zero_iff_nil. lia.
      * cbn [trace]. unfold early_exit. rewrite <- !app_assoc. reflexivity.
    + rewrite length_map, Hlen.
      unfold bind at 1, modify_locals at 1. unfold bind at 1.
      match goal with
      | |- context [for_of ?fs ?body ?w0 init_locals] =>
          destruct (for_of fs body w0 init_locals)
            as [[[[] | message] w4] l4]
      end; [| intros [= <- <- <-]; discriminate].
      unfold bind at 1.
      destruct (review_then_upload ext CONFIG w4 l4)
        as [[[[] | message] w5] l5]; [| intros [= <- <- <-]; discriminate].
      unfold bind, get_locals, ret. intros [= <- <- <-]. discriminate.
Qed.

Definition empty_folder : External unit :=
  {| select_question_types := fun _ e => (Ok Examples.example_types, e);
     select_topics := fun _ e => (Ok [], e);
     readdir := fun _ e => (Ok ["notes.txt"; "scan.pdf"], e);
     readFile := fun _ e => (Ok "PNG", e);
     generate_object := fun _ _ _ e => (Ok [], e);
     embed := fun _ _ e => (Ok [0.5%float], e);
     toISOString := fun e => ("2025-01-01T00:00:00.000Z", e);
     writeFile := fun _ _ _ e => (Ok tt, e);
     insert_pastpaper := fun _ e => (Ok ["row-1"], e);
     base64 := fun s => s;
     path_basename := fun s => s;
     path_join := fun a b => a ++ "/" ++ b;
     JSON_stringify := fun _ => "{}" |}.

Lemma no_image_files_ends_the_run_early_witness :
  fst (fst (processAndExtractQuestions empty_folder
              ExtractionExamples.example_config Examples.fresh init_locals))
  = Ok None.
Proof.
  rewrite (proj1 (no_image_files_ends_the_run_early unit empty_folder
                    ExtractionExamples.example_config Examples.fresh
                    init_locals)
             Examples.example_types tt [] tt ["notes.txt"; "scan.pdf"] tt);
    reflexivity.
Defined.

End UploaderEdges.

(** ** The textbook uploader: the map of files, the counters, fatal reads *)

(** The keys of an object after [object_set]: an existing key keeps its
    place, a new one goes to the end. *)
Definition add_key (key : string) (keys : list string) : list string :=
  if existsb (fun k => (k =? key)%string) keys then keys
  else (keys ++ [key])%list.

Lemma object_set_keys {V : Type} (key : string) (value : V)
      (o : list (string * V)) :
  map fst (object_set key value o) = add_key key (map fst o).
Proof.
  unfold add_key. induction o as [| [k v] o IH]; simpl; [reflexivity |].
  destruct (k =? key)%string; simpl; [reflexivity |].
  rewrite IH. now destruct (existsb _ (map fst o)).
Qed.

Lemma add_key_In (key k : string) (keys : list string) :
  In k (add_key key keys) <-> In k keys \/ k = key.
Proof.
  unfold add_key. destruct (existsb _ keys) eqn:Hex.
  - apply existsb_exists in Hex. destruct Hex as [k' [Hin Heq]].
    apply String.eqb_eq in Heq. rewrite Heq in Hin.
    split; [now left |]. intros [H | H]; [exact H | now rewrite H].
  - rewrite in_app_iff. simpl. intuition congruence.
Qed.

Lemma add_key_NoDup (key : string) (keys : list string) :
  NoDup keys -> NoDup (add_key key keys).
Proof.
  intros Hnd. unfold add_key. destruct (existsb _ keys) eqn:Hex; [exact Hnd |].
  apply NoDup_app; [exact Hnd | repeat constructor; intros [] |].
  intros k Hin [Heq | []]. subst k.
  assert (Hyes : existsb (fun k' => (k' =? key)%string) keys = true).
  { apply existsb_exists. exists key.
    split; [exact Hin | apply String.eqb_refl]. }
  congruence.
Qed.

Module TextbookOutcome.
Import TextbookUploader.

(** The events of a reading phase that went well. *)
Definition is_quiet_read (ev : Event) : bool :=
  match ev with
  | ReadDir _ (Ok _) => true
  | ReadFile _ _ (Ok _) => true
  | ConsoleWarn _ => true
  | _ => false
  end.

(** A listing or a file that could not be read. *)
Definition is_read_failure (ev : Event) : bool :=
  match ev with
  | ReadDir _ (Err _) => true
  | ReadFile _ _ (Err _) => true
  | _ => false
  end.


(** The paths of the files whose reading was attempted, in order. *)
Fixpoint files_read (t : list Event) : list string :=
  match t with
  | [] => []
  | ReadFile path _ _ :: t' => path :: files_read t'
  | _ :: t' => files_read t'
  end.


(** The inserts the store accepted: it answered with at least one row. *)
Fixpoint accepted (t : list Event) : Z :=
  match t with
  | [] => 0
  | Insert _ (Ok (_ :: _)) :: t' => 1 + accepted t'
  | _ :: t' => accepted t'
  end.

(** The failure lines of the loop over the textbooks. *)
Definition is_report (ev : Event) : bool :=
  match ev with
  | ConsoleError label _ => prefix "  ✗ Error processing " label
  | _ => false
  end.


Lemma files_read_app t1 t2 :
  files_read (t1 ++ t2) = (files_read t1 ++ files_read t2)%list.
Proof.
  induction t1 as [| ev t1 IH]; [reflexivity |].
  destruct ev; cbn [files_read List.app]; now rewrite ?IH.
Qed.







Section Steps.
Context {Env : Type} (ext : External Env).

(** The loop of [readTextbookFiles] over the [.txt] names. *)
Lemma read_loop (folderPath : string) (xs : list string) :
  forall (w : World Env Event) (l : list (string * string)) r w' l',
    for_of xs
      (fun file =>
         let filePath := path_join ext folderPath file in
         read <- ask (readFile ext filePath "utf-8")
                   (ReadFile filePath "utf-8") ;;
         content <- await read ;;
         modify_locals (object_set file content)) w l = (r, w', l') ->
    exists t,
      trace w' = (trace w ++ t)%list
      /\ match r with
         | Ok _ =>
             Forall (fun ev => is_quiet_read ev = true) t
             /\ files_read t = map (path_join ext folderPath) xs
             /\ map fst l'
                = fold_left (fun keys key => add_key key keys) xs (map fst l)
             /\ forall file content,
                 In (file, content) l' ->
                 In (file, content) l
                 \/ In (ReadFile (path_join ext folderPath file) "utf-8"
                          (Ok content)) t
         | Err message =>
             exists t0 path,
               t = (t0 ++ [ReadFile path "utf-8" (Err message)])%list
               /\ Forall (fun ev => is_quiet_read ev = true) t0
         end.
Proof.
  induction xs as [| file xs IH]; intros w l r w' l'.
  - cbn [for_of]. unfold ret. intros [= <- <- <-]. exists [].
    rewrite app_nil_r. split; [reflexivity |]. split; [constructor |].
    split; [reflexivity |]. split; [reflexivity | auto].
  - cbn [for_of]. unfold bind at 1. cbv zeta. unfold bind at 1, ask at 1.
    destruct (readFile ext (path_join ext folderPath file) "utf-8" (env w))
      as [[content | message] e1]; cbn [await].
    + unfold bind at 1, ret at 1, modify_locals at 1.
      intros Hrest. apply IH in Hrest. destruct Hrest as [t [Ht Hr]].
      cbn [trace] in Ht. eexists. rewrite Ht, <- app_assoc.
      split; [reflexivity |].
      destruct r as [[] | message].
      * destruct Hr as [Hquiet [Hpaths [Hkeys Hentries]]].
        split; [constructor; [reflexivity | exact Hquiet] |].
        split; [cbn [files_read List.app map]; now rewrite Hpaths |].
        split; [rewrite Hkeys, object_set_keys; reflexivity |].
        intros file' content' Hin.
        destruct (Hentries file' content' Hin) as [Hold | Hnew].
        -- apply In_object_set in Hold. destruct Hold as [[= -> ->] | Hold].
           ++ right. now left.
           ++ now left.
        -- right. now right.
      * destruct Hr as [t0 [path [-> Hquiet]]].
        exists (ReadFile (path_join ext folderPath file) "utf-8" (Ok content)
                  :: t0), path.
        split; [reflexivity |]. now constructor.
    + unfold bind, throw. intros [= <- <- <-]. eexists.
      split; [reflexivity |].
      exists [], (path_join ext folderPath file).
      split; [reflexivity | constructor].
Qed.

(** [readTextbookFiles], by what the file system answered. *)
Lemma readTextbookFiles_cases (folderPath : string) (w : World Env Event)
      (l0 : list (string * string)) r w' l' :
  readTextbookFiles ext folderPath w l0 = (r, w', l') ->
  exists t,
    trace w' = (trace w ++ t)%list
    /\ match r with
       | Ok textbooks =>
           textbooks = l'
           /\ Forall (fun ev => is_quiet_read ev = true) t
           /\ exists files rest,
               t = ReadDir folderPath (Ok files) :: rest
               /\ files_read rest
                  = map (path_join ext folderPath)
                      (filter (fun file => endsWith file ".txt") files)
               /\ map fst textbooks
                  = fold_left (fun keys key => add_key key keys)
                      (filter (fun file => endsWith file ".txt") files) []
               /\ forall file content,
                   In (file, content) textbooks ->
                   In (ReadFile (path_join ext folderPath file) "utf-8"
                         (Ok content)) rest
       | Err message =>
           exists t0 failure,
             t = (t0 ++ [failure;
                         ConsoleError "Error reading textbooks folder:"
                           message])%list
             /\ Forall (fun ev => is_quiet_read ev = true) t0
             /\ is_read_failure failure = true
       end.
Proof.
  unfold readTextbookFiles. unfold bind at 1, modify_locals at 1.
  unfold try_catch. unfold bind at 1, ask at 1.
  destruct (readdir ext folderPath (env w)) as [[files | message] e1];
    cbn [await ret throw emit bind trace env].
  - destruct (Z.of_nat (List.length
                          (filter (fun file => endsWith file ".txt") files))
              =? 0) eqn:Hlen.
    + cbn. intros [= <- <- <-]. eexists. rewrite <- app_assoc.
      split; [reflexivity |]. split; [reflexivity |].
      split; [repeat constructor |].
      exists files, [ConsoleWarn ("No .txt files found in " ++ folderPath)].
      split; [reflexivity |].
      apply Z.eqb_eq in Hlen.
      assert (Hnil : filter (fun file => endsWith file ".txt") files = [])
        by (apply length_zero_iff_nil; lia).
      rewrite Hnil. split; [reflexivity |]. split; [reflexivity |].
      intros file content [].
    + unfold bind at 1.
      match goal with
      | |- context [for_of ?xs ?body ?w1 []] =>
          destruct (for_of xs body w1 []) as [[r1 w2] l2] eqn:Hloop
      end.
      apply read_loop in Hloop. destruct Hloop as [t [Ht Hr]].
      cbn [trace] in Ht.
      destruct r1 as [[] | message].
      * destruct Hr as [Hquiet [Hpaths [Hkeys Hentries]]].
        unfold get_locals. intros [= <- <- <-].
        eexists. rewrite Ht, <- app_assoc. split; [reflexivity |].
        split; [reflexivity |].
        split; [constructor; [reflexivity | exact Hquiet] |].
        exists files, t. split; [reflexivity |].
        split; [exact Hpaths |]. split; [exact Hkeys |].
        intros file content Hin.
        destruct (Hentries file content Hin) as [[] | Hnew]. exact Hnew.
      * destruct Hr as [t0 [path [-> Hquiet]]].
        unfold emit, throw, bind. intros [= <- <- <-].
        eexists. cbn [trace]. rewrite Ht, <- !app_assoc.
        split; [reflexivity |].
        exists (ReadDir folderPath (Ok files) :: t0),
          (ReadFile path "utf-8" (Err message)).
        split; [reflexivity |]. split; [| reflexivity].
        constructor; [reflexivity | exact Hquiet].
  - cbn. intros [= <- <- <-]. eexists. rewrite <- app_assoc.
    split; [reflexivity |].
    exists [], (ReadDir folderPath (Err message)).
    split; [reflexivity |]. split; [constructor | reflexivity].
Qed.

End Steps.

(** X11.  [readTextbookFiles] returns a map only when the listing and
    every read succeeded: then each name of the listing that ends in
    [.txt] was read once, in the order of the listing, nothing failed,
    the keys of the map are exactly these names, each once, and the value
    under a key is a text read from that file; a listing without such a
    name gives the empty map.  When the listing or the reading of any one
    file fails, the function reports the error and throws it again: no
    partial map is returned. *)
Theorem readTextbookFiles_maps_the_text_files :
  forall (Env : Type) (ext : External Env) (folderPath : string)
         (w : World Env Event) (l0 : list (string * string)),
    let '(r, w', _) := readTextbookFiles ext folderPath w l0 in
    match r with
    | Ok textbooks =>
        exists files rest,
          trace w' = (trace w ++ ReadDir folderPath (Ok files) :: rest)%list
          /\ Forall (fun ev => is_quiet_read ev = true) rest
          /\ files_read rest
             = map (path_join ext folderPath)
                 (filter (fun file => endsWith file ".txt") files)
          /\ NoDup (map fst textbooks)
          /\ (forall file,
                 In file (map fst textbooks)
                 <-> In file files /\ endsWith file ".txt" = true)
          /\ (forall file content,
                 In (file, content) textbooks ->
                 In (ReadFile (path_join ext folderPath file) "utf-8"
                       (Ok content)) rest)
    | Err message =>
        exists t failure,
          trace w'
          = (trace w
               ++ t ++ [failure;
                        ConsoleError "Error reading textbooks folder:"
                          message])%list
          /\ Forall (fun ev => is_quiet_read ev = true) t
          /\ is_read_failure failure = true
    end.
Proof.
  intros Env ext folderPath w l0.
  destruct (readTextbookFiles ext folderPath w l0) as [[r w'] l'] eqn:Hrun.
  apply readTextbookFiles_cases in Hrun. destruct Hrun as [t [Ht Hr]].
  destruct r as [textbooks | message].
  - destruct Hr as [_ [Hquiet [files [rest [-> [Hpaths [Hkeys Hentries]]]]]]].
    exists files, rest. split; [exact Ht |].
    split; [now inversion Hquiet |]. split; [exact Hpaths |].
    rewrite Hkeys.
    assert (Hfold : forall xs keys,
               (NoDup keys ->
                NoDup (fold_left (fun keys key => add_key key keys) xs keys))
               /\ forall k,
                   In k (fold_left (fun keys key => add_key key keys) xs keys)
                   <-> In k keys \/ In k xs).
    { induction xs as [| x xs IH]; intros keys; cbn [fold_left].
      - split; [auto |]. intros k. simpl. tauto.
      - destruct (IH (add_key x keys)) as [IH1 IH2]. split.
        + intros Hnd. now apply IH1, add_key_NoDup.
        + intros k. rewrite IH2, add_key_In. simpl. intuition auto. }
    destruct (Hfold (filter (fun file => endsWith file ".txt") files) [])
      as [Hnd Hin].
    split; [apply Hnd; constructor |].
    split; [| exact Hentries].
    intros file. rewrite Hin, filter_In. simpl. tauto.
  - destruct Hr as [t0 [failure [-> [Hquiet Hfail]]]].
    exists t0, failure. split; [exact Ht |]. split; assumption.
Qed.


(** X13.  The metadata of an uploaded row: [filename], [summary] and
    [uploadedAt] are the values of the run and win over properties of
    the same name in [CONFIG.metadata]; every other configured property
    is kept with its value. *)
Theorem metadata_keeps_the_configured_properties :
  forall (CONFIG : Config) (filename summary uploadedAt : string),
    let metadata := make_metadata CONFIG filename summary uploadedAt in
    object_get "filename" metadata = Some (JStr filename)
    /\ object_get "summary" metadata = Some (JStr summary)
    /\ object_get "uploadedAt" metadata = Some (JStr uploadedAt)
    /\ (forall key,
           key <> "filename" -> key <> "summary" -> key <> "uploadedAt" ->
           object_get key metadata
           = object_get key (object_spread (config_metadata CONFIG)))
    /\ NoDup (map fst metadata).
Proof.
  intros CONFIG filename summary uploadedAt metadata. unfold metadata,
    make_metadata.
  split; [| split; [| split; [| split]]].
  - rewrite !object_get_set_other by discriminate.
    apply object_get_set_same.
  - rewrite object_get_set_other by discriminate.
    apply object_get_set_same.
  - apply object_get_set_same.
  - intros key H1 H2 H3. now rewrite !object_get_set_other.
  - rewrite !object_set_keys. do 3 apply add_key_NoDup.
    unfold object_spread.
    assert (Hfold : forall (o acc : list (string * Json)),
               NoDup (map fst acc) ->
               NoDup (map fst
                        (fold_left
                           (fun acc kv => object_set (fst kv) (snd kv) acc)
                           o acc))).
    { induction o as [| kv o IH]; intros acc Hacc; cbn [fold_left];
        [exact Hacc |].
      apply IH. rewrite object_set_keys. now apply add_key_NoDup. }
    apply Hfold. constructor.
Qed.

End TextbookOutcome.

(** ** The past-paper uploader: the summary and what was persisted *)

Module UploaderSummary.
Import PastpaperUploader.

(** The writes of the review file. *)
Fixpoint review_files (t : list Event) : Z :=
  match t with
  | [] => 0
  | WriteFile _ _ _ _ :: t' => 1 + review_files t'
  | _ :: t' => review_files t'
  end.

Lemma review_files_app t1 t2 :
  review_files (t1 ++ t2) = review_files t1 + review_files t2.
Proof.
  induction t1 as [| ev t1 IH]; [reflexivity |].
  destruct ev; cbn [review_files List.app]; rewrite ?IH; lia.
Qed.

Lemma no_persist_events t :
  Forall (fun ev => Extraction.is_persist ev = false) t ->
  Extraction.inserted_rows t = [] /\ review_files t = 0.
Proof.
  induction 1 as [| ev t Hev _ [IH1 IH2]]; [now split |].
  destruct ev; try discriminate;
    cbn [Extraction.inserted_rows review_files]; now split.
Qed.

Lemma upload_events_write_nothing t :
  Forall (fun ev => Extraction.is_upload_event ev = true) t ->
  review_files t = 0.
Proof.
  induction 1 as [| ev t Hev _ IH]; [reflexivity |].
  destruct ev; try discriminate; cbn [review_files]; exact IH.
Qed.

(** X14.  A run that prints its summary has attempted exactly as many
    inserts as the summary counts extracted questions, and has written
    the review file once, unless no question was extracted:
    then it has written no file (not even an empty one) and inserted
    nothing. *)
Theorem summary_counts_what_was_persisted :
  forall (Env : Type) (ext : External Env) (CONFIG : Config)
         (w : World Env Event),
    let '(r, w', _) := processAndExtractQuestions ext CONFIG w init_locals in
    match r with
    | Ok (Some summary) =>
        exists t,
          trace w' = (trace w ++ t)%list
          /\ Z.of_nat (List.length (Extraction.inserted_rows t))
             = questions_extracted summary
          /\ review_files t
             = (if questions_extracted summary =? 0 then 0 else 1)
    | _ => True
    end.
Proof.
  intros Env ext CONFIG w.
  destruct (processAndExtractQuestions ext CONFIG w init_locals)
    as [[r w'] l'] eqn:Hrun.
  destruct r as [[summary |] | message]; [| exact I | exact I].
  destruct (Extraction.processAndExtractQuestions_run ext CONFIG w _ w' l'
              Hrun)
    as [questionTypes [setup [pre [post [r' [Ht [Hsetup [Hpre [_ [_ [_ [_
       [Hpost [Herr [_ Hsummary]]]]]]]]]]]]]]].
  destruct (Hsummary summary eq_refl) as [_ [_ Hcount]].
  destruct (Persistence.setup_events_silent setup Hsetup) as [Hquiet _].
  destruct (no_persist_events setup Hquiet) as [Rsetup Fsetup].
  destruct (no_persist_events pre Hpre) as [Rpre Fpre].
  exists (setup ++ pre ++ post)%list. split; [exact Ht |].
  rewrite !Extraction.inserted_rows_app, !review_files_app, Rsetup, Rpre,
    Fsetup, Fpre, Hcount.
  cbn [List.app]. unfold Extraction.persistence_trace in Hpost.
  destruct (allRecords l') as [| record records].
  - destruct Hpost as [-> _]. split; reflexivity.
  - destruct Hpost as [generated [answer [uploads [-> Hanswer]]]].
    destruct answer as [[] | failure].
    + destruct Hanswer as [Hrows [Hev _]].
      cbn [Extraction.inserted_rows review_files].
      rewrite Hrows, (upload_events_write_nothing uploads Hev).
      split; [reflexivity |].
      change (Z.of_nat (List.length (record :: records)))
        with (Z.pos (Pos.of_succ_nat (List.length records))).
      reflexivity.
    + destruct Hanswer as [_ Hr']. specialize (Herr failure Hr').
      discriminate Herr.
Qed.

End UploaderSummary.
